(** * Veður (Icelandic Met Office) integration: coordinator pipeline

    A shallow embedding of [custom_components/vedur/const.py] and
    [custom_components/vedur/coordinator.py]: the wind-chill calculator, the
    forecast parser, the observation overlay, the daily aggregator, the alert
    feed resolver, the CAP alert parser and the two-phase refresh; with the
    alert attributes of [weather.py] and [sensor.py] and the station check
    of [config_flow.py].

    Conventions of the embedding.
    - A Python [dict] with a fixed set of keys is a record; a key that the
      code only writes under a condition is an [option] field whose [None]
      means "key absent".
    - Python [str] is [string] (a sequence of bytes); [lower], [upper] and
      [strip] act on the ASCII range and leave other bytes alone.
    - Python [float] readings are exact rationals [Q]: the feeds carry short
      decimal numerals; the values nan and inf are not modelled.  The
      wind-chill formula is computed in exact arithmetic (the rounding of
      its binary64 operations is not modelled) with [math.pow] a parameter
      of the development.  The daily aggregation rounds as binary64 does
      (module [Float]); the builtin [sum], whose algorithm on floats is not
      the same in all versions of CPython, is a parameter.
    - [xml.etree.ElementTree] elements are a rose tree; the library's text
      parser, [float()], [datetime.strptime] and [datetime.fromisoformat] are
      parameters (they are library code, not code of this repository).
    - The network of one refresh cycle is a function from the ordinal of a
      request and its URL to the outcome of that request. *)

From Stdlib Require Import String Ascii ZArith QArith Qround Qabs Qpower Lia
  OrderedTypeEx.
From stdpp Require Import base option list gmap strings sorting.

Set Warnings "-register-all".

Local Open Scope string_scope.
Local Open Scope list_scope.

(** ** Python strings *)

Module Str.

Definition is_upper (c : ascii) : bool :=
  ((65 <=? nat_of_ascii c) && (nat_of_ascii c <=? 90))%nat.

Definition is_lower (c : ascii) : bool :=
  ((97 <=? nat_of_ascii c) && (nat_of_ascii c <=? 122))%nat.

Definition lower_char (c : ascii) : ascii :=
  if is_upper c then ascii_of_nat (nat_of_ascii c + 32) else c.

Definition upper_char (c : ascii) : ascii :=
  if is_lower c then ascii_of_nat (nat_of_ascii c - 32) else c.

(** [str.lower()] and [str.upper()] *)
Fixpoint lower (s : string) : string :=
  match s with
  | EmptyString => EmptyString
  | String c r => String (lower_char c) (lower r)
  end.

Fixpoint upper (s : string) : string :=
  match s with
  | EmptyString => EmptyString
  | String c r => String (upper_char c) (upper r)
  end.

(** The ASCII characters for which [str.isspace()] holds. *)
Definition is_space (c : ascii) : bool :=
  let n := nat_of_ascii c in
  ((n =? 32) || ((9 <=? n) && (n <=? 13)) || ((28 <=? n) && (n <=? 31)))%nat.

Fixpoint lstrip (s : string) : string :=
  match s with
  | EmptyString => EmptyString
  | String c r => if is_space c then lstrip r else s
  end.

(** [rstrip] keeps a character when it is not a space or when something
    is kept after it. *)
Fixpoint rstrip (s : string) : string :=
  match s with
  | EmptyString => EmptyString
  | String c r =>
      match rstrip r with
      | EmptyString => if is_space c then EmptyString else String c EmptyString
      | r' => String c r'
      end
  end.

(** [str.strip()] *)
Definition strip (s : string) : string := rstrip (lstrip s).

(** [s.startswith(p)] *)
Fixpoint startswith (s p : string) : bool :=
  match p, s with
  | EmptyString, _ => true
  | String _ _, EmptyString => false
  | String a p', String b s' => if Ascii.eqb a b then startswith s' p' else false
  end.

(** [sub in s] *)
Fixpoint contains (s sub : string) : bool :=
  startswith s sub ||
  match s with
  | EmptyString => false
  | String _ s' => contains s' sub
  end.

(** [s.endswith(p)] *)
Fixpoint endswith (s p : string) : bool :=
  String.eqb s p ||
  match s with
  | EmptyString => false
  | String _ s' => endswith s' p
  end.

(** Truth value of a string: empty is false. *)
Definition truthy (s : string) : bool :=
  match s with EmptyString => false | String _ _ => true end.

(** Truth value of [str | None]. *)
Definition otruthy (o : option string) : bool :=
  match o with Some s => truthy s | None => false end.

End Str.

(** ** ElementTree elements *)

Inductive Element : Type :=
  Elem (tag : string) (attrib : list (string * string))
       (text : option string) (children : list Element).

Module ET.

Definition tag (e : Element) : string :=
  match e with Elem t _ _ _ => t end.
Definition attrib (e : Element) : list (string * string) :=
  match e with Elem _ a _ _ => a end.
Definition text (e : Element) : option string :=
  match e with Elem _ _ x _ => x end.
Definition children (e : Element) : list Element :=
  match e with Elem _ _ _ cs => cs end.

(** All elements strictly below [e], in document order. *)
Fixpoint descendants (e : Element) : list Element :=
  match e with
  | Elem _ _ _ cs =>
      (fix go (l : list Element) : list Element :=
         match l with
         | [] => []
         | c :: r => c :: descendants c ++ go r
         end) cs
  end.

Definition has_tag (t : string) (e : Element) : bool := String.eqb (tag e) t.

(** [e.findall(t)]: the direct children with tag [t]. *)
Definition findall (e : Element) (t : string) : list Element :=
  List.filter (has_tag t) (children e).

(** [e.find(t)]: the first direct child with tag [t]. *)
Definition find (e : Element) (t : string) : option Element :=
  head (findall e t).

(** [e.findall(".//t")] and [e.find(".//t")]. *)
Definition findall_deep (e : Element) (t : string) : list Element :=
  List.filter (has_tag t) (descendants e).

Definition find_deep (e : Element) (t : string) : option Element :=
  head (findall_deep e t).

(** [elem.get(key, "")] *)
Fixpoint get (a : list (string * string)) (key : string) : string :=
  match a with
  | [] => ""
  | (k, v) :: r => if String.eqb k key then v else get r key
  end.

(** Truth value of an element: [Element.__bool__] is [len(elem) != 0],
    so an element without child elements is false. *)
Definition truthy (e : Element) : bool :=
  match children e with [] => false | _ :: _ => true end.

(** [a or b] on [Element | None]. *)
Definition or_else (a b : option Element) : option Element :=
  match a with
  | Some e => if truthy e then a else b
  | None => b
  end.

(** [a or b] on lists of elements: the empty list is false. *)
Definition or_list (a b : list Element) : list Element :=
  match a with [] => b | _ :: _ => a end.

End ET.

(** ** Numbers *)

Module Num.

(** [x > y] and [x < y] *)
Definition gtb (x y : Q) : bool := negb (Qle_bool x y).
Definition ltb (x y : Q) : bool := negb (Qle_bool y x).

(** Nearest integer, ties to the even one. *)
Definition round_half_even (x : Q) : Z :=
  let f := Qfloor x in
  match Qcompare (x - inject_Z f) (1 # 2) with
  | Lt => f
  | Gt => (f + 1)%Z
  | Eq => if Z.even f then f else (f + 1)%Z
  end.

(** [round(x, 1)] *)
Definition round1 (x : Q) : Q := Qmake (round_half_even (x * 10)) 10.

(** [max(xs)] and [min(xs)] on a non-empty list: the first element is kept
    until a strictly greater (smaller) one is met. *)
Definition max_from (x : Q) (xs : list Q) : Q :=
  fold_left (fun best y => if gtb y best then y else best) xs x.
Definition min_from (x : Q) (xs : list Q) : Q :=
  fold_left (fun best y => if ltb y best then y else best) xs x.

(** [max(xs) if xs else None], [min(xs) if xs else None] *)
Definition max_opt (xs : list Q) : option Q :=
  match xs with [] => None | x :: r => Some (max_from x r) end.
Definition min_opt (xs : list Q) : option Q :=
  match xs with [] => None | x :: r => Some (min_from x r) end.

End Num.

(** ** Binary64 numbers

    A Python [float] is a binary64 number, hence a rational; an operation
    on floats gives the binary64 number nearest to the exact result.  The
    range of the exponent (overflow, subnormal numbers) is not modelled. *)

Module Float.

Definition pow2 (z : Z) : Q := Qpower 2 z.

(** The exponent [e] of a non-zero [x]: [2^e <= |x| < 2^(e+1)]. *)
Definition exponent (x : Q) : Z :=
  let e0 := (Z.log2 (Z.abs (Qnum x)) - Z.log2 (Zpos (Qden x)))%Z in
  if Qle_bool (pow2 e0) (Qabs x) then e0 else (e0 - 1)%Z.

(** The binary64 number nearest to [x], ties to the even significand: [x]
    is scaled to a significand of 53 bits, which is rounded to an integer;
    the result is in lowest terms. *)
Definition fl (x : Q) : Q :=
  if Qeq_bool x 0 then 0%Q
  else
    let s := (52 - exponent x)%Z in
    Qred (inject_Z (Num.round_half_even (x * pow2 s)) * pow2 (- s)).

(** [x + y] on floats *)
Definition add (x y : Q) : Q := fl (x + y).

(** [x / n] for a float [x] and an int [n] *)
Definition truediv (x : Q) (n : nat) : Q := fl (x / inject_Z (Z.of_nat n)).

(** [round(x, 1)] on a float: the exact value of [x] rounded to one
    decimal, ties to the even digit, and the float nearest to that
    decimal. *)
Definition round1 (x : Q) : Q := fl (Num.round1 x).

End Float.

(** ** const.py *)

Definition ALERTS_URL : string :=
  "https://api.vedur.is/cap/v1/capbroker/active/feed/met".

Definition FORECAST_URL (station_id : string) : string :=
  "https://xmlweather.vedur.is/?op_w=xml&type=forec&lang=en&view=xml&ids="
  ++ station_id.

Definition OBSERVATION_URL (station_id : string) : string :=
  "https://xmlweather.vedur.is/?op_w=xml&type=obs&lang=en&view=xml&ids="
  ++ station_id.

Definition WIND_DIRECTION_MAP : list (string * Q) :=
  [ ("N", 0); ("NNA", 22.5); ("NA", 45); ("ANA", 67.5);
    ("A", 90); ("ASA", 112.5); ("SA", 135); ("SSA", 157.5);
    ("S", 180); ("SSV", 202.5); ("SV", 225); ("VSV", 247.5);
    ("V", 270); ("VNV", 292.5); ("NV", 315); ("NNV", 337.5);
    ("NNE", 22.5); ("NE", 45); ("ENE", 67.5); ("E", 90);
    ("ESE", 112.5); ("SE", 135); ("SSE", 157.5); ("SSW", 202.5);
    ("SW", 225); ("WSW", 247.5); ("W", 270); ("WNW", 292.5); ("NW", 315)
  ]%Q.

Definition CONDITION_MAP : list (string * string) :=
  [ ("clear sky", "sunny");
    ("partly cloudy", "partlycloudy");
    ("cloudy", "cloudy");
    ("overcast", "cloudy");
    ("light rain", "rainy");
    ("rain", "rainy");
    ("rain showers", "rainy");
    ("drizzle", "rainy");
    ("light drizzle", "rainy");
    ("snow", "snowy");
    ("light snow", "snowy");
    ("snow showers", "snowy");
    ("sleet", "snowy-rainy");
    ("light sleet", "snowy-rainy");
    ("fog", "fog");
    ("mist", "fog");
    ("thunder", "lightning");
    ("thunderstorm", "lightning-rainy") ].

Definition SEVERITY_MAP : list (string * string) :=
  [ ("extreme", "red");
    ("severe", "orange");
    ("moderate", "yellow");
    ("minor", "yellow");
    ("unknown", "unknown") ].

Definition SEVERITY_ORDER : list (string * Z) :=
  [ ("red", 3); ("orange", 2); ("yellow", 1); ("unknown", 0) ]%Z.

(** [d.get(key)] and [d.get(key, default)] on a literal dict. *)
Fixpoint dict_get {V : Type} (d : list (string * V)) (key : string) : option V :=
  match d with
  | [] => None
  | (k, v) :: r => if String.eqb k key then Some v else dict_get r key
  end.

Definition dict_get_default {V : Type} (d : list (string * V)) (key : string)
    (dflt : V) : V :=
  match dict_get d key with Some v => v | None => dflt end.

(** One alert: the dict built by [_parse_cap_xml].  [areaDesc] and
    [identifier] are keys written only under a condition. *)
Record Alert : Type := mkAlert {
  event : option string;
  severity : option string;
  severity_color : string;
  onset : option string;
  expires : option string;
  headline : option string;
  description : option string;
  urgency : option string;
  certainty : option string;
  link : string;
  areaDesc : option (option string);
  identifier : option string
}.

(** The loop of [highest_severity], from the state [(best, best_val)]. *)
Definition highest_severity_step (st : string * Z) (alert : Alert) : string * Z :=
  let sev := severity_color alert in
  let val := dict_get_default SEVERITY_ORDER sev 0%Z in
  if (val >? snd st)%Z then (sev, val) else st.

Definition highest_severity (alerts : list Alert) : string :=
  fst (fold_left highest_severity_step alerts ("none", (-1)%Z)).

(** ** Dates and times *)

Record DateTime : Type := mkDateTime {
  year : nat; month : nat; day : nat;
  hour : nat; minute : nat; second : nat
}.

Module Iso.

Definition digit (n : nat) : ascii := ascii_of_nat (48 + n mod 10).

Definition pad2 (n : nat) : string :=
  String (digit (n / 10)) (String (digit n) EmptyString).

Definition pad4 (n : nat) : string :=
  String (digit (n / 1000)) (String (digit (n / 100)) (pad2 n)).

(** [d.date().isoformat()]: YYYY-MM-DD *)
Definition date (d : DateTime) : string :=
  pad4 (year d) ++ "-" ++ pad2 (month d) ++ "-" ++ pad2 (day d).

(** [d.isoformat()] for a datetime in UTC without microseconds. *)
Definition datetime_utc (d : DateTime) : string :=
  date d ++ "T" ++ pad2 (hour d) ++ ":" ++ pad2 (minute d) ++ ":"
  ++ pad2 (second d) ++ "+00:00".

End Iso.

(** ** The dicts of coordinator.py *)

(** One entry of [forecast_hourly].  The last four keys are written only
    when the feed supplies them. *)
Module Hourly.
Record t : Type := mk {
  datetime : string;
  temperature : option Q;
  condition : string;
  wind_speed : option Q;
  wind_bearing : option Q;
  apparent_temperature : option Q;
  wind_gust : option Q;
  precipitation : option Q;
  cloud_coverage : option Q;
  humidity : option Q
}.
End Hourly.

(** One entry of [forecast_daily].  [temperature], [templow] and
    [condition] are always present (possibly [None]); the last three keys
    are written only when the day has a sample. *)
Module Daily.
Record t : Type := mk {
  datetime : string;
  temperature : option Q;
  templow : option Q;
  condition : option string;
  wind_speed : option Q;
  wind_gust : option Q;
  precipitation : option Q
}.
End Daily.

(** The data dict of one refresh.  [observation_time] is written only by
    the overlay. *)
Module Data.
Record t : Type := mk {
  station_name : string;
  station_id : string;
  temperature : option Q;
  wind_speed : option Q;
  wind_gust : option Q;
  wind_direction : option string;
  wind_bearing : option Q;
  condition_text : option string;
  condition : string;
  forecast_time : option string;
  precipitation : option Q;
  cloud_cover : option Q;
  dew_point : option Q;
  humidity : option Q;
  pressure : option Q;
  visibility : option Q;
  feels_like : option Q;
  alerts : list Alert;
  forecast_hourly : list Hourly.t;
  forecast_daily : list Daily.t;
  observation_time : option string
}.

(** [data[key] = v] for the keys the overlay and the refresh write. *)
Definition set_temperature (v : option Q) (d : t) : t :=
  mk (station_name d) (station_id d) v (wind_speed d) (wind_gust d)
     (wind_direction d) (wind_bearing d) (condition_text d) (condition d)
     (forecast_time d) (precipitation d) (cloud_cover d) (dew_point d)
     (humidity d) (pressure d) (visibility d) (feels_like d) (alerts d)
     (forecast_hourly d) (forecast_daily d) (observation_time d).
Definition set_wind_speed (v : option Q) (d : t) : t :=
  mk (station_name d) (station_id d) (temperature d) v (wind_gust d)
     (wind_direction d) (wind_bearing d) (condition_text d) (condition d)
     (forecast_time d) (precipitation d) (cloud_cover d) (dew_point d)
     (humidity d) (pressure d) (visibility d) (feels_like d) (alerts d)
     (forecast_hourly d) (forecast_daily d) (observation_time d).
Definition set_wind_gust (v : option Q) (d : t) : t :=
  mk (station_name d) (station_id d) (temperature d) (wind_speed d) v
     (wind_direction d) (wind_bearing d) (condition_text d) (condition d)
     (forecast_time d) (precipitation d) (cloud_cover d) (dew_point d)
     (humidity d) (pressure d) (visibility d) (feels_like d) (alerts d)
     (forecast_hourly d) (forecast_daily d) (observation_time d).
Definition set_wind_direction (v : option string) (d : t) : t :=
  mk (station_name d) (station_id d) (temperature d) (wind_speed d)
     (wind_gust d) v (wind_bearing d) (condition_text d) (condition d)
     (forecast_time d) (precipitation d) (cloud_cover d) (dew_point d)
     (humidity d) (pressure d) (visibility d) (feels_like d) (alerts d)
     (forecast_hourly d) (forecast_daily d) (observation_time d).
Definition set_wind_bearing (v : option Q) (d : t) : t :=
  mk (station_name d) (station_id d) (temperature d) (wind_speed d)
     (wind_gust d) (wind_direction d) v (condition_text d) (condition d)
     (forecast_time d) (precipitation d) (cloud_cover d) (dew_point d)
     (humidity d) (pressure d) (visibility d) (feels_like d) (alerts d)
     (forecast_hourly d) (forecast_daily d) (observation_time d).
Definition set_condition_text (v : option string) (d : t) : t :=
  mk (station_name d) (station_id d) (temperature d) (wind_speed d)
     (wind_gust d) (wind_direction d) (wind_bearing d) v (condition d)
     (forecast_time d) (precipitation d) (cloud_cover d) (dew_point d)
     (humidity d) (pressure d) (visibility d) (feels_like d) (alerts d)
     (forecast_hourly d) (forecast_daily d) (observation_time d).
Definition set_condition (v : string) (d : t) : t :=
  mk (station_name d) (station_id d) (temperature d) (wind_speed d)
     (wind_gust d) (wind_direction d) (wind_bearing d) (condition_text d) v
     (forecast_time d) (precipitation d) (cloud_cover d) (dew_point d)
     (humidity d) (pressure d) (visibility d) (feels_like d) (alerts d)
     (forecast_hourly d) (forecast_daily d) (observation_time d).
Definition set_precipitation (v : option Q) (d : t) : t :=
  mk (station_name d) (station_id d) (temperature d) (wind_speed d)
     (wind_gust d) (wind_direction d) (wind_bearing d) (condition_text d)
     (condition d) (forecast_time d) v (cloud_cover d) (dew_point d)
     (humidity d) (pressure d) (visibility d) (feels_like d) (alerts d)
     (forecast_hourly d) (forecast_daily d) (observation_time d).
Definition set_cloud_cover (v : option Q) (d : t) : t :=
  mk (station_name d) (station_id d) (temperature d) (wind_speed d)
     (wind_gust d) (wind_direction d) (wind_bearing d) (condition_text d)
     (condition d) (forecast_time d) (precipitation d) v (dew_point d)
     (humidity d) (pressure d) (visibility d) (feels_like d) (alerts d)
     (forecast_hourly d) (forecast_daily d) (observation_time d).
Definition set_dew_point (v : option Q) (d : t) : t :=
  mk (station_name d) (station_id d) (temperature d) (wind_speed d)
     (wind_gust d) (wind_direction d) (wind_bearing d) (condition_text d)
     (condition d) (forecast_time d) (precipitation d) (cloud_cover d) v
     (humidity d) (pressure d) (visibility d) (feels_like d) (alerts d)
     (forecast_hourly d) (forecast_daily d) (observation_time d).
Definition set_humidity (v : option Q) (d : t) : t :=
  mk (station_name d) (station_id d) (temperature d) (wind_speed d)
     (wind_gust d) (wind_direction d) (wind_bearing d) (condition_text d)
     (condition d) (forecast_time d) (precipitation d) (cloud_cover d)
     (dew_point d) v (pressure d) (visibility d) (feels_like d) (alerts d)
     (forecast_hourly d) (forecast_daily d) (observation_time d).
Definition set_pressure (v : option Q) (d : t) : t :=
  mk (station_name d) (station_id d) (temperature d) (wind_speed d)
     (wind_gust d) (wind_direction d) (wind_bearing d) (condition_text d)
     (condition d) (forecast_time d) (precipitation d) (cloud_cover d)
     (dew_point d) (humidity d) v (visibility d) (feels_like d) (alerts d)
     (forecast_hourly d) (forecast_daily d) (observation_time d).
Definition set_visibility (v : option Q) (d : t) : t :=
  mk (station_name d) (station_id d) (temperature d) (wind_speed d)
     (wind_gust d) (wind_direction d) (wind_bearing d) (condition_text d)
     (condition d) (forecast_time d) (precipitation d) (cloud_cover d)
     (dew_point d) (humidity d) (pressure d) v (feels_like d) (alerts d)
     (forecast_hourly d) (forecast_daily d) (observation_time d).
Definition set_feels_like (v : option Q) (d : t) : t :=
  mk (station_name d) (station_id d) (temperature d) (wind_speed d)
     (wind_gust d) (wind_direction d) (wind_bearing d) (condition_text d)
     (condition d) (forecast_time d) (precipitation d) (cloud_cover d)
     (dew_point d) (humidity d) (pressure d) (visibility d) v (alerts d)
     (forecast_hourly d) (forecast_daily d) (observation_time d).
Definition set_alerts (v : list Alert) (d : t) : t :=
  mk (station_name d) (station_id d) (temperature d) (wind_speed d)
     (wind_gust d) (wind_direction d) (wind_bearing d) (condition_text d)
     (condition d) (forecast_time d) (precipitation d) (cloud_cover d)
     (dew_point d) (humidity d) (pressure d) (visibility d) (feels_like d) v
     (forecast_hourly d) (forecast_daily d) (observation_time d).
Definition set_observation_time (v : option string) (d : t) : t :=
  mk (station_name d) (station_id d) (temperature d) (wind_speed d)
     (wind_gust d) (wind_direction d) (wind_bearing d) (condition_text d)
     (condition d) (forecast_time d) (precipitation d) (cloud_cover d)
     (dew_point d) (humidity d) (pressure d) (visibility d) (feels_like d)
     (alerts d) (forecast_hourly d) (forecast_daily d) v.
End Data.

(** ** Exceptions, results and the network *)

Inductive Exn : Type := UpdateFailed | TimeoutError | ClientError.

Inductive Result (A : Type) : Type :=
  | Ok (a : A)
  | Raise (e : Exn).
Arguments Ok {A} a.
Arguments Raise {A} e.

(** [isinstance(r, Exception)] on a result collected by
    [asyncio.gather(..., return_exceptions=True)]. *)
Definition is_exception {A : Type} (r : Result A) : bool :=
  match r with Ok _ => false | Raise _ => true end.

(** What [session.get(url)] followed by [response.text()] gives: an
    exception, or a status and a body. *)
Inductive Fetch : Type :=
  | Fails (e : Exn)
  | Response (status : Z) (body : string).

(** Python's order on strings, as used by [sorted]. *)
Definition str_le (a b : string) : Prop := String.leb a b = true.

#[global] Instance str_le_dec : RelDecision str_le.
Proof. intros a b. unfold str_le. apply _. Defined.

(** [max(it, key=key)]: the first element whose key is maximal. *)
Definition max_by_key {A : Type} (key : A -> nat) (it : list A) : option A :=
  match it with
  | [] => None
  | x :: r =>
      Some (fold_left (fun best y => if (key best <? key y)%nat then y else best) r x)
  end.

(** [l.count(x)] *)
Definition count (l : list string) (x : string) : nat :=
  length (List.filter (String.eqb x) l).

(** The namespaces the alert code looks for (locals of [_parse_alert_feed]
    and [_parse_cap_xml]). *)
Definition atom_ns : string := "{http://www.w3.org/2005/Atom}".
Definition cap_ns : string := "{urn:oasis:names:tc:emergency:cap:1.2}".

(** ** Stand-ins for the library calls

    Small executable versions of the library functions the coordinator is
    parameterised by, for running the model on concrete feeds.  They cover
    the plain inputs used in the examples only. *)

Module Sample.

Definition digit_val (c : ascii) : option nat :=
  let n := nat_of_ascii c in
  if ((48 <=? n) && (n <=? 57))%nat then Some (n - 48)%nat else None.

Fixpoint nat_of_digits (s : string) (acc : nat) : option nat :=
  match s with
  | EmptyString => Some acc
  | String c r =>
      match digit_val c with
      | Some d => nat_of_digits r (10 * acc + d)%nat
      | None => None
      end
  end.

Definition parse_nat (s : string) : option nat :=
  match s with
  | EmptyString => None
  | String _ _ => nat_of_digits s 0
  end.

(** Splits at the first dot. *)
Fixpoint split_dot (s : string) : string * option string :=
  match s with
  | EmptyString => (EmptyString, None)
  | String c r =>
      if Ascii.eqb c "."%char then (EmptyString, Some r)
      else let '(a, b) := split_dot r in (String c a, b)
  end.

Definition unsigned_decimal (s : string) : option Q :=
  match split_dot s with
  | (i, None) => (fun n => inject_Z (Z.of_nat n)) <$> parse_nat i
  | (i, Some f) =>
      n ← parse_nat i;
      m ← parse_nat f;
      Some (Qmake (Z.of_nat (n * 10 ^ String.length f + m))
                  (Pos.of_nat (10 ^ String.length f)))
  end.

(** [float()] on numerals of the form [-]ddd[.ddd]. *)
Definition float (s : string) : option Q :=
  match s with
  | String "-"%char r => Qopp <$> unsigned_decimal r
  | _ => unsigned_decimal s
  end.

Definition char_at (n : nat) (s : string) : option ascii := String.get n s.

Definition in_range (lo n hi : nat) : bool := ((lo <=? n) && (n <=? hi))%nat.

Definition date_time_fields (s : string) (sep : ascii) : option DateTime :=
  if (if char_at 4 s is Some "-"%char then true else false)
     && (if char_at 7 s is Some "-"%char then true else false)
     && (if char_at 10 s is Some c then Ascii.eqb c sep else false)
     && (if char_at 13 s is Some ":"%char then true else false)
     && (if char_at 16 s is Some ":"%char then true else false)
  then
    y ← parse_nat (substring 0 4 s);
    mo ← parse_nat (substring 5 2 s);
    d ← parse_nat (substring 8 2 s);
    h ← parse_nat (substring 11 2 s);
    mi ← parse_nat (substring 14 2 s);
    se ← parse_nat (substring 17 2 s);
    if (1 <=? y)%nat && in_range 1 mo 12 && in_range 1 d 31
       && in_range 0 h 23 && in_range 0 mi 59 && in_range 0 se 59
    then Some (mkDateTime y mo d h mi se)
    else None
  else None.

(** [strptime(s, "%Y-%m-%d %H:%M:%S")] on fully padded input. *)
Definition strptime (s : string) : option DateTime :=
  if (String.length s =? 19)%nat then date_time_fields s " "%char else None.

(** [datetime.fromisoformat] on YYYY-MM-DDTHH:MM:SS+00:00. *)
Definition fromisoformat (s : string) : option DateTime :=
  if ((String.length s =? 25)%nat && String.eqb (substring 19 6 s) "+00:00")%bool
  then date_time_fields s "T"%char
  else None.

(** A stand-in for [math.pow]; its values play no role in the examples. *)
Definition pow (x y : Q) : Q := 1.5%Q.

(** One iteration order for [set(l)]: first occurrences, in order.  Python
    fixes no order: a set of strings is iterated by hash, and CPython salts
    the hashes of strings per process. *)
Fixpoint set_iter (l : list string) : list string :=
  match l with
  | [] => []
  | x :: r => x :: List.filter (fun y => negb (String.eqb x y)) (set_iter r)
  end.

(** A text parser given by a table of documents. *)
Definition fromstring (docs : list (string * Element)) (s : string) : option Element :=
  dict_get docs s.

(** An element with text and no children. *)
Definition leaf (tag text : string) : Element := Elem tag [] (Some text) [].

(** A network given by a table from URL to outcome; a URL that is not in
    the table cannot be reached. *)
Definition net (table : list (string * Fetch)) (n : nat) (url : string) : Fetch :=
  dict_get_default table url (Fails ClientError).

(** *** A forecast feed: three entries over two dates *)

Definition fc1 : Element :=
  Elem "forecast" [] None
    [leaf "ftime" "2024-03-01 12:00:00"; leaf "F" "4.0"; leaf "D" "NNA";
     leaf "T" "5"; leaf "W" "Light rain"].
Definition fc2 : Element :=
  Elem "forecast" [] None
    [leaf "ftime" "2024-03-01 18:00:00"; leaf "F" "6.0"; leaf "D" "N";
     leaf "T" "9"; leaf "W" "Cloudy"].
Definition fc3 : Element :=
  Elem "forecast" [] None
    [leaf "ftime" "2024-03-02 00:00:00"; leaf "T" "-2"; leaf "W" "Clear sky"].

(** An entry whose timestamp is not of the expected form, and one
    without a timestamp. *)
Definition fc_bad : Element :=
  Elem "forecast" [] None [leaf "ftime" "tomorrow"; leaf "T" "1"].
Definition fc_none : Element :=
  Elem "forecast" [] None [leaf "T" "1"].

Definition forecast_root : Element :=
  Elem "forecasts" [] None
    [Elem "station" [("id", "1")] None
       [leaf "name" "Reykjavik"; fc1; fc2; fc3]].

Definition empty_station_root : Element :=
  Elem "forecasts" [] None [Elem "station" [("id", "1")] None [leaf "name" "Reykjavik"]].

Definition observation_root : Element :=
  Elem "observations" [] None
    [Elem "station" [("id", "1")] None
       [leaf "time" "2024-03-01 11:00:00"; leaf "T" "7.5"; leaf "F" "3"]].

(** *** CAP documents *)

(** A namespaced CAP alert, as a CAP 1.2 document is parsed: an English
    and an Icelandic info block. *)
Definition info_en : Element :=
  Elem (cap_ns ++ "info") [] None
    [leaf (cap_ns ++ "language") "en-US";
     leaf (cap_ns ++ "event") "Gale warning";
     leaf (cap_ns ++ "severity") "Severe"].
Definition info_is : Element :=
  Elem (cap_ns ++ "info") [] None
    [leaf (cap_ns ++ "language") "is";
     leaf (cap_ns ++ "event") "Stormur";
     leaf (cap_ns ++ "severity") "Severe"].
Definition cap_namespaced : Element :=
  Elem (cap_ns ++ "alert") [] None
    [leaf (cap_ns ++ "identifier") "2.49.0.1.352.0.240301"; info_en; info_is].

(** The same alert without a namespace. *)
Definition bare_info (lang event sev : string) : Element :=
  Elem "info" [] None
    [leaf "language" lang; leaf "event" event; leaf "severity" sev].
Definition cap_bare (ident sev : string) : Element :=
  Elem "alert" [] None
    [leaf "identifier" ident;
     bare_info "en-US" "Gale warning" sev;
     bare_info "is" "Stormur" sev].

(** *** An alert index with twelve entries *)

Definition feed_entry (href : string) : Element :=
  Elem (atom_ns ++ "entry") [] None
    [Elem (atom_ns ++ "link") [("href", href)] None []].

Definition feed_root : Element :=
  Elem (atom_ns ++ "feed") [] None
    (map feed_entry
       ["https://cap/1"; "https://cap/2"; "https://cap/3"; "https://cap/4";
        "https://cap/5"; "https://cap/6"; "https://cap/7"; "https://cap/8";
        "https://cap/9"; "https://cap/10"; "https://cap/11"; "https://cap/12"]).

Definition empty_feed_root : Element := Elem (atom_ns ++ "feed") [] None [].

(** The documents the text parser knows; any other body is not XML. *)
Definition docs : list (string * Element) :=
  [ ("<forecasts/>", forecast_root);
    ("<forecasts empty/>", empty_station_root);
    ("<observations/>", observation_root);
    ("<feed/>", feed_root);
    ("<feed empty/>", empty_feed_root);
    ("<alert minor/>", cap_bare "A" "Minor");
    ("<alert extreme/>", cap_bare "B" "Extreme");
    ("<alert ns/>", cap_namespaced) ].

(** The requests that are answered in every sample network. *)
Definition weather_table : list (string * Fetch) :=
  [ (FORECAST_URL "1", Response 200 "<forecasts/>");
    (OBSERVATION_URL "1", Response 200 "<observations/>") ].

(** Alert details: link 1 and 5 give an alert, 2 times out, 3 is not
    found, 4 is not XML, 11 would give an alert, the others cannot be
    reached. *)
Definition detail_table : list (string * Fetch) :=
  [ ("https://cap/1", Response 200 "<alert minor/>");
    ("https://cap/2", Fails TimeoutError);
    ("https://cap/3", Response 404 "");
    ("https://cap/4", Response 200 "not xml");
    ("https://cap/5", Response 200 "<alert extreme/>");
    ("https://cap/11", Response 200 "<alert extreme/>") ].

Definition net_alerts : nat -> string -> Fetch :=
  net (weather_table ++ (ALERTS_URL, Response 200 "<feed/>") :: detail_table).

(** The same network, except that link 11 and link 12 now time out. *)
Definition net_alerts_late : nat -> string -> Fetch :=
  net (weather_table ++ (ALERTS_URL, Response 200 "<feed/>")
       :: ("https://cap/11", Fails TimeoutError)
       :: ("https://cap/12", Fails TimeoutError) :: detail_table).

Definition net_index_503 : nat -> string -> Fetch :=
  net (weather_table ++ [(ALERTS_URL, Response 503 "")]).

Definition net_index_empty : nat -> string -> Fetch :=
  net (weather_table ++ [(ALERTS_URL, Response 200 "<feed empty/>")]).

Definition net_index_down : nat -> string -> Fetch :=
  net weather_table.

Definition net_no_observation : nat -> string -> Fetch :=
  net [ (FORECAST_URL "1", Response 200 "<forecasts/>");
        (OBSERVATION_URL "1", Response 500 "") ].

Definition net_no_forecast : nat -> string -> Fetch :=
  net [ (FORECAST_URL "1", Response 500 "");
        (OBSERVATION_URL "1", Response 200 "<observations/>") ].

Definition net_empty_forecast : nat -> string -> Fetch :=
  net [ (FORECAST_URL "1", Response 200 "<forecasts empty/>");
        (OBSERVATION_URL "1", Response 200 "<observations/>") ].

(** An alert known from the previous cycle, and the dict that held it. *)
Definition old_alert : Alert :=
  mkAlert (Some "Stormur") (Some "Severe") "orange" None None None None None
          None "https://cap/0" None (Some "old").

Definition previous_data : Data.t :=
  Data.mk "Reykjavik" "1" (Some 3%Q) None None None None None "cloudy" None
          None None None None None None (Some 3%Q) [old_alert] [] [] None.

Definition yellow_alert : Alert :=
  mkAlert (Some "Hvassvidri") (Some "Moderate") "yellow" None None None None
          None None "https://cap/7" None None.

Definition red_alert : Alert :=
  mkAlert (Some "Ofsavedur") (Some "Extreme") "red" None None None None None
          None "https://cap/8" None None.

End Sample.

(** ** weather.py and sensor.py: what the entities show *)

Module Weather.

(** The dict of [VedurWeather.extra_state_attributes]; the last three keys
    are written only under a condition. *)
Record Attrs : Type := mk_attrs {
  alert_count : nat;
  highest_alert_severity : string;
  alerts : option (list Alert);
  precipitation : option Q;
  observation_time : option string
}.

(** [coordinator_data] is [self.coordinator.data]. *)
Definition extra_state_attributes (coordinator_data : option Data.t) : option Attrs :=
  match coordinator_data with
  | None => None
  | Some data =>
      let alerts := Data.alerts data in
      Some (mk_attrs
              (length alerts)
              (match alerts with
               | [] => "none"
               | _ :: _ => highest_severity alerts
               end)
              (match alerts with
               | [] => None
               | _ :: _ => Some alerts
               end)
              (Data.precipitation data)
              (match Data.observation_time data with
               | Some obs_time => if Str.truthy obs_time then Some obs_time else None
               | None => None
               end))
  end.

End Weather.

Module Sensor.

(** The dict of [VedurSensor.extra_state_attributes]. *)
Record Attrs : Type := mk_attrs {
  alerts : list Alert;
  highest_severity_attr : string
}.

(** The [value_fn] of the sensor with key alert_count. *)
Definition alert_count_value_fn (data : Data.t) : nat :=
  length (Data.alerts data).

(** [key] is [self.entity_description.key]. *)
Definition extra_state_attributes (key : string)
    (coordinator_data : option Data.t) : option Attrs :=
  match coordinator_data with
  | None => None
  | Some data =>
      if negb (String.eqb key "alert_count") then None
      else
        match Data.alerts data with
        | [] => None
        | (_ :: _) as alerts => Some (mk_attrs alerts (highest_severity alerts))
        end
  end.

End Sensor.

(** ** config_flow.py: outcomes of the station check *)

Definition POPULAR_STATIONS : list (string * string) :=
  [ ("1", "Reykjavík");
    ("422", "Akureyri");
    ("571", "Egilsstaðir");
    ("6015", "Ísafjörður");
    ("802", "Vestmannaeyjar");
    ("1474", "Keflavíkurflugvöllur");
    ("1350", "Selfoss");
    ("4912", "Húsavík");
    ("53", "Patreksfjörður");
    ("6272", "Bolungarvík");
    ("2642", "Blönduós");
    ("2481", "Sauðárkrókur");
    ("3471", "Siglufjörður");
    ("3696", "Ólafsfjörður");
    ("4172", "Grímsey");
    ("5544", "Raufarhöfn");
    ("5767", "Þórshöfn");
    ("625", "Seyðisfjörður");
    ("680", "Neskaupstaður");
    ("705", "Eskifjörður");
    ("798", "Höfn í Hornafirði");
    ("920", "Kirkjubæjarklaustur");
    ("990", "Vík í Mýrdal");
    ("1099", "Hella");
    ("1194", "Hvolsvöllur");
    ("1597", "Þorlákshöfn");
    ("1833", "Grindavík");
    ("31572", "Bláfjöll");
    ("1477", "Reykjanesbær");
    ("1924", "Akranes");
    ("2247", "Borgarnes");
    ("2319", "Stykkishólmur") ].

(** The two exceptions of the station check. *)
Inductive FlowError : Type := CannotConnect | InvalidStation.

(** What [validate_station] does: return the dict with the station's id
    and name, or raise. *)
Inductive Validation : Type :=
  | Valid (station_id station_name : string)
  | Invalid (e : FlowError).

(** Further documents and networks for running the model: a forecast
    whose station is marked valid, as the station check expects it, and an
    observation taken in calm weather, whose direction label is no
    compass point. *)
Module Sample2.

Definition valid_root : Element :=
  Elem "forecasts" [] None
    [Elem "station" [("id", "1"); ("valid", "1")] None
       [Sample.leaf "name" "Reykjavik"; Sample.fc1; Sample.fc2; Sample.fc3]].

Definition calm_station : Element :=
  Elem "station" [("id", "1")] None
    [Sample.leaf "time" "2024-03-01 11:00:00"; Sample.leaf "T" "7.5";
     Sample.leaf "F" "0"; Sample.leaf "D" "Logn"].

Definition calm_root : Element := Elem "observations" [] None [calm_station].

Definition docs : list (string * Element) :=
  [ ("<forecasts valid/>", valid_root);
    ("<forecasts/>", Sample.forecast_root);
    ("<observations calm/>", calm_root) ].

Definition net_valid : nat -> string -> Fetch :=
  Sample.net [ (FORECAST_URL "1", Response 200 "<forecasts valid/>") ].

Definition net_unmarked : nat -> string -> Fetch :=
  Sample.net [ (FORECAST_URL "1", Response 200 "<forecasts/>") ].

(** The builtin [sum] on floats as CPython before 3.12 computes it, adding
    from left to right; the compensated sum of later versions gives the
    same floats on the examples. *)
Definition sum (xs : list Q) : Q := fold_left Float.add xs 0%Q.

(** A second iteration order for [set(l)]: the reverse of
    [Sample.set_iter].  (CPython iterates the set of the two strings rainy
    and cloudy in either order, depending on the hash seed of the
    process.) *)
Definition set_iter_rev (l : list string) : list string :=
  rev (Sample.set_iter l).

(** The sample forecast is answered, the observation request is not. *)
Definition net_observation_hangs : nat -> string -> Fetch :=
  Sample.net [ (FORECAST_URL "1", Response 200 "<forecasts/>");
               (OBSERVATION_URL "1", Fails TimeoutError) ].

(** A [math.pow] that differs from [Sample.pow] below 4.8 only. *)
Definition pow_from_threshold (x y : Q) : Q :=
  if Qle_bool 4.8 x then 1.5%Q else 0%Q.

End Sample2.

Section Coordinator.

(** Library code the coordinator calls. *)
Variable fromstring : string -> option Element.    (* ElementTree.fromstring; None: ParseError *)
Variable py_float : string -> option Q.            (* float(); None: ValueError *)
Variable math_pow : Q -> Q -> Q.                   (* math.pow *)
Variable strptime : string -> option DateTime.     (* strptime(_, "%Y-%m-%d %H:%M:%S"); None: ValueError *)
Variable fromisoformat : string -> option DateTime. (* datetime.fromisoformat; None: ValueError *)
Variable set_iter : list string -> list string.    (* iteration order of set(l) in this process *)
Variable py_sum : list Q -> Q.                     (* sum() on a list of floats *)

(** The coordinator's own fields. *)
Variable self_station_id : string.
Variable self_station_name : string.
Variable self_alert_language : string.

Definition _WIND_CHILL_MAX_TEMP : Q := 10.
Definition _WIND_CHILL_MIN_WIND : Q := 4.8.

Definition _wind_chill (temp_c wind_mps : option Q) : option Q :=
  match temp_c, wind_mps with
  | Some temp_c, Some wind_mps =>
      let wind_kmh := (wind_mps * 3.6)%Q in
      if Num.gtb temp_c _WIND_CHILL_MAX_TEMP
         || Num.ltb wind_kmh _WIND_CHILL_MIN_WIND
      then Some temp_c
      else Some (Num.round1
                   (13.12
                    + 0.6215 * temp_c
                    - 11.37 * math_pow wind_kmh 0.16
                    + 0.3965 * temp_c * math_pow wind_kmh 0.16)%Q)
  | _, _ => None
  end.

(** *** XML helpers *)

Definition _parse_xml_root (xml_text : string) : Result Element :=
  match fromstring xml_text with
  | Some root => Ok root
  | None => Raise UpdateFailed
  end.

Definition _text (element : Element) (tag : string) : option string :=
  match ET.find element tag with
  | Some child =>
      if Str.otruthy (ET.text child)
      then Str.strip <$> ET.text child
      else None
  | None => None
  end.

Definition _float (element : Element) (tag : string) : option Q :=
  match ET.find element tag with
  | Some child =>
      if Str.otruthy (ET.text child)
      then ET.text child ≫= (fun t => py_float (Str.strip t))
      else None
  | None => None
  end.

Definition _wind_bearing (element : Element) : option Q :=
  match _text element "D" with
  | Some direction =>
      if Str.truthy direction
      then dict_get WIND_DIRECTION_MAP (Str.upper direction)
      else None
  | None => None
  end.

Definition _map_condition (text : option string) : string :=
  match text with
  | Some text =>
      if Str.truthy text
      then
        let lower := Str.lower text in
        match List.find (fun kv => Str.contains lower (fst kv)) CONDITION_MAP with
        | Some kv => snd kv
        | None => "cloudy"
        end
      else "cloudy"
  | None => "cloudy"
  end.

(** *** Forecast parsing *)

(** One turn of the loop of [_parse_hourly]: [None] is [continue]. *)
Definition hourly_entry (fc : Element) : option Hourly.t :=
  match _text fc "ftime" with
  | Some ftime =>
      if Str.truthy ftime then
        match strptime ftime with
        | Some dt =>
            let temp := _float fc "T" in
            let wind := _float fc "F" in
            Some (Hourly.mk
                    (Iso.datetime_utc dt)
                    temp
                    (_map_condition (_text fc "W"))
                    wind
                    (_wind_bearing fc)
                    (_wind_chill temp wind)
                    (_float fc "FG")
                    (_float fc "R")
                    (_float fc "N")
                    (_float fc "RH"))
        | None => None
        end
      else None
  | None => None
  end.

Definition _parse_hourly (forecasts : list Element) : list Hourly.t :=
  omap hourly_entry forecasts.

(** *** Daily aggregation *)

(** [datetime.fromisoformat(entry["datetime"]).date().isoformat()] *)
Definition date_key (entry : Hourly.t) : option string :=
  Iso.date <$> fromisoformat (Hourly.datetime entry).

(** [by_date[k].append(entry)] on a [defaultdict(list)]; an entry whose
    timestamp does not parse is skipped. *)
Definition by_date_step (by_date : gmap string (list Hourly.t))
    (entry : Hourly.t) : gmap string (list Hourly.t) :=
  match date_key entry with
  | Some k => <[k := default [] (by_date !! k) ++ [entry]]> by_date
  | None => by_date
  end.

Definition group_by_date (hourly : list Hourly.t) : gmap string (list Hourly.t) :=
  fold_left by_date_step hourly ∅.

(** [sorted(by_date)] *)
Definition sorted_keys (by_date : gmap string (list Hourly.t)) : list string :=
  merge_sort str_le (map_to_list by_date).*1.

(** [max(set(conditions), key=conditions.count) if conditions else None] *)
Definition modal_condition (conditions : list string) : option string :=
  match conditions with
  | [] => None
  | _ :: _ => max_by_key (count conditions) (set_iter conditions)
  end.

(** The body of the loop over dates. *)
Definition daily_entry (date_str : string) (entries : list Hourly.t) : Daily.t :=
  let temps := omap Hourly.temperature entries in
  let winds := omap Hourly.wind_speed entries in
  let gusts := omap Hourly.wind_gust entries in
  let precips := omap Hourly.precipitation entries in
  let conditions := List.filter Str.truthy (map Hourly.condition entries) in
  Daily.mk
    (date_str ++ "T00:00:00+00:00")
    (Num.max_opt temps)
    (Num.min_opt temps)
    (modal_condition conditions)
    (match winds with
     | [] => None
     | _ :: _ =>
         Some (Float.round1 (Float.truediv (py_sum winds) (length winds)))
     end)
    (Num.max_opt gusts)
    (match precips with
     | [] => None
     | _ :: _ => Some (Float.round1 (py_sum precips))
     end).

Definition _aggregate_daily (hourly : list Hourly.t) : list Daily.t :=
  match hourly with
  | [] => []
  | _ :: _ =>
      let by_date := group_by_date hourly in
      map (fun date_str => daily_entry date_str (default [] (by_date !! date_str)))
          (sorted_keys by_date)
  end.

Definition _parse_forecast (xml_text : string) : Result Data.t :=
  match _parse_xml_root xml_text with
  | Raise e => Raise e
  | Ok root =>
      match ET.find_deep root "station" with
      | None => Raise UpdateFailed
      | Some station =>
          match ET.findall_deep station "forecast" with
          | [] => Raise UpdateFailed
          | (current :: _) as forecasts =>
              let temp := _float current "T" in
              let wind := _float current "F" in
              let hourly := _parse_hourly forecasts in
              Ok (Data.mk
                    self_station_name
                    self_station_id
                    temp
                    wind
                    (_float current "FG")
                    (_text current "D")
                    (_wind_bearing current)
                    (_text current "W")
                    (_map_condition (_text current "W"))
                    (_text current "ftime")
                    (_float current "R")
                    (_float current "N")
                    (_float current "TD")
                    (_float current "RH")
                    (_float current "P")
                    (_float current "V")
                    (_wind_chill temp wind)
                    []
                    hourly
                    (_aggregate_daily hourly)
                    None)
          end
      end
  end.

(** *** Observation overlay *)

(** [obs_map]: the key written (as its setter) and the feed tag read. *)
Definition obs_map : list ((option Q -> Data.t -> Data.t) * string) :=
  [ (Data.set_temperature, "T");
    (Data.set_wind_speed, "F");
    (Data.set_wind_gust, "FG");
    (Data.set_humidity, "RH");
    (Data.set_pressure, "P");
    (Data.set_dew_point, "TD");
    (Data.set_precipitation, "R");
    (Data.set_cloud_cover, "N");
    (Data.set_visibility, "V") ].

(** One turn of the loop over [obs_map]. *)
Definition overlay_step (station : Element) (data : Data.t)
    (kt : (option Q -> Data.t -> Data.t) * string) : Data.t :=
  match _float station (snd kt) with
  | Some val => fst kt (Some val) data
  | None => data
  end.

(** [for key, tag in obs_map.items(): ...] *)
Definition overlay_numeric (station : Element) (data : Data.t) : Data.t :=
  fold_left (overlay_step station) obs_map data.

Definition overlay_wind_direction (station : Element) (data : Data.t) : Data.t :=
  match _text station "D" with
  | Some obs_dir =>
      if Str.truthy obs_dir then
        let data := Data.set_wind_direction (Some obs_dir) data in
        match dict_get WIND_DIRECTION_MAP (Str.upper obs_dir) with
        | Some bearing => Data.set_wind_bearing (Some bearing) data
        | None => data
        end
      else data
  | None => data
  end.

Definition overlay_condition (station : Element) (data : Data.t) : Data.t :=
  match _text station "W" with
  | Some obs_weather =>
      if Str.truthy obs_weather then
        Data.set_condition (_map_condition (Some obs_weather))
          (Data.set_condition_text (Some obs_weather) data)
      else data
  | None => data
  end.

Definition overlay_feels_like (data : Data.t) : Data.t :=
  Data.set_feels_like
    (_wind_chill (Data.temperature data) (Data.wind_speed data)) data.

Definition overlay_time (station : Element) (data : Data.t) : Data.t :=
  match _text station "time" with
  | Some obs_time =>
      if Str.truthy obs_time
      then Data.set_observation_time (Some obs_time) data
      else data
  | None => data
  end.

(** The function mutates [data] in place; here it returns the new dict. *)
Definition _apply_observations (data : Data.t) (xml_text : string) : Data.t :=
  match _parse_xml_root xml_text with
  | Raise _ => data
  | Ok root =>
      match ET.find_deep root "station" with
      | None => data
      | Some station =>
          let data := overlay_numeric station data in
          let data := overlay_wind_direction station data in
          let data := overlay_condition station data in
          let data := overlay_feels_like data in
          overlay_time station data
      end
  end.

(** *** Alerts (CAP) *)

(** The loop of [_extract_link]: [inl href] is the early [return href],
    [inr fallback] the state after the last element. *)
Fixpoint extract_link_loop (link_elems : list Element)
    (fallback : option string) : string + option string :=
  match link_elems with
  | [] => inr fallback
  | elem :: rest =>
      let href := ET.get (ET.attrib elem) "href" in
      if Str.truthy href
         && (Str.contains (ET.get (ET.attrib elem) "type") "xml"
             || Str.endswith href "/xml/")
      then inl href
      else
        extract_link_loop rest
          (match fallback with
           | None => if Str.truthy href then Some href else None
           | Some _ => fallback
           end)
  end.

Definition _extract_link (entry : Element) : option string :=
  let link_elems :=
    ET.or_list (ET.findall entry (atom_ns ++ "link")) (ET.findall entry "link") in
  match extract_link_loop link_elems None with
  | inl href => Some href
  | inr (Some fallback) => Some fallback
  | inr None =>
      match ET.find entry "link" with
      | Some link_elem =>
          if Str.otruthy (ET.text link_elem)
          then Str.strip <$> ET.text link_elem
          else None
      | None => None
      end
  end.

Definition _parse_alert_feed (content : string) : list string :=
  match fromstring content with
  | None => []
  | Some root =>
      let entries :=
        ET.or_list (ET.findall_deep root (atom_ns ++ "entry"))
          (ET.or_list (ET.findall_deep root "entry")
                      (ET.findall_deep root "item")) in
      omap (fun entry =>
              match _extract_link entry with
              | Some link => if Str.truthy link then Some link else None
              | None => None
              end)
           entries
  end.

(** The loop of [_select_info_block]. *)
Fixpoint select_info_loop (info_blocks : list Element)
    (fallback : option Element) : option Element :=
  match info_blocks with
  | [] => fallback
  | info :: rest =>
      let lang_elem :=
        ET.or_else (ET.find info (cap_ns ++ "language"))
                   (ET.find info "language") in
      let lang :=
        match lang_elem with
        | Some e =>
            match ET.text e with
            | Some t => if Str.truthy t then Str.lower (Str.strip t) else ""
            | None => ""
            end
        | None => ""
        end in
      if Str.startswith lang self_alert_language
      then Some info
      else select_info_loop rest
             (match fallback with None => Some info | Some _ => fallback end)
  end.

Definition _select_info_block (info_blocks : list Element) : option Element :=
  select_info_loop info_blocks None.

(** The local helper [txt] of [_parse_cap_xml]. *)
Definition txt (parent : Element) (tag : string) : option string :=
  match ET.or_else (ET.find parent (cap_ns ++ tag)) (ET.find parent tag) with
  | Some elem =>
      if Str.otruthy (ET.text elem)
      then Str.strip <$> ET.text elem
      else None
  | None => None
  end.

(** [x or ""] on [str | None] *)
Definition or_empty (o : option string) : string :=
  match o with
  | Some s => s
  | None => ""
  end.

Definition _parse_cap_xml (content source_url : string) : option Alert :=
  match fromstring content with
  | None => None
  | Some root =>
      let alert_elem :=
        if String.eqb (ET.tag root) (cap_ns ++ "alert")
           || String.eqb (ET.tag root) "alert"
        then Some root
        else ET.or_else (ET.find_deep root (cap_ns ++ "alert"))
                        (ET.find_deep root "alert") in
      match alert_elem with
      | None => None
      | Some alert_elem =>
          let info_blocks :=
            ET.or_list (ET.findall alert_elem (cap_ns ++ "info"))
                       (ET.findall alert_elem "info") in
          match info_blocks with
          | [] => None
          | _ :: _ =>
              match _select_info_block info_blocks with
              | None => None
              | Some info =>
                  let raw_severity := Str.lower (or_empty (txt info "severity")) in
                  let area_elem :=
                    ET.or_else (ET.find info (cap_ns ++ "area"))
                               (ET.find info "area") in
                  let ident :=
                    ET.or_else (ET.find alert_elem (cap_ns ++ "identifier"))
                               (ET.find alert_elem "identifier") in
                  Some (mkAlert
                          (txt info "event")
                          (txt info "severity")
                          (dict_get_default SEVERITY_MAP raw_severity "unknown")
                          (txt info "onset")
                          (txt info "expires")
                          (txt info "headline")
                          (txt info "description")
                          (txt info "urgency")
                          (txt info "certainty")
                          source_url
                          ((fun a => txt a "areaDesc") <$> area_elem)
                          (match ident with
                           | Some i =>
                               if Str.otruthy (ET.text i)
                               then Str.strip <$> ET.text i
                               else None
                           | None => None
                           end))
              end
          end
      end
  end.

(** *** The refresh cycle *)

(** [session_get n url]: the outcome of the [n]-th request of the cycle
    (0 forecast, 1 observation, 2 alert index, 3 + i the i-th alert
    detail).  [deadline1] and [deadline2] tell whether the 20 s budget of
    phase 1 and of phase 2 runs out. *)
Variable session_get : nat -> string -> Fetch.
Variable deadline1 : bool.
Variable deadline2 : bool.

Definition _fetch_xml (n : nat) (url : string) : Result string :=
  match session_get n url with
  | Fails e => Raise e
  | Response status body =>
      if (status =? 200)%Z then Ok body else Raise UpdateFailed
  end.

Definition _fetch_weather : Result Data.t :=
  let forecast_xml := _fetch_xml 0 (FORECAST_URL self_station_id) in
  let observation_xml := _fetch_xml 1 (OBSERVATION_URL self_station_id) in
  match forecast_xml with
  | Raise _ => Raise UpdateFailed
  | Ok forecast_xml =>
      match _parse_forecast forecast_xml with
      | Raise e => Raise e
      | Ok data =>
          match observation_xml with
          | Ok observation_xml => Ok (_apply_observations data observation_xml)
          | Raise _ => Ok data
          end
      end
  end.

Definition _fetch_cap_alert (n : nat) (url : string) : Result (option Alert) :=
  match session_get n url with
  | Fails e => Raise e
  | Response status content =>
      if (status =? 200)%Z then Ok (_parse_cap_xml content url) else Ok None
  end.

(** The assembly loop of [_fetch_alerts] over the gathered results. *)
Definition collect_alerts (results : list (Result (option Alert))) : list Alert :=
  omap (fun result =>
          match result with
          | Raise _ => None
          | Ok None => None
          | Ok (Some alert) => Some alert
          end)
       results.

(** [[self._fetch_cap_alert(session, link) for link in links[:10]]]: each
    task is the ordinal and the URL of the request it makes. *)
Definition cap_tasks (links : list string) : list (nat * string) :=
  imap (fun i link => (3 + i, link)%nat) (take 10 links).

(** [asyncio.gather] with [return_exceptions=True]: one result per
    task, in the order of the tasks. *)
Definition gather (tasks : list (nat * string)) : list (Result (option Alert)) :=
  map (fun t => _fetch_cap_alert (fst t) (snd t)) tasks.

Definition _fetch_alerts : Result (list Alert) :=
  match session_get 2 ALERTS_URL with
  | Fails e => Raise e
  | Response status content =>
      if (status =? 200)%Z then
        match _parse_alert_feed content with
        | [] => Ok []
        | (_ :: _) as links => Ok (collect_alerts (gather (cap_tasks links)))
        end
      else Ok []
  end.

(** [self.data] is the dict of the previous successful refresh, if any. *)
Definition _async_update_data (self_data : option Data.t) : Result Data.t :=
  match (if deadline1 then Raise TimeoutError else _fetch_weather) with
  | Raise _ => Raise UpdateFailed
  | Ok data =>
      match (if deadline2 then Raise TimeoutError else _fetch_alerts) with
      | Ok alerts => Ok (Data.set_alerts alerts data)
      | Raise _ =>
          Ok (Data.set_alerts
                (match self_data with
                 | Some d => Data.alerts d
                 | None => []
                 end)
                data)
      end
  end.

(** *** The claims' own vocabulary *)

(** The severity table in the specification's words. *)
Definition severity_tier (text : string) : string :=
  if decide (text = "extreme") then "red"
  else if decide (text = "severe") then "orange"
  else if decide (text = "moderate") then "yellow"
  else if decide (text = "minor") then "yellow"
  else "unknown".

(** The rank [highest_severity] compares. *)
Definition severity_rank (tier : string) : Z :=
  dict_get_default SEVERITY_ORDER tier 0%Z.

(** The timestamp a forecast entry contributes to the hourly series:
    none when the text is missing, empty or not of the expected form. *)
Definition usable_ftime (fc : Element) : option DateTime :=
  match _text fc "ftime" with
  | Some ftime => if Str.truthy ftime then strptime ftime else None
  | None => None
  end.

(** The hourly entries of one date, in the order of the series. *)
Definition entries_on (k : string) (hourly : list Hourly.t) : list Hourly.t :=
  List.filter (fun e => bool_decide (date_key e = Some k)) hourly.

Definition is_max (m : Q) (xs : list Q) : Prop :=
  m ∈ xs /\ forall x, x ∈ xs -> (x <= m)%Q.

Definition is_min (m : Q) (xs : list Q) : Prop :=
  m ∈ xs /\ forall x, x ∈ xs -> (m <= x)%Q.

(** What the specification asks of the summary [s] of date [k] with
    entries [es]. *)
Definition summary_of (k : string) (es : list Hourly.t) (s : Daily.t) : Prop :=
  let temps := omap Hourly.temperature es in
  let winds := omap Hourly.wind_speed es in
  let gusts := omap Hourly.wind_gust es in
  let precips := omap Hourly.precipitation es in
  Daily.datetime s = (k ++ "T00:00:00+00:00")%string
  /\ match Daily.temperature s with
     | Some hi => is_max hi temps
     | None => temps = []
     end
  /\ match Daily.templow s with
     | Some lo => is_min lo temps
     | None => temps = []
     end
  /\ match Daily.wind_speed s with
     | Some mean =>
         winds <> []
         /\ mean = Float.round1 (Float.truediv (py_sum winds) (length winds))
     | None => winds = []
     end
  /\ match Daily.wind_gust s with
     | Some g => is_max g gusts
     | None => gusts = []
     end
  /\ match Daily.precipitation s with
     | Some total => precips <> [] /\ total = Float.round1 (py_sum precips)
     | None => precips = []
     end.

(** The condition codes of a group, as [_aggregate_daily] collects them. *)
Definition conditions_of (es : list Hourly.t) : list string :=
  List.filter Str.truthy (map Hourly.condition es).

(** [r] is the modal condition of [conds]: a code of greatest count, the
    first such one in the iteration order of [set(conds)]. *)
Definition modal_of (conds : list string) (r : option string) : Prop :=
  match r with
  | None => conds = []
  | Some c =>
      c ∈ conds
      /\ (forall c', (count conds c' <= count conds c)%nat)
      /\ exists before after,
           set_iter conds = before ++ c :: after
           /\ forall c', c' ∈ before -> (count conds c' < count conds c)%nat
  end.

(** The keys of the data dict that are not current-conditions fields. *)
Definition frame (d : Data.t) :
    string * string * option string * list Alert
    * list Hourly.t * list Daily.t :=
  (Data.station_name d, Data.station_id d, Data.forecast_time d,
   Data.alerts d, Data.forecast_hourly d, Data.forecast_daily d).

(** [new] written over [old] when present. *)
Definition overlaid {A : Type} (new old : option A) : option A :=
  match new with
  | Some v => Some v
  | None => old
  end.

(** The alert list of the previous cycle, as the refresh reads it. *)
Definition previous_alerts (self_data : option Data.t) : list Alert :=
  match self_data with
  | Some d => Data.alerts d
  | None => []
  end.

(** The observation request fails, answers with another status than 200,
    or its body is not XML. *)
Definition observation_unusable : Prop :=
  match session_get 1 (OBSERVATION_URL self_station_id) with
  | Fails _ => True
  | Response status body => status <> 200%Z \/ fromstring body = None
  end.

(** The alert index answers, but with another status than 200, with a
    body that is not XML, or with a feed without links. *)
Definition index_without_links : Prop :=
  match session_get 2 ALERTS_URL with
  | Fails _ => False
  | Response status content =>
      status <> 200%Z \/ fromstring content = None
      \/ _parse_alert_feed content = []
  end.

(** The alert index request raises, or phase 2 runs out of time. *)
Definition index_raises : Prop :=
  deadline2 = true \/ exists e, session_get 2 ALERTS_URL = Fails e.

(** The alert a task contributes to the list: none when its fetch raises
    or the document does not parse to an alert. *)
Definition alert_of_task (t : nat * string) : list Alert :=
  match _fetch_cap_alert (fst t) (snd t) with
  | Ok (Some alert) => [alert]
  | _ => []
  end.

(** The severity text of an info block, in the specification's words: the
    text of its severity element, under the namespaced or the bare tag;
    empty when there is none. *)
Definition severity_text (info : Element) : string :=
  match ET.find info (cap_ns ++ "severity") with
  | Some e => Str.strip (or_empty (ET.text e))
  | None =>
      match ET.find info "severity" with
      | Some e => Str.strip (or_empty (ET.text e))
      | None => ""
      end
  end.

(** The language code of an info block, in the specification's words: the
    text of its language element, under the namespaced or the bare tag. *)
Definition language_code (info : Element) : string :=
  match ET.find info (cap_ns ++ "language") with
  | Some e => Str.strip (or_empty (ET.text e))
  | None =>
      match ET.find info "language" with
      | Some e => Str.strip (or_empty (ET.text e))
      | None => ""
      end
  end.

(** The selection the specification describes: the first info block whose
    language code starts, case-insensitively, with the preferred language;
    the first block when none does. *)
Definition select_by_language (info_blocks : list Element) : option Element :=
  match List.find
          (fun info => Str.startswith (Str.lower (language_code info))
                                      (Str.lower self_alert_language))
          info_blocks with
  | Some info => Some info
  | None => head info_blocks
  end.

(** Calendar dates as [datetime.date] holds them, and their order. *)
Definition date_valid (d : DateTime) : Prop :=
  (Z.of_nat (year d) < 10000)%Z /\ (month d < 100)%nat /\ (day d < 100)%nat.

Definition date_lt (d1 d2 : DateTime) : Prop :=
  (year d1 < year d2)%nat
  \/ (year d1 = year d2
      /\ ((month d1 < month d2)%nat
          \/ (month d1 = month d2 /\ (day d1 < day d2)%nat))).

(** [k1] comes before [k2] as a date: whenever the two keys are the ISO
    forms of calendar dates, the first date is the earlier one. *)
Definition chronological (k1 k2 : string) : Prop :=
  forall d1 d2,
    k1 = Iso.date d1 -> k2 = Iso.date d2 ->
    date_valid d1 -> date_valid d2 -> date_lt d1 d2.

(** *** Proof steps used more than once *)

(** Unfolds one turn of a [fold_left] over a list given by its elements. *)
Ltac fold_head :=
  match goal with
  | |- context [fold_left ?f (?x :: ?l) ?d] =>
      change (fold_left f (x :: l) d) with (fold_left f l (f d x))
  end.

(** Membership in [obs_map], setter by setter. *)
Ltac each_setter Hin :=
  repeat (apply elem_of_cons in Hin as [-> | Hin]; [reflexivity |]);
  apply elem_of_nil in Hin; contradiction.

(** *** Vocabulary of the further properties *)

(** The condition codes [_map_condition] can produce. *)
Definition condition_codes : list string :=
  [ "sunny"; "partlycloudy"; "cloudy"; "rainy"; "snowy"; "snowy-rainy";
    "fog"; "lightning" ].

(** A compass bearing: one of the sixteen points, in degrees. *)
Definition compass_point (b : Q) : Prop :=
  exists k : Z, (0 <= k < 16)%Z /\ (b == 22.5 * inject_Z k)%Q.

Definition compass_pointb (b : Q) : bool :=
  let k := Qfloor (b / 22.5) in
  (0 <=? k)%Z && (k <? 16)%Z && Qeq_bool b (22.5 * inject_Z k).


(** The tiers an alert can carry. *)
Definition alert_tiers : list string := [ "red"; "orange"; "yellow"; "unknown" ].

(** Every alert of the list carries one of the four tiers. *)
Definition tiered (alerts : list Alert) : Prop :=
  Forall (fun a => severity_color a ∈ alert_tiers) alerts.


(** [x if x else None] on [str | None]: an empty text counts as absent. *)
Definition nonempty (o : option string) : option string :=
  match o with
  | Some s => if Str.truthy s then Some s else None
  | None => None
  end.

Definition on_compass (o : option Q) : Prop :=
  forall b, o = Some b -> (0 <= b)%Q /\ (b < 360)%Q /\ compass_point b.

(** What holds of every entry of the hourly series. *)
Definition hourly_consistent (e : Hourly.t) : Prop :=
  Hourly.apparent_temperature e
  = _wind_chill (Hourly.temperature e) (Hourly.wind_speed e)
  /\ Hourly.condition e ∈ condition_codes
  /\ on_compass (Hourly.wind_bearing e).

(** What holds of the dict of every successful refresh. *)
Definition snapshot_consistent (d : Data.t) : Prop :=
  Data.station_id d = self_station_id
  /\ Data.station_name d = self_station_name
  /\ Data.feels_like d = _wind_chill (Data.temperature d) (Data.wind_speed d)
  /\ Data.condition d = _map_condition (Data.condition_text d)
  /\ on_compass (Data.wind_bearing d)
  /\ Data.forecast_daily d = _aggregate_daily (Data.forecast_hourly d)
  /\ Forall hourly_consistent (Data.forecast_hourly d).


(** The [href] attribute of a link element, and the test of the early
    return of [_extract_link]. *)
Definition href (elem : Element) : string := ET.get (ET.attrib elem) "href".

Definition is_cap_link (elem : Element) : bool :=
  Str.truthy (href elem)
  && (Str.contains (ET.get (ET.attrib elem) "type") "xml"
      || Str.endswith (href elem) "/xml/").

(** The link of a feed entry by precedence: the first link element that
    points to XML, else the first one with an address, else the text of a
    bare link element. *)
Definition best_link (entry : Element) : option string :=
  let link_elems :=
    ET.or_list (ET.findall entry (atom_ns ++ "link")) (ET.findall entry "link") in
  match List.find is_cap_link link_elems with
  | Some elem => Some (href elem)
  | None =>
      match List.find (fun elem => Str.truthy (href elem)) link_elems with
      | Some elem => Some (href elem)
      | None =>
          match ET.find entry "link" with
          | Some link_elem => Str.strip <$> nonempty (ET.text link_elem)
          | None => None
          end
      end
  end.

(** The entries of an alert index: Atom entries when there are any, else
    bare entries, else items. *)
Definition feed_entries (root : Element) : list Element :=
  match ET.findall_deep root (atom_ns ++ "entry") with
  | [] =>
      match ET.findall_deep root "entry" with
      | [] => ET.findall_deep root "item"
      | es => es
      end
  | es => es
  end.

(** A daily summary whose extremes are in order. *)
Definition extremes_ordered (s : Daily.t) : Prop :=
  match Daily.temperature s, Daily.templow s with
  | Some hi, Some lo => (lo <= hi)%Q
  | None, None => True
  | _, _ => False
  end.


(** The text fields [_parse_cap_xml] reads from the selected info block. *)
Definition cap_text_fields : list string :=
  [ "event"; "severity"; "onset"; "expires"; "headline"; "description";
    "urgency"; "certainty" ].

(** The field [tag] of [parent] as a CAP 1.2 document has it: the element
    with the namespaced tag, when there is one, has no child elements, and
    no element carries the bare tag. *)
Definition namespaced_leaf (parent : Element) (tag : string) : bool :=
  match ET.find parent (cap_ns ++ tag) with
  | Some elem => negb (ET.truthy elem)
  | None => true
  end
  && match ET.find parent tag with
     | Some _ => false
     | None => true
     end.

(** The root of a document is the alert element itself. *)
Definition is_alert (root : Element) : Prop :=
  ET.tag root = (cap_ns ++ "alert")%string \/ ET.tag root = "alert".


(** *** config_flow.py *)

(** [get url] is the outcome of the one request of the check; [timeout]
    tells whether its 30 s budget runs out. *)
Definition validate_station (get : string -> Fetch) (timeout : bool)
    (station_id : string) : Validation :=
  let url := FORECAST_URL station_id in
  match (if timeout then Fails TimeoutError else get url) with
  | Fails _ => Invalid CannotConnect
  | Response status xml_text =>
      if negb (status =? 200)%Z then Invalid CannotConnect
      else
        match fromstring xml_text with
        | None => Invalid InvalidStation
        | Some root =>
            match ET.find_deep root "station" with
            | None => Invalid InvalidStation
            | Some station =>
                if negb (String.eqb
                           (dict_get_default (ET.attrib station) "valid" "0") "1")
                then Invalid InvalidStation
                else
                  let fallback :=
                    dict_get_default POPULAR_STATIONS station_id
                      ("Station " ++ station_id)%string in
                  let station_name :=
                    match ET.find station "n" with
                    | Some name_elem =>
                        match ET.text name_elem with
                        | Some text =>
                            if Str.truthy text then Str.strip text else fallback
                        | None => fallback
                        end
                    | None => fallback
                    end in
                  match ET.findall_deep station "forecast" with
                  | [] => Invalid InvalidStation
                  | _ :: _ => Valid station_id station_name
                  end
            end
        end
  end.

(** The station record of a forecast body is marked valid. *)
Definition marked_valid (body : string) : Prop :=
  exists root station,
    fromstring body = Some root
    /\ ET.find_deep root "station" = Some station
    /\ dict_get_default (ET.attrib station) "valid" "0" = "1".


(** The language code of an info block as [_select_info_block] reads it. *)
Definition read_language (info : Element) : string :=
  match ET.or_else (ET.find info (cap_ns ++ "language"))
                   (ET.find info "language") with
  | Some e =>
      match ET.text e with
      | Some t => if Str.truthy t then Str.lower (Str.strip t) else ""
      | None => ""
      end
  | None => ""
  end.


(** ** Properties *)

(** *** Arithmetic helpers *)

Lemma gtb_true (x y : Q) : Num.gtb x y = true <-> (y < x)%Q.
Proof.
  unfold Num.gtb. rewrite negb_true_iff, <- not_true_iff_false, Qle_bool_iff.
  split; [apply Qnot_le_lt | apply Qlt_not_le].
Qed.

Lemma ltb_true (x y : Q) : Num.ltb x y = true <-> (x < y)%Q.
Proof. unfold Num.ltb. apply (gtb_true y x). Qed.

Lemma round_half_even_comp (x y : Q) :
  (x == y)%Q -> Num.round_half_even x = Num.round_half_even y.
Proof.
  intros Hxy. unfold Num.round_half_even.
  rewrite (Qfloor_comp _ _ Hxy).
  assert (Hc : (x - inject_Z (Qfloor y) == y - inject_Z (Qfloor y))%Q)
    by (rewrite Hxy; reflexivity).
  rewrite (Qcompare_comp _ _ Hc (1 # 2) (1 # 2) (Qeq_refl _)).
  reflexivity.
Qed.

Lemma round1_comp (x y : Q) : (x == y)%Q -> Num.round1 x = Num.round1 y.
Proof.
  intros Hxy. unfold Num.round1. f_equal.
  apply round_half_even_comp. rewrite Hxy. reflexivity.
Qed.

(** The JAG/TI expression as the code writes it, term by term, and as the
    formula groups it. *)
Lemma wind_chill_regroup (T P : Q) :
  (13.12 + 0.6215 * T - 11.37 * P + 0.3965 * T * P
   == 13.12 + 0.6215 * T + (-11.37 + 0.3965 * T) * P)%Q.
Proof. ring. Qed.

(** C2. [_wind_chill] is absent exactly when an input is absent; for
    present inputs it returns the temperature unchanged when
    [temp_c > 10] or [wind_mps * 3.6 < 4.8], and otherwise
    [13.12 + 0.6215 T + (-11.37 + 0.3965 T) W^0.16], with [W] the wind in
    km/h, rounded to one decimal place. *)
Theorem wind_chill_claim (temp_c wind_mps : option Q) :
  (_wind_chill temp_c wind_mps = None <-> temp_c = None \/ wind_mps = None)
  /\ (forall T w : Q,
        temp_c = Some T -> wind_mps = Some w ->
        ((10 < T \/ w * 3.6 < 4.8)%Q ->
         _wind_chill temp_c wind_mps = Some T)
        /\ (~ (10 < T \/ w * 3.6 < 4.8)%Q ->
            _wind_chill temp_c wind_mps
            = Some (Num.round1
                      (13.12 + 0.6215 * T
                       + (-11.37 + 0.3965 * T) * math_pow (w * 3.6) 0.16)%Q))).
Proof.
  split.
  - destruct temp_c as [T|], wind_mps as [w|]; simpl;
      try (split; [reflexivity | auto]; fail).
    + split; [| intros [H | H]; discriminate].
      destruct (_ || _); discriminate.
    + split; auto.
    + split; auto.
    + split; auto.
  - intros T w -> ->. simpl.
    destruct (Num.gtb T _WIND_CHILL_MAX_TEMP) eqn:Hg;
      destruct (Num.ltb (w * 3.6) _WIND_CHILL_MIN_WIND) eqn:Hl; simpl.
    + split; [reflexivity |].
      intros Hn. exfalso. apply Hn. left. apply gtb_true, Hg.
    + split; [reflexivity |].
      intros Hn. exfalso. apply Hn. left. apply gtb_true, Hg.
    + split; [reflexivity |].
      intros Hn. exfalso. apply Hn. right. apply ltb_true, Hl.
    + split.
      * intros [H | H].
        -- apply gtb_true in H. unfold _WIND_CHILL_MAX_TEMP in Hg. congruence.
        -- apply ltb_true in H. unfold _WIND_CHILL_MIN_WIND in Hl. congruence.
      * intros _. f_equal. apply round1_comp, wind_chill_regroup.
Qed.

(** *** Severity *)

Lemma severity_map_tier (s : string) :
  dict_get_default SEVERITY_MAP s "unknown" = severity_tier s.
Proof.
  unfold dict_get_default, severity_tier, SEVERITY_MAP, dict_get.
  repeat (case_decide; [subst; reflexivity |]).
  repeat match goal with
         | |- context [String.eqb ?a s] =>
             destruct (String.eqb_spec a s);
             [first [congruence | subst; reflexivity] |]
         end.
  reflexivity.
Qed.

Lemma severity_rank_bounds (s : string) :
  (0 <= severity_rank s <= 3)%Z.
Proof.
  unfold severity_rank, dict_get_default, SEVERITY_ORDER, dict_get.
  repeat (destruct (String.eqb _ s); [lia |]). lia.
Qed.

Lemma severity_rank_red (s : string) : severity_rank s = 3%Z -> s = "red".
Proof.
  unfold severity_rank, dict_get_default, SEVERITY_ORDER, dict_get.
  destruct (String.eqb_spec "red" s) as [E | _]; [congruence |].
  repeat (destruct (String.eqb _ s); [discriminate |]). discriminate.
Qed.

Lemma parse_cap_xml_severity (content url : string) (a : Alert) :
  _parse_cap_xml content url = Some a ->
  severity_color a
  = dict_get_default SEVERITY_MAP (Str.lower (or_empty (severity a))) "unknown".
Proof.
  unfold _parse_cap_xml. intros H.
  repeat case_match; simplify_eq; reflexivity.
Qed.

(** The state of the loop of [highest_severity] after any prefix. *)
Lemma highest_severity_loop (alerts : list Alert) :
  let st := fold_left highest_severity_step alerts ("none", (-1)%Z) in
  (alerts = [] /\ st = ("none", (-1)%Z))
  \/ (exists a, a ∈ alerts
                /\ st = (severity_color a, severity_rank (severity_color a))
                /\ forall b, b ∈ alerts ->
                    (severity_rank (severity_color b)
                     <= severity_rank (severity_color a))%Z).
Proof.
  induction alerts as [| x l IH] using rev_ind; [left; auto |].
  right. rewrite fold_left_app. simpl.
  pose proof (severity_rank_bounds (severity_color x)) as Hx.
  assert (Hlast : x ∈ l ++ [x])
    by (apply elem_of_app; right; apply list_elem_of_here).
  destruct IH as [[-> ->] | (a & Ha & -> & Hmax)].
  - exists x. simpl. unfold highest_severity_step. simpl.
    fold (severity_rank (severity_color x)).
    destruct (Z.gtb_spec (severity_rank (severity_color x)) (-1)); [| lia].
    split; [exact Hlast |]. split; [reflexivity |].
    intros b Hb. apply list_elem_of_singleton in Hb as ->. lia.
  - unfold highest_severity_step. simpl.
    fold (severity_rank (severity_color x)).
    destruct (Z.gtb_spec (severity_rank (severity_color x))
                         (severity_rank (severity_color a))) as [Hgt | Hle].
    + exists x. split; [exact Hlast |]. split; [reflexivity |].
      intros b Hb. apply elem_of_app in Hb as [Hb | Hb].
      * specialize (Hmax b Hb). lia.
      * apply list_elem_of_singleton in Hb as ->. lia.
    + exists a. split; [apply elem_of_app; left; exact Ha |].
      split; [reflexivity |].
      intros b Hb. apply elem_of_app in Hb as [Hb | Hb].
      * apply Hmax, Hb.
      * apply list_elem_of_singleton in Hb as ->. lia.
Qed.

(** What holds of the mapping on every document: the tier of a parsed
    alert is the table applied to the lowercased severity text that the
    parser extracted (absent text counts as empty, hence unknown);
    [highest_severity] is none on the empty list and otherwise the tier of
    an alert of greatest rank, so red whenever a red alert is present. *)
Lemma severity_of_extracted_text :
  (forall content url a,
      _parse_cap_xml content url = Some a ->
      severity_color a = severity_tier (Str.lower (or_empty (severity a))))
  /\ severity_tier "extreme" = "red"
  /\ severity_tier "severe" = "orange"
  /\ severity_tier "moderate" = "yellow"
  /\ severity_tier "minor" = "yellow"
  /\ (forall s, s <> "extreme" -> s <> "severe" -> s <> "moderate" ->
                s <> "minor" -> severity_tier s = "unknown")
  /\ highest_severity [] = "none"
  /\ (forall alerts : list Alert,
         alerts <> [] ->
         exists a, a ∈ alerts
                   /\ highest_severity alerts = severity_color a
                   /\ forall b, b ∈ alerts ->
                       (severity_rank (severity_color b)
                        <= severity_rank (severity_color a))%Z)
  /\ (forall alerts : list Alert,
         (exists a, a ∈ alerts /\ severity_color a = "red") ->
         highest_severity alerts = "red").
Proof.
  split.
  { intros content url a H.
    rewrite (parse_cap_xml_severity _ _ _ H). apply severity_map_tier. }
  do 4 (split; [reflexivity |]).
  split.
  { intros s H1 H2 H3 H4. unfold severity_tier.
    repeat (case_decide; [congruence |]). reflexivity. }
  split; [reflexivity |].
  assert (Hne : forall alerts : list Alert,
             alerts <> [] ->
             exists a, a ∈ alerts
                       /\ highest_severity alerts = severity_color a
                       /\ forall b, b ∈ alerts ->
                           (severity_rank (severity_color b)
                            <= severity_rank (severity_color a))%Z).
  { intros alerts Hne. unfold highest_severity.
    destruct (highest_severity_loop alerts) as [[-> _] | (a & Ha & Hst & Hmax)];
      [congruence |].
    exists a. rewrite Hst. auto. }
  split; [exact Hne |].
  intros alerts (r & Hr & Hred).
  destruct (Hne alerts) as (a & Ha & -> & Hmax).
  { intros ->. apply elem_of_nil in Hr. exact Hr. }
  apply severity_rank_red.
  pose proof (Hmax r Hr) as Hle. rewrite Hred in Hle.
  pose proof (severity_rank_bounds (severity_color a)).
  change (severity_rank "red") with 3%Z in Hle. lia.
Qed.

(** *** The hourly series *)

Lemma hourly_entry_datetime (fc : Element) :
  Hourly.datetime <$> hourly_entry fc = Iso.datetime_utc <$> usable_ftime fc.
Proof.
  unfold hourly_entry, usable_ftime.
  destruct (_text fc "ftime") as [ftime |]; [| reflexivity].
  destruct (Str.truthy ftime); [| reflexivity].
  destruct (strptime ftime); reflexivity.
Qed.

Lemma hourly_entry_skipped (fc : Element) :
  usable_ftime fc = None -> hourly_entry fc = None.
Proof.
  intros H. pose proof (hourly_entry_datetime fc) as E. rewrite H in E.
  destruct (hourly_entry fc); [discriminate | reflexivity].
Qed.

Lemma omap_length_le {A B : Type} (f : A -> option B) (l : list A) :
  (length (omap f l) <= length l)%nat.
Proof.
  induction l as [| x l IH]; [reflexivity |].
  cbn [omap list_omap]. destruct (f x); simpl; lia.
Qed.

Lemma parse_hourly_app (l1 l2 : list Element) :
  _parse_hourly (l1 ++ l2) = _parse_hourly l1 ++ _parse_hourly l2.
Proof. unfold _parse_hourly. apply omap_app. Qed.

Lemma datetime_utc_shape (dt : DateTime) :
  exists body : string, Iso.datetime_utc dt = (body ++ "+00:00")%string /\ String.length body = 19%nat.
Proof.
  exists (Iso.date dt ++ "T" ++ Iso.pad2 (hour dt) ++ ":" ++ Iso.pad2 (minute dt)
          ++ ":" ++ Iso.pad2 (second dt))%string.
  split; reflexivity.
Qed.

(** C10. Every entry of the hourly series carries the UTC ISO timestamp
    of a forecast entry whose [ftime] text is present and parses; a
    forecast entry without such a text contributes nothing (no entry, no
    error), so the series can be shorter than the list of forecast
    entries. *)
Theorem parse_hourly_claim (forecasts : list Element) :
  map Hourly.datetime (_parse_hourly forecasts)
  = map Iso.datetime_utc (omap usable_ftime forecasts)
  /\ (forall e, e ∈ _parse_hourly forecasts ->
        exists fc dt (body : string),
          fc ∈ forecasts /\ usable_ftime fc = Some dt
          /\ Hourly.datetime e = Iso.datetime_utc dt
          /\ Hourly.datetime e = (body ++ "+00:00")%string
          /\ String.length body = 19%nat)
  /\ (forall l1 fc l2,
        forecasts = l1 ++ fc :: l2 -> usable_ftime fc = None ->
        _parse_hourly forecasts = _parse_hourly (l1 ++ l2))
  /\ (length (_parse_hourly forecasts) <= length forecasts)%nat
  /\ (exists fcs,
        (length (_parse_hourly fcs) < length fcs)%nat).
Proof.
  split; [| split; [| split; [| split]]].
  - induction forecasts as [| fc l IH]; [reflexivity |].
    unfold _parse_hourly in *. cbn [omap list_omap].
    pose proof (hourly_entry_datetime fc) as E.
    destruct (hourly_entry fc) as [e |], (usable_ftime fc) as [dt |];
      simpl in E; simplify_eq; cbn [map]; rewrite ?IH; congruence.
  - intros e He. unfold _parse_hourly in He.
    apply list_elem_of_omap in He as (fc & Hfc & He).
    pose proof (hourly_entry_datetime fc) as E. rewrite He in E. simpl in E.
    destruct (usable_ftime fc) as [dt |] eqn:Hu; [| discriminate].
    simpl in E. injection E as E.
    destruct (datetime_utc_shape dt) as (body & Hb & Hlen).
    exists fc, dt, body. rewrite E. auto.
  - intros l1 fc l2 -> Hnone.
    rewrite !parse_hourly_app. f_equal.
    unfold _parse_hourly. cbn [omap list_omap].
    rewrite (hourly_entry_skipped _ Hnone). reflexivity.
  - unfold _parse_hourly. apply omap_length_le.
  - exists [Elem "forecast" [] None []]. simpl. lia.
Qed.

(** *** Order on date keys *)

Lemma str_le_lts (a b : string) :
  str_le a b <-> a = b \/ String_as_OT.lt a b.
Proof.
  unfold str_le, String.leb.
  destruct (String.compare a b) eqn:E.
  - split; [| reflexivity]. intros _. left. apply String_as_OT.cmp_eq, E.
  - split; [| reflexivity]. intros _. right. apply String_as_OT.cmp_lt, E.
  - split; [discriminate |]. intros [-> | H].
    + assert (String_as_OT.cmp b b = Eq) as H by (apply String_as_OT.cmp_eq; reflexivity).
      unfold String_as_OT.cmp in H. congruence.
    + apply String_as_OT.cmp_lt in H. unfold String_as_OT.cmp in H. congruence.
Qed.

Lemma str_le_trans : Transitive str_le.
Proof.
  intros a b c Hab Hbc. apply str_le_lts in Hab, Hbc. apply str_le_lts.
  destruct Hab as [-> | Hab]; [exact Hbc |].
  destruct Hbc as [<- | Hbc]; [right; exact Hab |].
  right. eapply String_as_OT.lt_trans; eassumption.
Qed.

Lemma str_le_total : Total str_le.
Proof. intros a b. apply String.leb_total. Qed.

(** *** Maximum and minimum *)

Lemma max_from_spec (x : Q) (xs : list Q) : is_max (Num.max_from x xs) (x :: xs).
Proof.
  unfold Num.max_from. revert x.
  induction xs as [| y r IH]; intros x; simpl.
  - split; [apply list_elem_of_here |].
    intros z Hz. apply list_elem_of_singleton in Hz as ->. apply Qle_refl.
  - destruct (IH (if Num.gtb y x then y else x)) as [Hin Hmax].
    split.
    + apply elem_of_cons in Hin as [Hin | Hin].
      * rewrite Hin. destruct (Num.gtb y x).
        -- apply list_elem_of_further, list_elem_of_here.
        -- apply list_elem_of_here.
      * do 2 apply list_elem_of_further. exact Hin.
    + intros z Hz.
      assert (Hbest : (x <= (if Num.gtb y x then y else x)
                       /\ y <= (if Num.gtb y x then y else x))%Q).
      { destruct (Num.gtb y x) eqn:E.
        - apply gtb_true in E. split; [apply Qlt_le_weak, E | apply Qle_refl].
        - split; [apply Qle_refl |].
          unfold Num.gtb in E. apply negb_false_iff, Qle_bool_iff in E. exact E. }
      pose proof (Hmax _ (list_elem_of_here _ _)) as Hb.
      apply elem_of_cons in Hz as [-> | Hz].
      * eapply Qle_trans; [apply Hbest | exact Hb].
      * apply elem_of_cons in Hz as [-> | Hz].
        -- eapply Qle_trans; [apply Hbest | exact Hb].
        -- apply Hmax, list_elem_of_further, Hz.
Qed.

Lemma min_from_spec (x : Q) (xs : list Q) : is_min (Num.min_from x xs) (x :: xs).
Proof.
  unfold Num.min_from. revert x.
  induction xs as [| y r IH]; intros x; simpl.
  - split; [apply list_elem_of_here |].
    intros z Hz. apply list_elem_of_singleton in Hz as ->. apply Qle_refl.
  - destruct (IH (if Num.ltb y x then y else x)) as [Hin Hmin].
    split.
    + apply elem_of_cons in Hin as [Hin | Hin].
      * rewrite Hin. destruct (Num.ltb y x).
        -- apply list_elem_of_further, list_elem_of_here.
        -- apply list_elem_of_here.
      * do 2 apply list_elem_of_further. exact Hin.
    + intros z Hz.
      assert (Hbest : ((if Num.ltb y x then y else x) <= x
                       /\ (if Num.ltb y x then y else x) <= y)%Q).
      { destruct (Num.ltb y x) eqn:E.
        - apply ltb_true in E. split; [apply Qlt_le_weak, E | apply Qle_refl].
        - split; [apply Qle_refl |].
          unfold Num.ltb in E. apply negb_false_iff, Qle_bool_iff in E. exact E. }
      pose proof (Hmin _ (list_elem_of_here _ _)) as Hb.
      apply elem_of_cons in Hz as [-> | Hz].
      * eapply Qle_trans; [exact Hb | apply Hbest].
      * apply elem_of_cons in Hz as [-> | Hz].
        -- eapply Qle_trans; [exact Hb | apply Hbest].
        -- apply Hmin, list_elem_of_further, Hz.
Qed.

Lemma max_opt_spec (xs : list Q) :
  match Num.max_opt xs with Some m => is_max m xs | None => xs = [] end.
Proof. destruct xs as [| x r]; [reflexivity | apply max_from_spec]. Qed.

Lemma min_opt_spec (xs : list Q) :
  match Num.min_opt xs with Some m => is_min m xs | None => xs = [] end.
Proof. destruct xs as [| x r]; [reflexivity | apply min_from_spec]. Qed.

Lemma daily_entry_summary (k : string) (es : list Hourly.t) :
  summary_of k es (daily_entry k es).
Proof.
  unfold summary_of, daily_entry. cbn [Daily.datetime Daily.temperature
    Daily.templow Daily.wind_speed Daily.wind_gust Daily.precipitation].
  split; [reflexivity |].
  split; [apply max_opt_spec |].
  split; [apply min_opt_spec |].
  split; [destruct (omap Hourly.wind_speed es); [reflexivity | split; [discriminate | reflexivity]] |].
  split; [apply max_opt_spec |].
  destruct (omap Hourly.precipitation es);
    [reflexivity | split; [discriminate | reflexivity]].
Qed.

(** *** Grouping by date *)

Lemma entries_on_snoc (k : string) (l : list Hourly.t) (e : Hourly.t) :
  entries_on k (l ++ [e])
  = entries_on k l ++ (if bool_decide (date_key e = Some k) then [e] else []).
Proof. unfold entries_on. rewrite List.filter_app. reflexivity. Qed.

Lemma group_by_date_snoc (l : list Hourly.t) (e : Hourly.t) :
  group_by_date (l ++ [e]) = by_date_step (group_by_date l) e.
Proof. unfold group_by_date. rewrite fold_left_app. reflexivity. Qed.

Lemma group_by_date_default (hourly : list Hourly.t) (k : string) :
  default [] (group_by_date hourly !! k) = entries_on k hourly
  /\ (group_by_date hourly !! k = None <-> entries_on k hourly = []).
Proof.
  induction hourly as [| e l [IHd IHn]] using rev_ind.
  - unfold group_by_date. simpl. rewrite lookup_empty.
    split; [reflexivity | split; intros _; reflexivity].
  - rewrite group_by_date_snoc, entries_on_snoc. unfold by_date_step.
    destruct (date_key e) as [k' |] eqn:Hk.
    + destruct (decide (k' = k)) as [-> | Hne].
      * rewrite lookup_insert_eq, bool_decide_true by reflexivity.
        simpl. rewrite IHd. split; [reflexivity |].
        split; [discriminate |].
        intros H. apply app_eq_nil in H as [_ H]. discriminate.
      * rewrite lookup_insert_ne by exact Hne.
        rewrite bool_decide_false by congruence.
        rewrite app_nil_r. auto.
    + rewrite bool_decide_false by discriminate.
      rewrite app_nil_r. auto.
Qed.

Lemma entries_on_nonempty (hourly : list Hourly.t) (k : string) :
  entries_on k hourly <> [] <-> exists e, e ∈ hourly /\ date_key e = Some k.
Proof.
  unfold entries_on. split.
  - destruct (List.filter _ hourly) as [| e r] eqn:E; [congruence |].
    intros _. exists e.
    assert (Hin : In e (List.filter (fun e => bool_decide (date_key e = Some k)) hourly))
      by (rewrite E; left; reflexivity).
    apply List.filter_In in Hin as [Hin Hk].
    split; [apply list_elem_of_In, Hin | apply bool_decide_eq_true in Hk; exact Hk].
  - intros (e & Hin & Hk) E.
    assert (Hf : In e (List.filter (fun e => bool_decide (date_key e = Some k)) hourly)).
    { apply List.filter_In. split; [apply list_elem_of_In, Hin |].
      apply bool_decide_eq_true. exact Hk. }
    rewrite E in Hf. exact Hf.
Qed.

Lemma sorted_keys_elem (hourly : list Hourly.t) (k : string) :
  k ∈ sorted_keys (group_by_date hourly)
  <-> exists e, e ∈ hourly /\ date_key e = Some k.
Proof.
  unfold sorted_keys. rewrite merge_sort_Permutation.
  rewrite <- entries_on_nonempty.
  destruct (group_by_date_default hourly k) as [_ Hn].
  rewrite <- Hn. rewrite list_elem_of_fmap. split.
  - intros ([k' es] & -> & Hin). apply elem_of_map_to_list in Hin.
    simpl. congruence.
  - intros Hne. destruct (group_by_date hourly !! k) as [es |] eqn:E; [| congruence].
    exists (k, es). split; [reflexivity |]. apply elem_of_map_to_list, E.
Qed.

Lemma sorted_keys_NoDup (m : gmap string (list Hourly.t)) : NoDup (sorted_keys m).
Proof.
  unfold sorted_keys. rewrite merge_sort_Permutation.
  apply NoDup_fst_map_to_list.
Qed.

Lemma sorted_keys_sorted (m : gmap string (list Hourly.t)) :
  StronglySorted str_le (sorted_keys m).
Proof.
  unfold sorted_keys.
  apply StronglySorted_merge_sort; [apply str_le_trans | apply str_le_total].
Qed.

Lemma aggregate_daily_unfold (hourly : list Hourly.t) :
  _aggregate_daily hourly
  = map (fun k => daily_entry k (entries_on k hourly))
        (sorted_keys (group_by_date hourly)).
Proof.
  destruct hourly as [| e l].
  - unfold _aggregate_daily, sorted_keys, group_by_date. simpl.
    rewrite map_to_list_empty. reflexivity.
  - unfold _aggregate_daily. apply map_ext. intros k.
    f_equal. apply group_by_date_default.
Qed.

(** *** ISO dates sort as dates *)

Lemma digit_compare (a b : nat) :
  (a < 10)%nat -> (b < 10)%nat ->
  Ascii.compare (Iso.digit a) (Iso.digit b) = Nat.compare a b.
Proof.
  intros Ha Hb.
  do 10 (destruct a as [| a];
         [do 10 (destruct b as [| b]; [reflexivity |]); exfalso; lia |]).
  exfalso; lia.
Qed.

Lemma digit_mod (n : nat) : Iso.digit n = Iso.digit (n mod 10).
Proof. unfold Iso.digit. rewrite Nat.Div0.mod_mod. reflexivity. Qed.

Lemma compare_digit_cons (a b : nat) (s t : string) :
  String.compare (String (Iso.digit a) s) (String (Iso.digit b) t)
  = match Nat.compare (a mod 10) (b mod 10) with
    | Eq => String.compare s t
    | c => c
    end.
Proof.
  rewrite (digit_mod a), (digit_mod b). cbn [String.compare].
  rewrite digit_compare by (apply Nat.mod_upper_bound; lia).
  reflexivity.
Qed.

Lemma digits2 (n : nat) :
  (n < 100)%nat ->
  n = (10 * ((n / 10) mod 10) + n mod 10)%nat
  /\ ((n / 10) mod 10 < 10)%nat /\ (n mod 10 < 10)%nat.
Proof.
  intros H.
  pose proof (Nat.div_mod_eq n 10). pose proof (Nat.mod_upper_bound n 10).
  pose proof (Nat.div_mod_eq (n / 10) 10).
  pose proof (Nat.mod_upper_bound (n / 10) 10).
  lia.
Qed.

Lemma digits4 (n : nat) :
  (Z.of_nat n < 10000)%Z ->
  n = (1000 * ((n / 1000) mod 10) + 100 * ((n / 100) mod 10)
       + 10 * ((n / 10) mod 10) + n mod 10)%nat
  /\ ((n / 1000) mod 10 < 10)%nat /\ ((n / 100) mod 10 < 10)%nat
  /\ ((n / 10) mod 10 < 10)%nat /\ (n mod 10 < 10)%nat.
Proof.
  intros H.
  pose proof (Nat.div_mod_eq n 10). pose proof (Nat.mod_upper_bound n 10).
  pose proof (Nat.div_mod_eq (n / 10) 10).
  pose proof (Nat.mod_upper_bound (n / 10) 10).
  assert (n / 100 = n / 10 / 10)%nat as E1
    by (rewrite Nat.Div0.div_div; reflexivity).
  assert (n / 1000 = n / 10 / 10 / 10)%nat as E2
    by (rewrite !Nat.Div0.div_div; reflexivity).
  rewrite E1, E2.
  pose proof (Nat.div_mod_eq (n / 10 / 10) 10).
  pose proof (Nat.mod_upper_bound (n / 10 / 10) 10).
  pose proof (Nat.div_mod_eq (n / 10 / 10 / 10) 10).
  pose proof (Nat.mod_upper_bound (n / 10 / 10 / 10) 10).
  lia.
Qed.

Lemma iso_date_compare_lt (d1 d2 : DateTime) :
  date_valid d1 -> date_valid d2 ->
  String.compare (Iso.date d1) (Iso.date d2) = Lt -> date_lt d1 d2.
Proof.
  intros (Hy1 & Hm1 & Hd1) (Hy2 & Hm2 & Hd2).
  destruct d1 as [y1 m1 dd1 ? ? ?], d2 as [y2 m2 dd2 ? ? ?].
  unfold date_lt, Iso.date, Iso.pad4, Iso.pad2. cbn [year month day] in *.
  pose proof (digits4 y1 Hy1) as E1. pose proof (digits4 y2 Hy2) as E2.
  pose proof (digits2 m1 Hm1) as F1. pose proof (digits2 m2 Hm2) as F2.
  pose proof (digits2 dd1 Hd1) as G1. pose proof (digits2 dd2 Hd2) as G2.
  cbv [append].
  rewrite !compare_digit_cons.
  repeat match goal with
         | |- context [String.compare (String "-" ?s) (String "-" ?t)] =>
             change (String.compare (String "-" s) (String "-" t))
               with (String.compare s t)
         | |- context [String.compare (String (Iso.digit ?a) ?s) (String (Iso.digit ?b) ?t)] =>
             rewrite (compare_digit_cons a b s t)
         end.
  cbn [String.compare].
  repeat match goal with
         | |- context [Nat.compare ?a ?b] =>
             destruct (Nat.compare_spec a b)
         end; intros Hcmp; try discriminate Hcmp; lia.
Qed.

Lemma str_le_chronological (k1 k2 : string) :
  str_le k1 k2 -> k1 <> k2 -> chronological k1 k2.
Proof.
  intros Hle Hne d1 d2 -> -> Hv1 Hv2.
  apply iso_date_compare_lt; [exact Hv1 | exact Hv2 |].
  unfold str_le, String.leb in Hle.
  destruct (String.compare (Iso.date d1) (Iso.date d2)) eqn:E;
    [| reflexivity | discriminate Hle].
  apply String.compare_eq_iff in E. contradiction.
Qed.

Lemma sorted_keys_chronological (m : gmap string (list Hourly.t)) :
  StronglySorted chronological (sorted_keys m).
Proof.
  pose proof (sorted_keys_sorted m) as Hs.
  pose proof (sorted_keys_NoDup m) as Hn.
  induction Hs as [| k r Hr IH Hall]; [constructor |].
  apply NoDup_cons in Hn as [Hk Hn].
  constructor; [apply IH, Hn |].
  rewrite Forall_forall in Hall. apply Forall_forall. intros k' Hk'.
  apply str_le_chronological; [apply Hall, Hk' |].
  intros ->. apply Hk, Hk'.
Qed.

(** C5. The daily aggregator yields one summary per distinct date of the
    series, in ascending order of the date keys, which is the order of the
    calendar dates they stand for, each with the maximum and
    minimum of the date's present temperatures, the rounded mean wind
    speed, the maximum gust and the rounded precipitation sum, the last
    three only when the date has a sample of that field. *)
Theorem aggregate_daily_claim (hourly : list Hourly.t) :
  exists dates : list string,
    (forall k, k ∈ dates <-> exists e, e ∈ hourly /\ date_key e = Some k)
    /\ NoDup dates
    /\ StronglySorted str_le dates
    /\ StronglySorted chronological dates
    /\ Forall2 (fun k s => summary_of k (entries_on k hourly) s)
               dates (_aggregate_daily hourly).
Proof.
  exists (sorted_keys (group_by_date hourly)).
  split; [apply sorted_keys_elem |].
  split; [apply sorted_keys_NoDup |].
  split; [apply sorted_keys_sorted |].
  split; [apply sorted_keys_chronological |].
  rewrite aggregate_daily_unfold.
  induction (sorted_keys (group_by_date hourly)) as [| k r IH]; simpl.
  - constructor.
  - constructor; [apply daily_entry_summary | exact IH].
Qed.

(** *** The modal condition *)

Lemma max_by_key_spec {A : Type} (key : A -> nat) (l : list A) (m : A) :
  max_by_key key l = Some m ->
  exists before after,
    l = before ++ m :: after
    /\ (forall y, y ∈ before -> (key y < key m)%nat)
    /\ (forall y, y ∈ after -> (key y <= key m)%nat).
Proof.
  destruct l as [| x r]; [discriminate |]. simpl. intros H. injection H as <-.
  induction r as [| y r IH] using rev_ind.
  - exists [], []. simpl. split; [reflexivity |].
    split; intros y Hy; apply elem_of_nil in Hy; contradiction.
  - rewrite fold_left_app. simpl.
    destruct IH as (before & after & Heq & Hb & Ha).
    set (best := fold_left _ r x) in *.
    destruct (Nat.ltb_spec (key best) (key y)) as [Hlt | Hge].
    + exists (x :: r), []. split; [rewrite app_comm_cons; reflexivity |].
      split; [| intros z Hz; apply elem_of_nil in Hz; contradiction].
      intros z Hz. rewrite Heq in Hz.
      apply elem_of_app in Hz as [Hz | Hz].
      * specialize (Hb z Hz). lia.
      * apply elem_of_cons in Hz as [-> | Hz]; [exact Hlt |].
        specialize (Ha z Hz). lia.
    + exists before, (after ++ [y]).
      split; [rewrite app_comm_cons, Heq, <- app_assoc; reflexivity |].
      split; [exact Hb |].
      intros z Hz. apply elem_of_app in Hz as [Hz | Hz]; [apply Ha, Hz |].
      apply list_elem_of_singleton in Hz as ->. exact Hge.
Qed.

Lemma count_pos_elem (l : list string) (c : string) :
  (0 < count l c)%nat -> c ∈ l.
Proof.
  unfold count. intros H.
  destruct (List.filter (String.eqb c) l) as [| y r] eqn:E; [simpl in H; lia |].
  assert (Hin : In y (List.filter (String.eqb c) l)) by (rewrite E; left; reflexivity).
  apply List.filter_In in Hin as [Hin Heq].
  apply String.eqb_eq in Heq as ->. apply list_elem_of_In, Hin.
Qed.

Section ModalCondition.

(** Iterating over [set(l)] meets exactly the elements of [l]. *)
Hypothesis set_iter_elem : forall (l : list string) (x : string),
    x ∈ set_iter l <-> x ∈ l.

Lemma modal_condition_spec (conds : list string) :
  modal_of conds (modal_condition conds).
Proof.
  destruct conds as [| c0 r]; [reflexivity |].
  set (conds := c0 :: r).
  change (modal_of conds (max_by_key (count conds) (set_iter conds))).
  assert (H0 : c0 ∈ set_iter conds)
    by (apply set_iter_elem, list_elem_of_here).
  destruct (max_by_key (count conds) (set_iter conds)) as [c |] eqn:E.
  2: { unfold max_by_key in E.
       destruct (set_iter conds);
         [apply elem_of_nil in H0; contradiction | discriminate]. }
  apply max_by_key_spec in E as (before & after & Heq & Hb & Ha).
  assert (Hc : c ∈ set_iter conds)
    by (rewrite Heq; apply elem_of_app; right; apply list_elem_of_here).
  unfold modal_of. split; [apply set_iter_elem, Hc |].
  split.
  - intros c'.
    destruct (Nat.eq_dec (count conds c') 0) as [-> | Hpos]; [lia |].
    assert (Hc' : c' ∈ set_iter conds)
      by (apply set_iter_elem, count_pos_elem; lia).
    rewrite Heq in Hc'. apply elem_of_app in Hc' as [H | H].
    + specialize (Hb _ H). lia.
    + apply elem_of_cons in H as [-> | H]; [lia | apply Ha, H].
  - exists before, after. split; [exact Heq | exact Hb].
Qed.

(** The description leaves no choice: it names one result. *)
Lemma modal_of_unique (conds : list string) (r1 r2 : option string) :
  modal_of conds r1 -> modal_of conds r2 -> r1 = r2.
Proof.
  assert (Hstep : forall (c1 c2 : string) (b1 a1 b2 a2 : list string),
             b1 ++ c1 :: a1 = b2 ++ c2 :: a2 ->
             (length b1 < length b2)%nat -> c1 ∈ b2).
  { intros c1 c2 b1 a1 b2 a2 Heq Hlen.
    assert (Hl : (b1 ++ c1 :: a1) !! length b1 = Some c1)
      by (rewrite lookup_app_r, Nat.sub_diag by lia; reflexivity).
    rewrite Heq, lookup_app_l in Hl by exact Hlen.
    eapply list_elem_of_lookup_2, Hl. }
  destruct r1 as [c1 |], r2 as [c2 |]; simpl.
  - intros (_ & Hmax1 & b1 & a1 & Heq1 & Hb1)
           (_ & Hmax2 & b2 & a2 & Heq2 & Hb2).
    rewrite Heq1 in Heq2.
    destruct (Nat.lt_trichotomy (length b1) (length b2)) as [Hlt | [Hlen | Hgt]].
    + pose proof (Hb2 _ (Hstep _ _ _ _ _ _ Heq2 Hlt)).
      pose proof (Hmax1 c2). lia.
    + apply app_inj_1 in Heq2 as [_ Heq2]; [| exact Hlen].
      congruence.
    + pose proof (Hb1 _ (Hstep _ _ _ _ _ _ (eq_sym Heq2) Hgt)).
      pose proof (Hmax2 c1). lia.
  - intros (Hin & _) ->. apply elem_of_nil in Hin. contradiction.
  - intros -> (Hin & _). apply elem_of_nil in Hin. contradiction.
  - reflexivity.
Qed.

(** A code that is strictly more frequent than every other one is the
    result, whatever the iteration order. *)
Lemma modal_of_strict (conds : list string) (r : option string) (c : string) :
  modal_of conds r -> c ∈ conds ->
  (forall c', c' ∈ conds -> c' <> c -> (count conds c' < count conds c)%nat) ->
  r = Some c.
Proof.
  intros Hm Hc Hstrict. destruct r as [c0 |]; simpl in Hm.
  - destruct Hm as (Hc0 & Hmax & _).
    destruct (decide (c0 = c)) as [-> | Hne]; [reflexivity |].
    pose proof (Hstrict c0 Hc0 Hne). pose proof (Hmax c). lia.
  - rewrite Hm in Hc. apply elem_of_nil in Hc. contradiction.
Qed.

(** C3, as the code has it.  The condition of each daily summary is a
    most frequent condition code of that date's entries.  Among codes
    tied for the greatest count it is the one met first when [max]
    iterates over [set(conditions)]; together with that iteration order
    the entries determine the result, and without a tie they determine it
    alone.  (The iteration order of a set is not the order of the
    entries.) *)
Theorem modal_condition_amended (hourly : list Hourly.t) :
  exists dates : list string,
    (forall k, k ∈ dates <-> exists e, e ∈ hourly /\ date_key e = Some k)
    /\ Forall2
         (fun k s =>
            let conds := conditions_of (entries_on k hourly) in
            modal_of conds (Daily.condition s)
            /\ (forall r, modal_of conds r -> r = Daily.condition s)
            /\ (forall c,
                  c ∈ conds ->
                  (forall c', c' ∈ conds -> c' <> c ->
                              (count conds c' < count conds c)%nat) ->
                  Daily.condition s = Some c))
         dates (_aggregate_daily hourly).
Proof.
  exists (sorted_keys (group_by_date hourly)).
  split; [apply sorted_keys_elem |].
  rewrite aggregate_daily_unfold.
  induction (sorted_keys (group_by_date hourly)) as [| k r IH]; simpl.
  - constructor.
  - constructor; [| exact IH].
    pose proof (modal_condition_spec (conditions_of (entries_on k hourly))) as Hm.
    split; [exact Hm |]. split.
    + intros r' Hr. eapply modal_of_unique; [exact Hr | exact Hm].
    + intros c Hc Hstrict. eapply modal_of_strict; [exact Hm | exact Hc | exact Hstrict].
Qed.

End ModalCondition.

(** *** The observation overlay *)

Lemma fold_overlay_inv {X : Type} (f : Data.t -> X) (station : Element)
    (l : list ((option Q -> Data.t -> Data.t) * string)) :
  (forall kt v d, kt ∈ l -> f (fst kt v d) = f d) ->
  forall d, f (fold_left (overlay_step station) l d) = f d.
Proof.
  induction l as [| kt l IH]; intros Hl d; [reflexivity |].
  simpl. rewrite IH.
  - unfold overlay_step. destruct (_float station (snd kt)); [| reflexivity].
    apply Hl, list_elem_of_here.
  - intros kt' v d' Hin. apply Hl, list_elem_of_further, Hin.
Qed.

Lemma overlay_numeric_frame (station : Element) (d : Data.t) :
  frame (overlay_numeric station d) = frame d
  /\ Data.feels_like (overlay_numeric station d) = Data.feels_like d.
Proof.
  unfold overlay_numeric.
  split; apply fold_overlay_inv; intros kt v d' Hin;
    unfold obs_map in Hin; each_setter Hin.
Qed.

Lemma overlay_numeric_temperature (station : Element) (d : Data.t) :
  Data.temperature (overlay_numeric station d)
  = overlaid (_float station "T") (Data.temperature d).
Proof.
  unfold overlay_numeric, obs_map. fold_head.
  rewrite fold_overlay_inv.
  - unfold overlay_step. simpl. destruct (_float station "T"); reflexivity.
  - intros kt v d' Hin. each_setter Hin.
Qed.

Lemma overlay_numeric_wind_speed (station : Element) (d : Data.t) :
  Data.wind_speed (overlay_numeric station d)
  = overlaid (_float station "F") (Data.wind_speed d).
Proof.
  unfold overlay_numeric, obs_map. do 2 fold_head.
  rewrite fold_overlay_inv.
  - unfold overlay_step. simpl.
    destruct (_float station "T"), (_float station "F"); reflexivity.
  - intros kt v d' Hin. each_setter Hin.
Qed.

Lemma overlay_wind_direction_frame (station : Element) (d : Data.t) :
  frame (overlay_wind_direction station d) = frame d
  /\ Data.feels_like (overlay_wind_direction station d) = Data.feels_like d
  /\ Data.temperature (overlay_wind_direction station d) = Data.temperature d
  /\ Data.wind_speed (overlay_wind_direction station d) = Data.wind_speed d.
Proof.
  unfold overlay_wind_direction. repeat case_match; repeat split; reflexivity.
Qed.

Lemma overlay_condition_frame (station : Element) (d : Data.t) :
  frame (overlay_condition station d) = frame d
  /\ Data.feels_like (overlay_condition station d) = Data.feels_like d
  /\ Data.temperature (overlay_condition station d) = Data.temperature d
  /\ Data.wind_speed (overlay_condition station d) = Data.wind_speed d.
Proof.
  unfold overlay_condition. repeat case_match; repeat split; reflexivity.
Qed.

Lemma overlay_time_frame (station : Element) (d : Data.t) :
  frame (overlay_time station d) = frame d
  /\ Data.feels_like (overlay_time station d) = Data.feels_like d
  /\ Data.temperature (overlay_time station d) = Data.temperature d
  /\ Data.wind_speed (overlay_time station d) = Data.wind_speed d.
Proof.
  unfold overlay_time. repeat case_match; repeat split; reflexivity.
Qed.

(** C9. The overlay leaves the hourly and daily series (and every other
    key that is not a current-conditions field) unchanged.  When the
    observation body has a station record, none of the field overlays
    writes the apparent temperature; it is written once, after them, from
    the overlaid temperature and wind speed.  Without a station record
    the dict is returned as it was. *)
Theorem apply_observations_claim (data : Data.t) (xml_text : string) :
  let data' := _apply_observations data xml_text in
  Data.forecast_hourly data' = Data.forecast_hourly data
  /\ Data.forecast_daily data' = Data.forecast_daily data
  /\ frame data' = frame data
  /\ (forall root station,
        fromstring xml_text = Some root ->
        ET.find_deep root "station" = Some station ->
        let fields :=
          overlay_condition station
            (overlay_wind_direction station (overlay_numeric station data)) in
        data' = overlay_time station (overlay_feels_like fields)
        /\ Data.feels_like fields = Data.feels_like data
        /\ Data.temperature data'
           = overlaid (_float station "T") (Data.temperature data)
        /\ Data.wind_speed data'
           = overlaid (_float station "F") (Data.wind_speed data)
        /\ Data.feels_like data'
           = _wind_chill (Data.temperature data') (Data.wind_speed data'))
  /\ (fromstring xml_text = None -> data' = data)
  /\ (forall root,
        fromstring xml_text = Some root ->
        ET.find_deep root "station" = None -> data' = data).
Proof.
  assert (Hframe : frame (_apply_observations data xml_text) = frame data).
  { unfold _apply_observations, _parse_xml_root.
    destruct (fromstring xml_text) as [root |]; [| reflexivity].
    destruct (ET.find_deep root "station") as [station |]; [| reflexivity].
    destruct (overlay_time_frame station
                (overlay_feels_like
                   (overlay_condition station
                      (overlay_wind_direction station
                         (overlay_numeric station data))))) as [-> _].
    change (frame (overlay_feels_like ?d)) with (frame d).
    destruct (overlay_condition_frame station
                (overlay_wind_direction station (overlay_numeric station data)))
      as [-> _].
    destruct (overlay_wind_direction_frame station (overlay_numeric station data))
      as [-> _].
    apply overlay_numeric_frame. }
  cbv zeta.
  split; [unfold frame in Hframe; congruence |].
  split; [unfold frame in Hframe; congruence |].
  split; [exact Hframe |].
  split; [| split].
  - intros root station Hroot Hst.
    unfold _apply_observations, _parse_xml_root. rewrite Hroot, Hst.
    set (d1 := overlay_numeric station data).
    set (d2 := overlay_wind_direction station d1).
    set (d3 := overlay_condition station d2).
    destruct (overlay_time_frame station (overlay_feels_like d3))
      as (_ & Hf4 & Ht4 & Hw4).
    destruct (overlay_condition_frame station d2) as (_ & Hf3 & Ht3 & Hw3).
    destruct (overlay_wind_direction_frame station d1) as (_ & Hf2 & Ht2 & Hw2).
    destruct (overlay_numeric_frame station data) as (_ & Hf1).
    fold d1 in Hf1. fold d2 in Hf2, Ht2, Hw2. fold d3 in Hf3, Ht3, Hw3.
    split; [reflexivity |].
    split; [congruence |].
    rewrite Ht4, Hw4, Hf4.
    change (Data.temperature (overlay_feels_like d3)) with (Data.temperature d3).
    change (Data.wind_speed (overlay_feels_like d3)) with (Data.wind_speed d3).
    split; [rewrite Ht3, Ht2; apply overlay_numeric_temperature |].
    split; [rewrite Hw3, Hw2; apply overlay_numeric_wind_speed |].
    reflexivity.
  - intros Hnone. unfold _apply_observations, _parse_xml_root.
    rewrite Hnone. reflexivity.
  - intros root Hroot Hst. unfold _apply_observations, _parse_xml_root.
    rewrite Hroot, Hst. reflexivity.
Qed.

(** *** The refresh cycle *)

Lemma fetch_xml_ok (n : nat) (url body : string) :
  _fetch_xml n url = Ok body <-> session_get n url = Response 200 body.
Proof.
  unfold _fetch_xml. destruct (session_get n url) as [e | status b].
  - split; discriminate.
  - destruct (Z.eqb_spec status 200) as [-> | Hne].
    + split; intros H; congruence.
    + split; [discriminate |]. intros H. congruence.
Qed.

Lemma fetch_weather_needs_forecast :
  (forall body, session_get 0 (FORECAST_URL self_station_id) <> Response 200 body) ->
  _fetch_weather = Raise UpdateFailed.
Proof.
  intros H. unfold _fetch_weather.
  destruct (_fetch_xml 0 (FORECAST_URL self_station_id)) as [body | e] eqn:E;
    [| reflexivity].
  apply fetch_xml_ok in E. destruct (H _ E).
Qed.

Lemma fetch_weather_parse_failure (body : string) :
  session_get 0 (FORECAST_URL self_station_id) = Response 200 body ->
  _parse_forecast body = Raise UpdateFailed ->
  _fetch_weather = Raise UpdateFailed.
Proof.
  intros Hf Hp. apply fetch_xml_ok in Hf.
  unfold _fetch_weather. rewrite Hf, Hp. reflexivity.
Qed.

Lemma update_fails_with_weather :
  _fetch_weather = Raise UpdateFailed ->
  forall self_data, _async_update_data self_data = Raise UpdateFailed.
Proof.
  intros H self_data. unfold _async_update_data. rewrite H.
  destruct deadline1; reflexivity.
Qed.

Lemma update_succeeds_with_weather (self_data : option Data.t) (data : Data.t) :
  deadline1 = false -> _fetch_weather = Ok data ->
  exists alerts, _async_update_data self_data = Ok (Data.set_alerts alerts data).
Proof.
  intros Hd Hw. unfold _async_update_data. rewrite Hd, Hw.
  destruct (if deadline2 then _ else _) as [al | e]; eauto.
Qed.

(** C4, as the code has it.  The refresh fails whenever the forecast
    request fails or is not answered with status 200, the forecast body is
    not XML, has no station record, or the station has no forecast entry,
    and whenever phase 1 runs out of its time: the two requests are awaited
    together, so this is also the case when only the observation request
    is late.  With a valid forecast, an observation request that fails or
    a body that is not XML gives, when phase 1 is in time, a successful
    refresh whose dict is the one parsed from the forecast (with the alert
    list attached), and a failed refresh when it is not. *)
Theorem refresh_forecast_amended (self_data : option Data.t) :
  ((forall body, session_get 0 (FORECAST_URL self_station_id) <> Response 200 body) ->
   _async_update_data self_data = Raise UpdateFailed)
  /\ (forall body,
        session_get 0 (FORECAST_URL self_station_id) = Response 200 body ->
        (fromstring body = None
         \/ (exists root, fromstring body = Some root
                          /\ ET.find_deep root "station" = None)
         \/ (exists root station,
                fromstring body = Some root
                /\ ET.find_deep root "station" = Some station
                /\ ET.findall_deep station "forecast" = [])) ->
        _async_update_data self_data = Raise UpdateFailed)
  /\ (forall body data,
        session_get 0 (FORECAST_URL self_station_id) = Response 200 body ->
        _parse_forecast body = Ok data ->
        observation_unusable ->
        (deadline1 = false ->
         exists alerts,
           _async_update_data self_data = Ok (Data.set_alerts alerts data))
        /\ (deadline1 = true ->
            _async_update_data self_data = Raise UpdateFailed))
  /\ (deadline1 = true -> _async_update_data self_data = Raise UpdateFailed).
Proof.
  assert (Hlate : deadline1 = true ->
                  _async_update_data self_data = Raise UpdateFailed).
  { intros Hd. unfold _async_update_data. rewrite Hd. reflexivity. }
  split; [| split; [| split]].
  - intros H. apply update_fails_with_weather, fetch_weather_needs_forecast, H.
  - intros body Hf Hbad.
    apply update_fails_with_weather, (fetch_weather_parse_failure body Hf).
    unfold _parse_forecast, _parse_xml_root.
    destruct Hbad as [-> | [(root & -> & ->) | (root & station & -> & -> & ->)]];
      reflexivity.
  - intros body data Hf Hp Hobs. split; [| exact Hlate].
    intros Hd. apply update_succeeds_with_weather; [exact Hd |].
    apply fetch_xml_ok in Hf. unfold _fetch_weather. rewrite Hf, Hp.
    unfold observation_unusable in Hobs. unfold _fetch_xml at 1.
    destruct (session_get 1 (OBSERVATION_URL self_station_id)) as [e | status obody];
      [reflexivity |].
    destruct (Z.eqb_spec status 200) as [-> | Hne]; [| reflexivity].
    destruct Hobs as [Hobs | Hobs]; [congruence |].
    unfold _apply_observations, _parse_xml_root. rewrite Hobs. reflexivity.
  - exact Hlate.
Qed.

(** C1, as the code has it.  After a successful phase 1: when the alert
    index request raises or phase 2 runs out of time, the alert list is
    the previous cycle's; when the index answers with another status than
    200, with a body that is not XML, or with no links, the alert list is
    empty.  The refresh succeeds in all these cases. *)
Theorem refresh_alerts_amended (self_data : option Data.t) (data : Data.t) :
  deadline1 = false ->
  _fetch_weather = Ok data ->
  (index_raises ->
   _async_update_data self_data
   = Ok (Data.set_alerts (previous_alerts self_data) data))
  /\ (deadline2 = false -> index_without_links ->
      _async_update_data self_data = Ok (Data.set_alerts [] data)).
Proof.
  intros Hd Hw. unfold _async_update_data. rewrite Hd, Hw. split.
  - intros [-> | (e & He)]; [reflexivity |].
    unfold _fetch_alerts. rewrite He. destruct deadline2; reflexivity.
  - intros -> Hidx. unfold index_without_links in Hidx. unfold _fetch_alerts.
    destruct (session_get 2 ALERTS_URL) as [e | status content]; [contradiction |].
    destruct (Z.eqb_spec status 200) as [-> | Hne]; [| reflexivity].
    destruct Hidx as [Hidx | [Hidx | Hidx]]; [congruence | |].
    + unfold _parse_alert_feed. rewrite Hidx. reflexivity.
    + rewrite Hidx. reflexivity.
Qed.

(** *** Alert details *)

Lemma parse_cap_xml_link (content url : string) (a : Alert) :
  _parse_cap_xml content url = Some a -> link a = url.
Proof.
  unfold _parse_cap_xml. intros H.
  repeat case_match; simplify_eq; reflexivity.
Qed.

Lemma alert_of_task_link (t : nat * string) (a : Alert) :
  a ∈ alert_of_task t -> alert_of_task t = [a] /\ link a = snd t.
Proof.
  unfold alert_of_task, _fetch_cap_alert.
  destruct (session_get (fst t) (snd t)) as [e | status content].
  - intros H. apply elem_of_nil in H. contradiction.
  - destruct (status =? 200)%Z.
    + destruct (_parse_cap_xml content (snd t)) as [a' |] eqn:E.
      * intros H. apply list_elem_of_singleton in H as ->.
        split; [reflexivity | eapply parse_cap_xml_link, E].
      * intros H. apply elem_of_nil in H. contradiction.
    + intros H. apply elem_of_nil in H. contradiction.
Qed.

Lemma collect_gather (tasks : list (nat * string)) :
  collect_alerts (gather tasks) = concat (map alert_of_task tasks).
Proof.
  unfold collect_alerts, gather.
  induction tasks as [| t r IH]; [reflexivity |].
  cbn [map omap list_omap concat]. rewrite IH. unfold alert_of_task.
  destruct (_fetch_cap_alert (fst t) (snd t)) as [[a |] | e]; reflexivity.
Qed.

Lemma alerts_links_sublist (tasks : list (nat * string)) :
  map link (concat (map alert_of_task tasks)) `sublist_of` map snd tasks.
Proof.
  induction tasks as [| t r IH]; [constructor |].
  cbn [map concat]. rewrite map_app.
  destruct (alert_of_task t) as [| a l] eqn:E.
  - simpl. apply sublist_cons, IH.
  - destruct (alert_of_task_link t a) as [Hone Hlink].
    { rewrite E. apply list_elem_of_here. }
    rewrite E in Hone. injection Hone as ->.
    simpl. rewrite Hlink. apply sublist_skip, IH.
Qed.

Lemma cap_tasks_links (links : list string) :
  map snd (cap_tasks links) = take 10 links
  /\ (length (cap_tasks links) <= 10)%nat.
Proof.
  unfold cap_tasks. split.
  - assert (H : forall (l : list string) (n : nat),
               map snd (imap (fun i link => (n + i, link)%nat) l) = l).
    { induction l as [| x l IH]; intros n; [reflexivity |].
      rewrite imap_cons. simpl. f_equal.
      rewrite <- (IH (S n)) at 2. f_equal. apply imap_ext. intros i y _.
      simpl. f_equal. lia. }
    apply H.
  - rewrite length_imap, length_take. lia.
Qed.

(** When the index yields links, there is one task for each of the first
    ten links; the alert list is made of the alerts of the tasks that
    succeed, in the order of the tasks. *)
Lemma fetch_alerts_assembly (content : string) :
  session_get 2 ALERTS_URL = Response 200 content ->
  _parse_alert_feed content <> [] ->
  let links := _parse_alert_feed content in
  let tasks := cap_tasks links in
  map snd tasks = take 10 links
  /\ (length tasks <= 10)%nat
  /\ exists alerts,
       _fetch_alerts = Ok alerts
       /\ alerts = concat (map alert_of_task tasks)
       /\ (forall t1 t t2,
             tasks = t1 ++ t :: t2 ->
             alerts = concat (map alert_of_task t1) ++ alert_of_task t
                      ++ concat (map alert_of_task t2))
       /\ map link alerts `sublist_of` take 10 links.
Proof.
  intros Hidx Hne links tasks.
  destruct (cap_tasks_links links) as [Hsnd Hlen].
  split; [exact Hsnd |]. split; [exact Hlen |].
  exists (concat (map alert_of_task tasks)).
  split; [| split; [reflexivity | split]].
  - unfold _fetch_alerts. rewrite Hidx, Z.eqb_refl.
    subst tasks links.
    destruct (_parse_alert_feed content) as [| l0 r]; [congruence |].
    rewrite collect_gather. reflexivity.
  - intros t1 t t2 ->. rewrite map_app, concat_app. simpl. reflexivity.
  - rewrite <- Hsnd. apply alerts_links_sublist.
Qed.

(** *** Language selection *)

Lemma select_info_loop_fallback (info_blocks : list Element) (f : Element) :
  exists info, select_info_loop info_blocks (Some f) = Some info.
Proof.
  induction info_blocks as [| info r IH]; simpl; [eauto |].
  destruct (Str.startswith _ self_alert_language); eauto.
Qed.

(** A document with an info block always gives a block: the first one is
    the fallback. *)
Lemma select_info_block_is_Some (info_blocks : list Element) :
  info_blocks <> [] -> exists info, _select_info_block info_blocks = Some info.
Proof.
  destruct info_blocks as [| info r]; [congruence |]. intros _.
  unfold _select_info_block. simpl.
  destruct (Str.startswith _ self_alert_language); [eauto |].
  apply select_info_loop_fallback.
Qed.

Lemma select_info_loop_bare (info_blocks : list Element) (fallback : option Element) :
  Forall (fun info => ET.find info (cap_ns ++ "language") = None) info_blocks ->
  select_info_loop info_blocks fallback
  = match List.find
            (fun info => Str.startswith (Str.lower (language_code info))
                                        self_alert_language)
            info_blocks with
    | Some info => Some info
    | None => match fallback with Some f => Some f | None => head info_blocks end
    end.
Proof.
  intros Hbare. revert fallback.
  induction Hbare as [| info r Hinfo _ IH]; intros fallback.
  - destruct fallback; reflexivity.
  - cbn [select_info_loop List.find].
    assert (Hlang :
              match ET.or_else (ET.find info (cap_ns ++ "language"))
                               (ET.find info "language") with
              | Some e =>
                  match ET.text e with
                  | Some t => if Str.truthy t then Str.lower (Str.strip t) else ""
                  | None => ""
                  end
              | None => ""
              end
              = Str.lower (language_code info)).
    { unfold language_code. rewrite Hinfo. cbn [ET.or_else].
      destruct (ET.find info "language") as [e |]; [| reflexivity].
      destruct (ET.text e) as [[| c t] |]; reflexivity. }
    rewrite Hlang.
    destruct (Str.startswith (Str.lower (language_code info)) self_alert_language);
      [reflexivity |].
    rewrite IH. destruct (List.find _ r); [reflexivity |].
    destruct fallback; reflexivity.
Qed.

(** On documents without a namespace, and for a preferred language written
    in lower case, the code selects as the specification describes. *)
Lemma select_info_block_bare (info_blocks : list Element) :
  Str.lower self_alert_language = self_alert_language ->
  Forall (fun info => ET.find info (cap_ns ++ "language") = None) info_blocks ->
  _select_info_block info_blocks = select_by_language info_blocks.
Proof.
  intros Hlow Hbare. unfold _select_info_block, select_by_language.
  rewrite Hlow, (select_info_loop_bare _ None Hbare). reflexivity.
Qed.

(** *** Condition codes *)

Lemma startswith_app (s p q : string) :
  Str.startswith s (p ++ q) = true -> Str.startswith s p = true.
Proof.
  revert s. induction p as [| a p IH]; intros s; [destruct s; reflexivity |].
  destruct s as [| b s]; [discriminate |].
  change (String a p ++ q)%string with (String a (p ++ q)%string).
  cbn [Str.startswith].
  destruct (Ascii.eqb a b); [apply IH | discriminate].
Qed.

Lemma contains_app (s p q : string) :
  Str.contains s (p ++ q) = true -> Str.contains s p = true.
Proof.
  induction s as [| c s IH]; cbn [Str.contains]; rewrite !orb_true_iff.
  - intros [H | H]; [left; eapply startswith_app, H | discriminate].
  - intros [H | H]; [left; eapply startswith_app, H | right; apply IH, H].
Qed.

Lemma map_condition_in_codes (text : option string) :
  _map_condition text ∈ condition_codes.
Proof.
  unfold _map_condition, condition_codes.
  destruct text as [text |]; [| rewrite !elem_of_cons; auto 10].
  destruct (Str.truthy text); [| rewrite !elem_of_cons; auto 10].
  unfold CONDITION_MAP. cbn [List.find fst snd].
  repeat match goal with
         | |- context [Str.contains (Str.lower text) ?k] =>
             let E := fresh "E" in
             destruct (Str.contains (Str.lower text) k) eqn:E;
             [first [ solve [cbn [snd]; rewrite !elem_of_cons; auto 10]
                    | apply (contains_app _ "thunder" "storm") in E;
                      congruence ] |]
         end.
  rewrite !elem_of_cons; auto 10.
Qed.

(** X1. Whatever the description, the condition code is one of eight
    codes.  The table's ninth code, lightning-rainy, is never produced: its
    key thunderstorm is looked up after the key thunder, which every text
    with thunderstorm in it contains. *)
Theorem map_condition_codes (text : option string) :
  _map_condition text ∈ condition_codes
  /\ _map_condition text <> "lightning-rainy".
Proof.
  pose proof (map_condition_in_codes text) as H.
  split; [exact H |].
  intros E. rewrite E in H. unfold condition_codes in H.
  rewrite !elem_of_cons in H.
  repeat (destruct H as [H | H]; [discriminate H |]).
  apply elem_of_nil in H. exact H.
Qed.

(** *** Wind bearings *)

Lemma dict_get_In {V : Type} (d : list (string * V)) (key : string) (v : V) :
  dict_get d key = Some v -> In (key, v) d.
Proof.
  induction d as [| [k w] d IH]; [discriminate |]. cbn [dict_get].
  destruct (String.eqb_spec k key) as [-> | _].
  - intros H. injection H as ->. left. reflexivity.
  - intros H. right. apply IH, H.
Qed.

Lemma compass_pointb_spec (b : Q) :
  compass_pointb b = true -> (0 <= b)%Q /\ (b < 360)%Q /\ compass_point b.
Proof.
  unfold compass_pointb, compass_point.
  set (k := Qfloor (b / 22.5)).
  rewrite !andb_true_iff, Z.leb_le, Z.ltb_lt. intros [[H0 H16] Hb].
  apply Qeq_bool_iff in Hb.
  split; [| split; [| exists k; auto]].
  - rewrite Hb. unfold Qle, Qmult, inject_Z. simpl. lia.
  - rewrite Hb. unfold Qlt, Qmult, inject_Z. simpl. lia.
Qed.

Lemma wind_direction_map_points (key : string) (b : Q) :
  dict_get WIND_DIRECTION_MAP key = Some b ->
  (0 <= b)%Q /\ (b < 360)%Q /\ compass_point b.
Proof.
  intros H. apply dict_get_In in H.
  assert (Hall : forallb (fun kv => compass_pointb (snd kv)) WIND_DIRECTION_MAP = true)
    by (vm_compute; reflexivity).
  rewrite forallb_forall in Hall.
  apply compass_pointb_spec, (Hall _ H).
Qed.

Lemma wind_bearing_points (element : Element) (b : Q) :
  _wind_bearing element = Some b ->
  (0 <= b)%Q /\ (b < 360)%Q /\ compass_point b.
Proof.
  unfold _wind_bearing.
  destruct (_text element "D") as [direction |]; [| discriminate].
  destruct (Str.truthy direction); [| discriminate].
  apply wind_direction_map_points.
Qed.

(** X2. A bearing read from a feed entry is a point of the sixteen-point
    compass: a multiple of 22.5 degrees, at least 0 and below 360; and
    there is one only when the entry has a non-empty direction label that
    the table knows in upper case. *)
Theorem wind_bearing_range (element : Element) (b : Q) :
  _wind_bearing element = Some b ->
  (0 <= b)%Q /\ (b < 360)%Q /\ compass_point b
  /\ exists direction,
       nonempty (_text element "D") = Some direction
       /\ dict_get WIND_DIRECTION_MAP (Str.upper direction) = Some b.
Proof.
  intros H. destruct (wind_bearing_points element b H) as (H0 & H360 & Hp).
  do 3 (split; [assumption |]).
  unfold _wind_bearing, nonempty in *.
  destruct (_text element "D") as [direction |]; [| discriminate].
  destruct (Str.truthy direction); [| discriminate].
  exists direction. auto.
Qed.

(** *** Tiers *)

Lemma severity_tier_tiers (s : string) : severity_tier s ∈ alert_tiers.
Proof.
  unfold severity_tier, alert_tiers.
  repeat case_decide; rewrite !elem_of_cons; auto 10.
Qed.

Lemma parse_cap_xml_tier (content url : string) (a : Alert) :
  _parse_cap_xml content url = Some a -> severity_color a ∈ alert_tiers.
Proof.
  intros H. rewrite (parse_cap_xml_severity _ _ _ H), severity_map_tier.
  apply severity_tier_tiers.
Qed.

Lemma severity_rank_tiers (s t : string) :
  s ∈ alert_tiers -> t ∈ alert_tiers ->
  severity_rank s = severity_rank t -> s = t.
Proof.
  unfold alert_tiers. rewrite !elem_of_cons.
  intros Hs Ht.
  repeat (destruct Hs as [-> | Hs]);
    try (apply elem_of_nil in Hs; contradiction);
    repeat (destruct Ht as [-> | Ht]);
    try (apply elem_of_nil in Ht; contradiction);
    intros E; first [reflexivity | discriminate E].
Qed.

Lemma highest_severity_cases (alerts : list Alert) :
  (alerts = [] /\ highest_severity alerts = "none")
  \/ (exists a, a ∈ alerts
                /\ highest_severity alerts = severity_color a
                /\ forall b, b ∈ alerts ->
                    (severity_rank (severity_color b)
                     <= severity_rank (severity_color a))%Z).
Proof.
  unfold highest_severity.
  destruct (highest_severity_loop alerts) as [[-> ->] | (a & Ha & -> & Hmax)];
    [left; auto | right; exists a; auto].
Qed.

(** X3. On alerts that carry one of the four tiers (as every parsed alert
    does), the summary is none exactly for the empty list, and otherwise
    one of the four tiers. *)
Theorem highest_severity_none_iff_empty (alerts : list Alert) :
  tiered alerts ->
  (highest_severity alerts = "none" <-> alerts = [])
  /\ (alerts <> [] -> highest_severity alerts ∈ alert_tiers).
Proof.
  intros Ht. unfold tiered in Ht. rewrite Forall_forall in Ht.
  destruct (highest_severity_cases alerts) as [[-> E] | (a & Ha & E & _)].
  - split; [split; auto | congruence].
  - pose proof (Ht a Ha) as Hin. rewrite E. split.
    + split.
      * intros En. rewrite En in Hin. unfold alert_tiers in Hin.
        rewrite !elem_of_cons in Hin.
        repeat (destruct Hin as [Hin | Hin]; [discriminate Hin |]).
        apply elem_of_nil in Hin. contradiction.
      * intros ->. apply elem_of_nil in Ha. contradiction.
    + intros _. exact Hin.
Qed.

(** X4. On alerts that carry one of the four tiers, the summary does not
    depend on the order of the alerts. *)
Theorem highest_severity_permutation (alerts1 alerts2 : list Alert) :
  tiered alerts1 -> alerts1 ≡ₚ alerts2 ->
  highest_severity alerts1 = highest_severity alerts2.
Proof.
  intros Ht Hp. unfold tiered in Ht. rewrite Forall_forall in Ht.
  destruct (highest_severity_cases alerts1) as [[-> E1] | (a & Ha & E1 & Hmax1)].
  - apply Permutation_nil_l in Hp. subst. reflexivity.
  - destruct (highest_severity_cases alerts2) as [[-> E2] | (b & Hb & E2 & Hmax2)].
    + apply Permutation_nil_r in Hp. subst. apply elem_of_nil in Ha. contradiction.
    + rewrite E1, E2.
      assert (Hb1 : b ∈ alerts1) by (rewrite Hp; exact Hb).
      assert (Ha2 : a ∈ alerts2) by (rewrite <- Hp; exact Ha).
      apply severity_rank_tiers; [apply Ht, Ha | apply Ht, Hb1 |].
      pose proof (Hmax1 b Hb1). pose proof (Hmax2 a Ha2). lia.
Qed.

(** *** The overlay, key by key *)

Lemma overlay_numeric_explicit (station : Element) (d : Data.t) :
  overlay_numeric station d
  = Data.mk (Data.station_name d) (Data.station_id d)
      (overlaid (_float station "T") (Data.temperature d))
      (overlaid (_float station "F") (Data.wind_speed d))
      (overlaid (_float station "FG") (Data.wind_gust d))
      (Data.wind_direction d) (Data.wind_bearing d)
      (Data.condition_text d) (Data.condition d) (Data.forecast_time d)
      (overlaid (_float station "R") (Data.precipitation d))
      (overlaid (_float station "N") (Data.cloud_cover d))
      (overlaid (_float station "TD") (Data.dew_point d))
      (overlaid (_float station "RH") (Data.humidity d))
      (overlaid (_float station "P") (Data.pressure d))
      (overlaid (_float station "V") (Data.visibility d))
      (Data.feels_like d) (Data.alerts d) (Data.forecast_hourly d)
      (Data.forecast_daily d) (Data.observation_time d).
Proof.
  unfold overlay_numeric, obs_map, overlay_step. cbn [fold_left fst snd].
  destruct d.
  destruct (_float station "T"), (_float station "F"), (_float station "FG"),
    (_float station "RH"), (_float station "P"), (_float station "TD"),
    (_float station "R"), (_float station "N"), (_float station "V");
    reflexivity.
Qed.

(** The dict after the overlay of a station record, written out. *)
Lemma apply_observations_explicit (data : Data.t) (xml_text : string)
    (root station : Element) :
  fromstring xml_text = Some root ->
  ET.find_deep root "station" = Some station ->
  let T := overlaid (_float station "T") (Data.temperature data) in
  let F := overlaid (_float station "F") (Data.wind_speed data) in
  _apply_observations data xml_text
  = Data.mk (Data.station_name data) (Data.station_id data) T F
      (overlaid (_float station "FG") (Data.wind_gust data))
      (overlaid (nonempty (_text station "D")) (Data.wind_direction data))
      (overlaid (_wind_bearing station) (Data.wind_bearing data))
      (overlaid (nonempty (_text station "W")) (Data.condition_text data))
      (match nonempty (_text station "W") with
       | Some w => _map_condition (Some w)
       | None => Data.condition data
       end)
      (Data.forecast_time data)
      (overlaid (_float station "R") (Data.precipitation data))
      (overlaid (_float station "N") (Data.cloud_cover data))
      (overlaid (_float station "TD") (Data.dew_point data))
      (overlaid (_float station "RH") (Data.humidity data))
      (overlaid (_float station "P") (Data.pressure data))
      (overlaid (_float station "V") (Data.visibility data))
      (_wind_chill T F) (Data.alerts data) (Data.forecast_hourly data)
      (Data.forecast_daily data)
      (overlaid (nonempty (_text station "time")) (Data.observation_time data)).
Proof.
  intros Hroot Hst. cbv zeta.
  unfold _apply_observations, _parse_xml_root. rewrite Hroot, Hst.
  rewrite overlay_numeric_explicit.
  unfold overlay_time, overlay_feels_like, overlay_condition,
    overlay_wind_direction, _wind_bearing, nonempty.
  destruct (_text station "D") as [dir |]; [destruct (Str.truthy dir) |];
    destruct (_text station "W") as [w |]; try destruct (Str.truthy w);
    destruct (_text station "time") as [t |]; try destruct (Str.truthy t);
    try destruct (dict_get WIND_DIRECTION_MAP (Str.upper dir));
    reflexivity.
Qed.


(** X5. With a station record in the observation body, each numeric key
    holds the observed value when the record has it and keeps its value
    otherwise; the direction label, the description and the observation
    time are replaced by a non-empty observed text; the condition code
    follows the observed description; the bearing follows the observed
    label when the table knows it.  An observed label the table does not
    know replaces the direction and leaves the bearing of the forecast in
    place. *)
Theorem apply_observations_fields (data : Data.t) (xml_text : string)
    (root station : Element) :
  fromstring xml_text = Some root ->
  ET.find_deep root "station" = Some station ->
  let data' := _apply_observations data xml_text in
  Data.wind_gust data' = overlaid (_float station "FG") (Data.wind_gust data)
  /\ Data.humidity data' = overlaid (_float station "RH") (Data.humidity data)
  /\ Data.pressure data' = overlaid (_float station "P") (Data.pressure data)
  /\ Data.dew_point data' = overlaid (_float station "TD") (Data.dew_point data)
  /\ Data.precipitation data'
     = overlaid (_float station "R") (Data.precipitation data)
  /\ Data.cloud_cover data'
     = overlaid (_float station "N") (Data.cloud_cover data)
  /\ Data.visibility data'
     = overlaid (_float station "V") (Data.visibility data)
  /\ Data.wind_direction data'
     = overlaid (nonempty (_text station "D")) (Data.wind_direction data)
  /\ Data.wind_bearing data'
     = overlaid (_wind_bearing station) (Data.wind_bearing data)
  /\ Data.condition_text data'
     = overlaid (nonempty (_text station "W")) (Data.condition_text data)
  /\ Data.condition data'
     = match nonempty (_text station "W") with
       | Some w => _map_condition (Some w)
       | None => Data.condition data
       end
  /\ Data.observation_time data'
     = overlaid (nonempty (_text station "time")) (Data.observation_time data)
  /\ (forall dir,
        _text station "D" = Some dir -> Str.truthy dir = true ->
        dict_get WIND_DIRECTION_MAP (Str.upper dir) = None ->
        Data.wind_direction data' = Some dir
        /\ Data.wind_bearing data' = Data.wind_bearing data).
Proof.
  intros Hroot Hst data'. subst data'.
  rewrite (apply_observations_explicit data xml_text root station Hroot Hst).
  cbn [Data.wind_gust Data.humidity Data.pressure Data.dew_point
       Data.precipitation Data.cloud_cover Data.visibility Data.wind_direction
       Data.wind_bearing Data.condition_text Data.condition
       Data.observation_time].
  do 12 (split; [reflexivity |]).
  intros dir Hdir Htruthy Hnone.
  unfold _wind_bearing, nonempty. rewrite Hdir, Htruthy, Hnone.
  split; reflexivity.
Qed.

(** *** What every refresh guarantees *)

Lemma hourly_entry_consistent (fc : Element) (e : Hourly.t) :
  hourly_entry fc = Some e -> hourly_consistent e.
Proof.
  unfold hourly_entry. intros H.
  destruct (_text fc "ftime") as [ftime |]; [| discriminate].
  destruct (Str.truthy ftime); [| discriminate].
  destruct (strptime ftime) as [dt |]; [| discriminate].
  injection H as <-. unfold hourly_consistent.
  cbn [Hourly.apparent_temperature Hourly.temperature Hourly.wind_speed
       Hourly.condition Hourly.wind_bearing].
  split; [reflexivity |].
  split; [apply map_condition_in_codes |].
  intros b Hb. apply (wind_bearing_points fc b Hb).
Qed.

Lemma parse_hourly_consistent (forecasts : list Element) :
  Forall hourly_consistent (_parse_hourly forecasts).
Proof.
  apply Forall_forall. intros e He. unfold _parse_hourly in He.
  apply list_elem_of_omap in He as (fc & _ & He).
  apply (hourly_entry_consistent fc e He).
Qed.

Lemma parse_forecast_consistent (xml_text : string) (d : Data.t) :
  _parse_forecast xml_text = Ok d -> snapshot_consistent d.
Proof.
  unfold _parse_forecast, _parse_xml_root.
  destruct (fromstring xml_text) as [root |]; [| discriminate].
  destruct (ET.find_deep root "station") as [station |]; [| discriminate].
  destruct (ET.findall_deep station "forecast") as [| current rest];
    [discriminate |].
  intros H. injection H as <-. unfold snapshot_consistent.
  cbn [Data.station_id Data.station_name Data.feels_like Data.temperature
       Data.wind_speed Data.condition Data.condition_text Data.wind_bearing
       Data.forecast_daily Data.forecast_hourly].
  do 4 (split; [reflexivity |]).
  split; [intros b Hb; apply (wind_bearing_points current b Hb) |].
  split; [reflexivity | apply (parse_hourly_consistent (current :: rest))].
Qed.

Lemma apply_observations_consistent (d : Data.t) (xml_text : string) :
  snapshot_consistent d -> snapshot_consistent (_apply_observations d xml_text).
Proof.
  intros Hd.
  destruct (fromstring xml_text) as [root |] eqn:Hroot;
    [| unfold _apply_observations, _parse_xml_root; rewrite Hroot; exact Hd].
  destruct (ET.find_deep root "station") as [station |] eqn:Hst;
    [| unfold _apply_observations, _parse_xml_root; rewrite Hroot, Hst; exact Hd].
  rewrite (apply_observations_explicit d xml_text root station Hroot Hst).
  destruct Hd as (Hid & Hname & _ & Hcond & Hbear & Hdaily & Hhourly).
  unfold snapshot_consistent.
  cbn [Data.station_id Data.station_name Data.feels_like Data.temperature
       Data.wind_speed Data.condition Data.condition_text Data.wind_bearing
       Data.forecast_daily Data.forecast_hourly].
  split; [exact Hid |]. split; [exact Hname |]. split; [reflexivity |].
  split.
  { unfold nonempty. destruct (_text station "W") as [w |]; [| exact Hcond].
    destruct (Str.truthy w); [reflexivity | exact Hcond]. }
  split.
  { intros b. destruct (_wind_bearing station) as [b' |] eqn:Hb'; simpl.
    - intros H. injection H as <-. apply (wind_bearing_points station b' Hb').
    - apply Hbear. }
  split; [exact Hdaily | exact Hhourly].
Qed.

Lemma fetch_weather_consistent (d : Data.t) :
  _fetch_weather = Ok d -> snapshot_consistent d.
Proof.
  unfold _fetch_weather.
  destruct (_fetch_xml 0 (FORECAST_URL self_station_id)) as [fxml | e];
    [| discriminate].
  destruct (_parse_forecast fxml) as [data | e] eqn:Hp; [| discriminate].
  apply parse_forecast_consistent in Hp.
  destruct (_fetch_xml 1 (OBSERVATION_URL self_station_id)) as [oxml | e];
    intros H; injection H as <-.
  - apply apply_observations_consistent, Hp.
  - exact Hp.
Qed.

(** The dict of a successful refresh is the dict of phase 1 with an alert
    list attached. *)
Lemma update_ok_inv (self_data : option Data.t) (d : Data.t) :
  _async_update_data self_data = Ok d ->
  exists data, deadline1 = false /\ _fetch_weather = Ok data
               /\ d = Data.set_alerts (Data.alerts d) data.
Proof.
  unfold _async_update_data. destruct deadline1; [discriminate |].
  destruct _fetch_weather as [data | e]; [| discriminate].
  intros H. exists data. split; [reflexivity |]. split; [reflexivity |].
  destruct (if deadline2 then _ else _); injection H as <-; reflexivity.
Qed.

(** X6. The dict of every successful refresh is consistent: it carries
    the coordinator's station, its apparent temperature is the wind chill
    of its own temperature and wind speed, its condition code is the code
    of its own description, its bearing is a compass point, its daily
    series is the aggregation of its own hourly series, and every hourly
    entry carries the wind chill of its own readings, a known condition
    code and a compass bearing.  This holds with or without observations
    and whatever the previous dict was. *)
Theorem refresh_snapshot_consistent (self_data : option Data.t) (d : Data.t) :
  _async_update_data self_data = Ok d -> snapshot_consistent d.
Proof.
  intros H. apply update_ok_inv in H as (data & _ & Hw & ->).
  apply fetch_weather_consistent in Hw. exact Hw.
Qed.

(** X7. The previous dict enters a refresh through its alert list only,
    and only when phase 2 raises: a refresh fails for one previous dict
    exactly when it fails for any other, and always with UpdateFailed; two
    successful results differ in the alert list at most; they are equal
    when phase 2 does not raise. *)
Theorem refresh_previous_data (self_data1 self_data2 : option Data.t) :
  (forall e, _async_update_data self_data1 = Raise e ->
             e = UpdateFailed
             /\ _async_update_data self_data2 = Raise UpdateFailed)
  /\ (forall d1, _async_update_data self_data1 = Ok d1 ->
        exists d2, _async_update_data self_data2 = Ok d2
                   /\ d1 = Data.set_alerts (Data.alerts d1) d2)
  /\ (previous_alerts self_data1 = previous_alerts self_data2 ->
      _async_update_data self_data1 = _async_update_data self_data2)
  /\ (deadline2 = false ->
      (forall e, session_get 2 ALERTS_URL <> Fails e) ->
      _async_update_data self_data1 = _async_update_data self_data2).
Proof.
  unfold _async_update_data.
  destruct (if deadline1 then _ else _fetch_weather) as [data | e0].
  - split; [intros e H; destruct (if deadline2 then _ else _); discriminate H |].
    split.
    { intros d1 H.
      destruct (if deadline2 then _ else _) as [alerts | e1];
        injection H as <-; eexists; (split; [reflexivity |]);
        destruct data; reflexivity. }
    split.
    { intros Hprev. unfold previous_alerts in Hprev.
      destruct (if deadline2 then _ else _); [reflexivity |].
      rewrite Hprev. reflexivity. }
    intros -> Hidx. unfold _fetch_alerts.
    destruct (session_get 2 ALERTS_URL) as [e | status content] eqn:E;
      [destruct (Hidx e); reflexivity |].
    destruct (status =? 200)%Z; [| reflexivity].
    destruct (_parse_alert_feed content); reflexivity.
  - split; [intros e H; injection H as <-; auto |].
    split; [intros d1 H; discriminate H |].
    split; reflexivity.
Qed.

(** *** Tiers of the alerts of a refresh *)

Lemma fetch_alerts_tiered (alerts : list Alert) :
  _fetch_alerts = Ok alerts -> tiered alerts.
Proof.
  unfold _fetch_alerts.
  destruct (session_get 2 ALERTS_URL) as [e | status content]; [discriminate |].
  destruct (status =? 200)%Z;
    [| intros H; injection H as <-; constructor].
  destruct (_parse_alert_feed content) as [| l0 r];
    [intros H; injection H as <-; constructor |].
  generalize (cap_tasks (l0 :: r)). intros tasks H.
  assert (Hal : alerts = collect_alerts (gather tasks)) by congruence.
  rewrite Hal, collect_gather. clear H Hal.
  apply Forall_forall. intros a Ha.
  apply list_elem_of_In, in_concat in Ha as (l & Hl & Ha).
  apply in_map_iff in Hl as (t & <- & _).
  apply list_elem_of_In in Ha.
  unfold alert_of_task, _fetch_cap_alert in Ha.
  destruct (session_get (fst t) (snd t)) as [e | st body];
    [apply elem_of_nil in Ha; contradiction |].
  destruct (st =? 200)%Z; [| apply elem_of_nil in Ha; contradiction].
  destruct (_parse_cap_xml body (snd t)) as [a' |] eqn:E;
    [| apply elem_of_nil in Ha; contradiction].
  apply list_elem_of_singleton in Ha as ->.
  apply (parse_cap_xml_tier _ _ _ E).
Qed.

Lemma fetch_alerts_length (alerts : list Alert) :
  _fetch_alerts = Ok alerts -> (length alerts <= 10)%nat.
Proof.
  unfold _fetch_alerts.
  destruct (session_get 2 ALERTS_URL) as [e | status content]; [discriminate |].
  destruct (status =? 200)%Z;
    [| intros H; injection H as <-; simpl; lia].
  destruct (_parse_alert_feed content) as [| l0 r];
    [intros H; injection H as <-; simpl; lia |].
  destruct (cap_tasks_links (l0 :: r)) as [_ Hlen]. revert Hlen.
  generalize (cap_tasks (l0 :: r)). intros tasks Hlen H.
  assert (Hal : alerts = collect_alerts (gather tasks)) by congruence.
  rewrite Hal. unfold collect_alerts, gather.
  etransitivity; [apply omap_length_le |]. rewrite length_map. exact Hlen.
Qed.

(** X8. Two invariants of the refresh cycle: when the alerts of the
    previous dict carry one of the four tiers, so do the alerts of the new
    dict, and when the previous dict has at most ten alerts, so has the
    new one, whether the alerts were fetched or carried over. *)
Theorem refresh_alerts_invariant (self_data : option Data.t) (d : Data.t) :
  tiered (previous_alerts self_data) ->
  (length (previous_alerts self_data) <= 10)%nat ->
  _async_update_data self_data = Ok d ->
  tiered (Data.alerts d) /\ (length (Data.alerts d) <= 10)%nat.
Proof.
  intros Hprev Hlen. unfold _async_update_data.
  destruct (if deadline1 then _ else _fetch_weather) as [data | e];
    [| discriminate].
  destruct deadline2.
  - intros H. injection H as <-. destruct data; auto.
  - destruct _fetch_alerts as [alerts | e] eqn:E; intros H; injection H as <-.
    + pose proof (fetch_alerts_tiered alerts E).
      pose proof (fetch_alerts_length alerts E). destruct data; auto.
    + destruct data; auto.
Qed.

(** *** What the entities show *)

(** X9. The weather entity's alert attributes and the alert sensor agree:
    the count is the sensor's state, the summary is [highest_severity] of
    the alert list also when the list is empty, the sensor has attributes
    exactly when the weather entity lists alerts, and then with the same
    list and summary.  For alerts that carry one of the four tiers the
    summary is none exactly when the count is 0. *)
Theorem entity_alert_attributes (d : Data.t) :
  exists w,
    Weather.extra_state_attributes (Some d) = Some w
    /\ Weather.alert_count w = Sensor.alert_count_value_fn d
    /\ Weather.highest_alert_severity w = highest_severity (Data.alerts d)
    /\ (Weather.alerts w = None <-> Weather.alert_count w = 0%nat)
    /\ (forall key,
          Sensor.extra_state_attributes key (Some d)
          = match Weather.alerts w with
            | Some alerts =>
                if String.eqb key "alert_count"
                then Some (Sensor.mk_attrs alerts (Weather.highest_alert_severity w))
                else None
            | None => None
            end)
    /\ (tiered (Data.alerts d) ->
        (Weather.highest_alert_severity w = "none"
         <-> Weather.alert_count w = 0%nat)).
Proof.
  eexists. split; [reflexivity |].
  cbn [Weather.alert_count Weather.highest_alert_severity Weather.alerts].
  unfold Sensor.alert_count_value_fn, Sensor.extra_state_attributes.
  split; [reflexivity |].
  split; [destruct (Data.alerts d); reflexivity |].
  split; [destruct (Data.alerts d); simpl; split; intros; congruence |].
  split.
  { intros key. destruct (String.eqb key "alert_count");
      destruct (Data.alerts d); reflexivity. }
  intros Ht.
  assert (Hnone : highest_severity (Data.alerts d) = "none" <-> Data.alerts d = []).
  { destruct (highest_severity_cases (Data.alerts d)) as [[E Hn] | (a & Ha & E & _)].
    - rewrite E. split; reflexivity.
    - unfold tiered in Ht. rewrite Forall_forall in Ht.
      pose proof (Ht a Ha) as Hin. rewrite E. split.
      + intros En. rewrite En in Hin. unfold alert_tiers in Hin.
        rewrite !elem_of_cons in Hin.
        repeat (destruct Hin as [Hin | Hin]; [discriminate Hin |]).
        apply elem_of_nil in Hin. contradiction.
      + intros En. rewrite En in Ha. apply elem_of_nil in Ha. contradiction. }
  destruct (Data.alerts d) as [| a r] eqn:E.
  - split; reflexivity.
  - rewrite Hnone. simpl. split; intros; congruence.
Qed.

(** *** Bounds of the daily series *)

(** X11. The daily series is never longer than the hourly one; the
    lowest temperature of a day is at most its highest, and both are
    present or both absent; every summary stands for a date that some
    hourly entry falls on; and the series is empty exactly when no hourly
    entry has a timestamp that parses. *)
Theorem aggregate_daily_bounds (hourly : list Hourly.t) :
  (length (_aggregate_daily hourly) <= length hourly)%nat
  /\ Forall extremes_ordered (_aggregate_daily hourly)
  /\ Forall (fun s => exists k e,
               Daily.datetime s = (k ++ "T00:00:00+00:00")%string
               /\ e ∈ hourly /\ date_key e = Some k)
            (_aggregate_daily hourly)
  /\ (_aggregate_daily hourly = []
      <-> forall e, e ∈ hourly -> date_key e = None).
Proof.
  rewrite aggregate_daily_unfold.
  set (keys := sorted_keys (group_by_date hourly)).
  assert (Hkeys : forall k, k ∈ keys <-> exists e, e ∈ hourly /\ date_key e = Some k)
    by apply sorted_keys_elem.
  split; [| split; [| split]].
  - rewrite length_map.
    transitivity (length (omap date_key hourly)); [| apply omap_length_le].
    apply submseteq_length, NoDup_submseteq; [apply sorted_keys_NoDup |].
    intros k Hk. apply Hkeys in Hk as (e & He & Hk).
    apply list_elem_of_omap. exists e. auto.
  - apply Forall_forall. intros s Hs.
    apply list_elem_of_fmap in Hs as (k & -> & _).
    unfold extremes_ordered, daily_entry.
    cbn [Daily.temperature Daily.templow].
    set (temps := omap Hourly.temperature (entries_on k hourly)).
    pose proof (max_opt_spec temps) as Hmax.
    pose proof (min_opt_spec temps) as Hmin.
    destruct (Num.max_opt temps) as [hi |] eqn:Ehi,
             (Num.min_opt temps) as [lo |] eqn:Elo.
    + destruct Hmax as [_ Hmax], Hmin as [Hlo _]. apply Hmax, Hlo.
    + rewrite Hmin in Ehi. discriminate Ehi.
    + rewrite Hmax in Elo. discriminate Elo.
    + exact I.
  - apply Forall_forall. intros s Hs.
    apply list_elem_of_fmap in Hs as (k & -> & Hk).
    apply Hkeys in Hk as (e & He & Hk). exists k, e. auto.
  - split.
    + intros Hnil e He. destruct (date_key e) as [k |] eqn:Hk; [| reflexivity].
      assert (Hin : k ∈ keys) by (apply Hkeys; eauto).
      apply map_eq_nil in Hnil. rewrite Hnil in Hin.
      apply elem_of_nil in Hin. contradiction.
    + intros Hnone. destruct keys as [| k r]; [reflexivity |].
      destruct (proj1 (Hkeys k) (list_elem_of_here k r)) as (e & He & Hk).
      rewrite (Hnone e He) in Hk. discriminate Hk.
Qed.

(** *** Links of the alert index *)

Lemma extract_link_loop_spec (link_elems : list Element) (fallback : option string) :
  extract_link_loop link_elems fallback
  = match List.find is_cap_link link_elems with
    | Some elem => inl (href elem)
    | None =>
        inr (match fallback with
             | Some f => Some f
             | None => href <$> List.find (fun elem => Str.truthy (href elem)) link_elems
             end)
    end.
Proof.
  revert fallback. induction link_elems as [| elem rest IH]; intros fallback.
  - destruct fallback; reflexivity.
  - cbn [extract_link_loop List.find]. unfold is_cap_link at 1. fold (href elem).
    destruct (Str.truthy (href elem)
              && (Str.contains (ET.get (ET.attrib elem) "type") "xml"
                  || Str.endswith (href elem) "/xml/")); [reflexivity |].
    rewrite IH. destruct (List.find is_cap_link rest); [reflexivity |].
    destruct fallback; [reflexivity |].
    destruct (Str.truthy (href elem)); reflexivity.
Qed.

Lemma extract_link_best (entry : Element) : _extract_link entry = best_link entry.
Proof.
  unfold _extract_link, best_link. rewrite extract_link_loop_spec.
  destruct (List.find is_cap_link _); [reflexivity |].
  destruct (List.find (fun elem => Str.truthy (href elem)) _); [reflexivity |].
  cbn [fmap option_fmap option_map].
  destruct (ET.find entry "link") as [link_elem |]; [| reflexivity].
  unfold nonempty, Str.otruthy.
  destruct (ET.text link_elem) as [t |]; [| reflexivity].
  destruct (Str.truthy t); reflexivity.
Qed.

(** X12. The loop of [_extract_link] chooses by precedence, not by
    position: the first link element that points to XML (by its type or by
    the end of its address) wherever it stands, else the first link
    element with an address, else the stripped text of a bare link
    element.  An address taken from an attribute is never empty. *)
Theorem extract_link_precedence (entry : Element) :
  _extract_link entry = best_link entry
  /\ (forall elem,
        List.find is_cap_link
          (ET.or_list (ET.findall entry (atom_ns ++ "link"))
                      (ET.findall entry "link")) = Some elem ->
        _extract_link entry = Some (href elem)
        /\ Str.truthy (href elem) = true)
  /\ (forall elem,
        List.find is_cap_link
          (ET.or_list (ET.findall entry (atom_ns ++ "link"))
                      (ET.findall entry "link")) = None ->
        List.find (fun elem => Str.truthy (href elem))
          (ET.or_list (ET.findall entry (atom_ns ++ "link"))
                      (ET.findall entry "link")) = Some elem ->
        _extract_link entry = Some (href elem)
        /\ Str.truthy (href elem) = true).
Proof.
  split; [apply extract_link_best |]. rewrite extract_link_best. unfold best_link.
  split.
  - intros elem H. rewrite H. split; [reflexivity |].
    apply List.find_some in H as [_ H]. unfold is_cap_link in H.
    apply andb_true_iff in H as [H _]. exact H.
  - intros elem Hnone H. rewrite Hnone, H. split; [reflexivity |].
    apply List.find_some in H as [_ H]. exact H.
Qed.

Lemma omap_ext_all {A B : Type} (f g : A -> option B) (l : list A) :
  (forall x, f x = g x) -> omap f l = omap g l.
Proof.
  intros H. induction l as [| x l IH]; [reflexivity |].
  cbn [omap list_omap]. rewrite H, IH. reflexivity.
Qed.

Lemma feed_entries_spec (root : Element) :
  ET.or_list (ET.findall_deep root (atom_ns ++ "entry"))
    (ET.or_list (ET.findall_deep root "entry") (ET.findall_deep root "item"))
  = feed_entries root.
Proof.
  unfold feed_entries, ET.or_list.
  destruct (ET.findall_deep root (atom_ns ++ "entry")); [| reflexivity].
  destruct (ET.findall_deep root "entry"); reflexivity.
Qed.

(** X13. The links read from an alert index are never empty; each is the
    link of one of the index's entries, in the order of the entries; the
    entries are the Atom entries when the index has any, so that bare
    entries and items are then ignored; and a body that is not XML gives
    no link. *)
Theorem parse_alert_feed_links (content : string) :
  Forall (fun link => Str.truthy link = true) (_parse_alert_feed content)
  /\ (fromstring content = None -> _parse_alert_feed content = [])
  /\ (forall root,
        fromstring content = Some root ->
        _parse_alert_feed content
        = omap (fun entry => nonempty (best_link entry)) (feed_entries root)
        /\ (length (_parse_alert_feed content) <= length (feed_entries root))%nat
        /\ (ET.findall_deep root (atom_ns ++ "entry") <> [] ->
            feed_entries root = ET.findall_deep root (atom_ns ++ "entry"))).
Proof.
  unfold _parse_alert_feed.
  destruct (fromstring content) as [root |] eqn:Hroot.
  - rewrite feed_entries_spec.
    rewrite (omap_ext_all _ (fun entry => nonempty (best_link entry)))
      by (intros entry; rewrite extract_link_best; reflexivity).
    split.
    { apply Forall_forall. intros link Hl.
      apply list_elem_of_omap in Hl as (entry & _ & Hl). unfold nonempty in Hl.
      destruct (best_link entry) as [l |]; [| discriminate].
      destruct (Str.truthy l) eqn:Ht; [| discriminate].
      injection Hl as <-. exact Ht. }
    split; [discriminate |].
    intros root' H. injection H as <-.
    split; [reflexivity |]. split; [apply omap_length_le |].
    unfold feed_entries.
    destruct (ET.findall_deep root (atom_ns ++ "entry")); [congruence | reflexivity].
  - split; [constructor |]. split; [reflexivity |]. intros root H. discriminate H.
Qed.

(** *** The CAP parser *)

Lemma find_elem (e c : Element) (t : string) :
  ET.find e t = Some c -> c ∈ ET.children e /\ ET.tag c = t.
Proof.
  unfold ET.find, ET.findall. intros H.
  destruct (List.filter (ET.has_tag t) (ET.children e)) as [| x r] eqn:E;
    [discriminate |].
  injection H as ->.
  assert (Hin : In c (List.filter (ET.has_tag t) (ET.children e)))
    by (rewrite E; left; reflexivity).
  apply List.filter_In in Hin as [Hin Ht].
  split; [apply list_elem_of_In, Hin | apply String.eqb_eq, Ht].
Qed.

Lemma findall_elem (e c : Element) (t : string) :
  c ∈ ET.findall e t -> c ∈ ET.children e /\ ET.tag c = t.
Proof.
  unfold ET.findall. intros H.
  apply list_elem_of_In, List.filter_In in H as [Hin Ht].
  split; [apply list_elem_of_In, Hin | apply String.eqb_eq, Ht].
Qed.

Lemma select_info_loop_elem (info_blocks : list Element)
    (fallback : option Element) (info : Element) :
  select_info_loop info_blocks fallback = Some info ->
  info ∈ info_blocks \/ fallback = Some info.
Proof.
  revert fallback. induction info_blocks as [| i r IH]; intros fallback;
    cbn [select_info_loop]; [auto |].
  destruct (Str.startswith _ self_alert_language).
  - intros H. injection H as ->. left. apply list_elem_of_here.
  - intros H. apply IH in H as [H | H].
    + left. apply list_elem_of_further, H.
    + destruct fallback; [right; exact H |].
      injection H as ->. left. apply list_elem_of_here.
Qed.

Lemma select_info_block_elem (info_blocks : list Element) (info : Element) :
  _select_info_block info_blocks = Some info -> info ∈ info_blocks.
Proof.
  intros H. apply select_info_loop_elem in H as [H | H];
    [exact H | discriminate H].
Qed.

Lemma is_alert_test (root : Element) :
  is_alert root ->
  String.eqb (ET.tag root) (cap_ns ++ "alert") || String.eqb (ET.tag root) "alert"
  = true.
Proof.
  intros [H | H]; rewrite H, String.eqb_refl; [reflexivity | apply orb_true_r].
Qed.

Lemma info_blocks_elem (root info : Element) :
  info ∈ ET.or_list (ET.findall root (cap_ns ++ "info")) (ET.findall root "info") ->
  info ∈ ET.children root
  /\ (ET.tag info = (cap_ns ++ "info")%string \/ ET.tag info = "info").
Proof.
  unfold ET.or_list.
  destruct (ET.findall root (cap_ns ++ "info")) as [| x r] eqn:E.
  - intros H. apply findall_elem in H as [H1 H2]. auto.
  - rewrite <- E. intros H. apply findall_elem in H as [H1 H2]. auto.
Qed.

(** X14. For a document whose root is the alert element, the parser
    gives no alert exactly when the alert has no info block under either
    tag: the test for a missing info block after the selection never
    fires.  An alert that it gives carries the address it was fetched
    from, one of the four tiers, and the event of one of the alert's info
    blocks. *)
Theorem parse_cap_xml_result (content source_url : string) (root : Element) :
  fromstring content = Some root ->
  is_alert root ->
  (_parse_cap_xml content source_url = None
   <-> ET.findall root (cap_ns ++ "info") = [] /\ ET.findall root "info" = [])
  /\ (forall a,
        _parse_cap_xml content source_url = Some a ->
        link a = source_url
        /\ severity_color a ∈ alert_tiers
        /\ exists info,
             info ∈ ET.children root
             /\ (ET.tag info = (cap_ns ++ "info")%string \/ ET.tag info = "info")
             /\ event a = txt info "event"
             /\ severity a = txt info "severity").
Proof.
  intros Hroot Halert. split.
  - unfold _parse_cap_xml. rewrite Hroot, (is_alert_test root Halert).
    cbv beta iota zeta.
    destruct (ET.or_list (ET.findall root (cap_ns ++ "info"))
                         (ET.findall root "info")) as [| i r] eqn:E.
    + split; [intros _ | reflexivity]. unfold ET.or_list in E.
      destruct (ET.findall root (cap_ns ++ "info")); [auto | discriminate E].
    + destruct (select_info_block_is_Some (i :: r)) as [info Hinfo];
        [discriminate |].
      rewrite Hinfo. split; [discriminate |].
      intros [E1 E2]. rewrite E1, E2 in E. discriminate E.
  - intros a H.
    split; [apply (parse_cap_xml_link _ _ _ H) |].
    split; [apply (parse_cap_xml_tier _ _ _ H) |].
    unfold _parse_cap_xml in H. rewrite Hroot, (is_alert_test root Halert) in H.
    cbv beta iota zeta in H.
    destruct (ET.or_list (ET.findall root (cap_ns ++ "info"))
                         (ET.findall root "info")) as [| i r] eqn:E;
      [discriminate H |].
    destruct (_select_info_block (i :: r)) as [info |] eqn:Hinfo;
      [| discriminate H].
    apply select_info_block_elem in Hinfo. rewrite <- E in Hinfo.
    apply info_blocks_elem in Hinfo as [Hc Ht].
    injection H as <-. exists info. cbn [event severity]. auto.
Qed.

Lemma txt_namespaced_leaf (parent : Element) (tag : string) :
  namespaced_leaf parent tag = true -> txt parent tag = None.
Proof.
  unfold namespaced_leaf, txt, ET.or_else. rewrite andb_true_iff.
  intros [H1 H2].
  destruct (ET.find parent tag); [discriminate H2 |].
  destruct (ET.find parent (cap_ns ++ tag)) as [elem |]; [| reflexivity].
  apply negb_true_iff in H1. rewrite H1. reflexivity.
Qed.

(** X15. On a CAP 1.2 document as the broker delivers it (every element
    in the CAP namespace, the text fields without child elements), the
    parsed alert has no event, severity, onset, expiry, headline,
    description, urgency or certainty text and no identifier, and its
    tier is unknown: a field element without children counts as false in
    the lookup [find(namespaced) or find(bare)], so its text is never
    read. *)
Theorem cap_namespaced_text_lost (content source_url : string)
    (root : Element) (a : Alert) :
  fromstring content = Some root ->
  is_alert root ->
  (forall info tag,
     info ∈ ET.children root -> tag ∈ cap_text_fields ->
     namespaced_leaf info tag = true) ->
  namespaced_leaf root "identifier" = true ->
  _parse_cap_xml content source_url = Some a ->
  event a = None /\ severity a = None /\ severity_color a = "unknown"
  /\ onset a = None /\ expires a = None /\ headline a = None
  /\ description a = None /\ urgency a = None /\ certainty a = None
  /\ identifier a = None.
Proof.
  intros Hroot Halert Hfields Hident H.
  unfold _parse_cap_xml in H. rewrite Hroot, (is_alert_test root Halert) in H.
  cbv beta iota zeta in H.
  destruct (ET.or_list (ET.findall root (cap_ns ++ "info"))
                       (ET.findall root "info")) as [| i r] eqn:E;
    [discriminate H |].
  destruct (_select_info_block (i :: r)) as [info |] eqn:Hinfo;
    [| discriminate H].
  apply select_info_block_elem in Hinfo. rewrite <- E in Hinfo.
  apply info_blocks_elem in Hinfo as [Hc _].
  assert (Htxt : forall tag, tag ∈ cap_text_fields -> txt info tag = None).
  { intros tag Ht. apply txt_namespaced_leaf, Hfields; assumption. }
  injection H as <-.
  cbn [event severity severity_color onset expires headline description
       urgency certainty identifier].
  rewrite !Htxt by (unfold cap_text_fields; rewrite !elem_of_cons; auto 10).
  do 2 (split; [reflexivity |]). split; [reflexivity |].
  do 6 (split; [reflexivity |]).
  unfold namespaced_leaf in Hident. apply andb_true_iff in Hident as [H1 H2].
  unfold ET.or_else.
  destruct (ET.find root "identifier"); [discriminate H2 |].
  destruct (ET.find root (cap_ns ++ "identifier")) as [elem |]; [| reflexivity].
  apply negb_true_iff in H1. rewrite H1. reflexivity.
Qed.

(** *** The station check and the first refresh *)

Lemma parse_forecast_ok_iff (body : string) :
  (exists d, _parse_forecast body = Ok d)
  <-> exists root station,
        fromstring body = Some root
        /\ ET.find_deep root "station" = Some station
        /\ ET.findall_deep station "forecast" <> [].
Proof.
  unfold _parse_forecast, _parse_xml_root.
  destruct (fromstring body) as [root |] eqn:Hr.
  - destruct (ET.find_deep root "station") as [station |] eqn:Hs.
    + destruct (ET.findall_deep station "forecast") as [| c r] eqn:E.
      * split; [intros [d H]; discriminate H |].
        intros (root' & station' & H1 & H2 & H3).
        injection H1 as <-. rewrite Hs in H2. injection H2 as <-. congruence.
      * split; [| eauto]. intros _. exists root, station. rewrite E. auto.
    + split; [intros [d H]; discriminate H |].
      intros (root' & station' & H1 & H2 & _).
      injection H1 as <-. rewrite Hs in H2. discriminate H2.
  - split; [intros [d H]; discriminate H |].
    intros (root' & station' & H1 & _). discriminate H1.
Qed.

Lemma validate_station_body (get : string -> Fetch) (station_id body : string) :
  get (FORECAST_URL station_id) = Response 200 body ->
  match validate_station get false station_id with
  | Valid id name =>
      id = station_id
      /\ (exists d, _parse_forecast body = Ok d) /\ marked_valid body
  | Invalid CannotConnect => False
  | Invalid InvalidStation =>
      ~ ((exists d, _parse_forecast body = Ok d) /\ marked_valid body)
  end.
Proof.
  intros Hget. unfold validate_station. rewrite Hget.
  change (200 =? 200)%Z with true. cbn [negb].
  pose proof (parse_forecast_ok_iff body) as Hok. unfold marked_valid.
  destruct (fromstring body) as [root |] eqn:Hr;
    [| intros [_ (r & s & H & _)]; discriminate H].
  destruct (ET.find_deep root "station") as [station |] eqn:Hs;
    [| intros [_ (r & s & H1 & H2 & _)]; injection H1 as <-;
       rewrite Hs in H2; discriminate H2].
  destruct (String.eqb_spec (dict_get_default (ET.attrib station) "valid" "0") "1")
    as [Hv | Hv]; cbn [negb].
  - destruct (ET.findall_deep station "forecast") as [| c r] eqn:E.
    + intros [Hp _]. apply Hok in Hp as (r' & s' & H1 & H2 & H3).
      injection H1 as <-. rewrite Hs in H2. injection H2 as <-. congruence.
    + split; [reflexivity |]. split.
      * apply Hok. exists root, station. rewrite E. auto.
      * exists root, station. auto.
  - intros [_ (r & s & H1 & H2 & H3)].
    injection H1 as <-. rewrite Hs in H2. injection H2 as <-. contradiction.
Qed.

(** X16. The station check sorts its failures by cause: it raises
    CannotConnect exactly when the request times out, fails or is not
    answered with status 200; it accepts exactly when the answer is a body
    that the coordinator's forecast parser accepts and whose station
    record is marked valid, and then returns the id it was given; in all
    other cases it raises InvalidStation. *)
Theorem validate_station_outcomes (get : string -> Fetch) (timeout : bool)
    (station_id : string) :
  (validate_station get timeout station_id = Invalid CannotConnect
   <-> timeout = true
       \/ forall body, get (FORECAST_URL station_id) <> Response 200 body)
  /\ ((exists id name, validate_station get timeout station_id = Valid id name)
      <-> timeout = false
          /\ exists body,
               get (FORECAST_URL station_id) = Response 200 body
               /\ (exists d, _parse_forecast body = Ok d)
               /\ marked_valid body)
  /\ (forall id name,
        validate_station get timeout station_id = Valid id name ->
        id = station_id).
Proof.
  destruct timeout.
  { unfold validate_station. split; [split; auto |]. split; [| discriminate].
    split; [intros (id & name & H); discriminate H | intros [H _]; discriminate H]. }
  destruct (get (FORECAST_URL station_id)) as [e | status body] eqn:Hget.
  { unfold validate_station. rewrite Hget.
    split; [split; [intros _; right; discriminate | reflexivity] |].
    split; [| discriminate].
    split; [intros (id & name & H); discriminate H |].
    intros (_ & body & H & _). discriminate H. }
  destruct (Z.eqb_spec status 200) as [-> | Hne].
  2:{ unfold validate_station. rewrite Hget.
      apply Z.eqb_neq in Hne. rewrite Hne. cbn [negb].
      apply Z.eqb_neq in Hne.
      split; [split; [intros _; right; congruence | reflexivity] |].
      split; [| discriminate].
      split; [intros (id & name & H); discriminate H |].
      intros (_ & body' & H & _). congruence. }
  pose proof (validate_station_body get station_id body Hget) as Hb.
  destruct (validate_station get false station_id) as [id name | [|]].
  - destruct Hb as (-> & Hp & Hm).
    split; [split; [discriminate | intros [H | H];
                                     [discriminate H | destruct (H body); reflexivity]] |].
    split; [| intros id' name' H; injection H as <- _; reflexivity].
    split; [intros _; split; [reflexivity | exists body; auto] | eauto].
  - contradiction.
  - split; [split; [discriminate | intros [H | H];
                                     [discriminate H | destruct (H body); reflexivity]] |].
    split; [| discriminate].
    split; [intros (id & name & H); discriminate H |].
    intros (_ & body' & H & Hp & Hm).
    assert (body' = body) by congruence. subst body'. destruct Hb. auto.
Qed.

(** X17. A station that the check accepted from the answer the first
    refresh gets is a station the refresh does not fail on: phase 1
    succeeds, and the refresh succeeds unless phase 1 runs out of time.
    (The check asks for more than the refresh: a station record that is
    not marked valid is refused by the check and parsed by the
    refresh.) *)
Theorem validate_station_refresh (timeout : bool) (id name : string)
    (self_data : option Data.t) :
  validate_station (session_get 0) timeout self_station_id = Valid id name ->
  id = self_station_id
  /\ (exists d, _fetch_weather = Ok d /\ Data.station_id d = id)
  /\ (deadline1 = false ->
      exists d, _async_update_data self_data = Ok d /\ Data.station_id d = id).
Proof.
  intros H.
  destruct timeout; [discriminate H |].
  destruct (session_get 0 (FORECAST_URL self_station_id)) as [e | status body] eqn:Hget;
    [unfold validate_station in H; rewrite Hget in H; discriminate H |].
  destruct (Z.eqb_spec status 200) as [-> | Hne].
  2:{ unfold validate_station in H. rewrite Hget in H.
      apply Z.eqb_neq in Hne. rewrite Hne in H. discriminate H. }
  pose proof (validate_station_body (session_get 0) self_station_id body Hget) as Hb.
  rewrite H in Hb. destruct Hb as (-> & [d0 Hp] & _).
  split; [reflexivity |].
  assert (Hw : exists d, _fetch_weather = Ok d /\ Data.station_id d = self_station_id).
  { apply fetch_xml_ok in Hget. unfold _fetch_weather. rewrite Hget, Hp.
    pose proof (parse_forecast_consistent body d0 Hp) as Hc.
    destruct (_fetch_xml 1 (OBSERVATION_URL self_station_id)) as [oxml | e].
    - eexists. split; [reflexivity |].
      apply (apply_observations_consistent d0 oxml Hc).
    - exists d0. split; [reflexivity | apply Hc]. }
  split; [exact Hw |].
  intros Hd. destruct Hw as (d & Hw & Hid).
  destruct (update_succeeds_with_weather self_data d Hd Hw) as [alerts Hu].
  exists (Data.set_alerts alerts d). split; [exact Hu |].
  destruct d; exact Hid.
Qed.

(** *** From forecast entries to days *)

(** X18. When the ISO timestamp written for a forecast entry reads back
    as the same time, no entry of the hourly series is left out of the
    daily aggregation: the days of the daily series are exactly the dates
    of the forecast entries with a usable timestamp, each once, and the
    daily series is empty only when the hourly series is. *)
Theorem forecast_days (forecasts : list Element) :
  (forall fc dt,
     fc ∈ forecasts -> usable_ftime fc = Some dt ->
     fromisoformat (Iso.datetime_utc dt) = Some dt) ->
  let hourly := _parse_hourly forecasts in
  (forall e, e ∈ hourly -> exists k, date_key e = Some k)
  /\ (exists dates,
        map Daily.datetime (_aggregate_daily hourly)
        = map (fun k => (k ++ "T00:00:00+00:00")%string) dates
        /\ NoDup dates
        /\ forall k, k ∈ dates
                     <-> exists fc dt, fc ∈ forecasts
                                       /\ usable_ftime fc = Some dt
                                       /\ Iso.date dt = k)
  /\ (_aggregate_daily hourly = [] <-> hourly = []).
Proof.
  intros Hrt hourly.
  assert (Hkey : forall e, e ∈ hourly ->
             exists fc dt, fc ∈ forecasts /\ usable_ftime fc = Some dt
                           /\ date_key e = Some (Iso.date dt)).
  { intros e He. unfold hourly, _parse_hourly in He.
    apply list_elem_of_omap in He as (fc & Hfc & He).
    pose proof (hourly_entry_datetime fc) as E. rewrite He in E.
    destruct (usable_ftime fc) as [dt |] eqn:Hu; [| discriminate E].
    injection E as E. exists fc, dt. split; [exact Hfc |]. split; [exact Hu |].
    unfold date_key. rewrite E, (Hrt fc dt Hfc Hu). reflexivity. }
  split; [intros e He; destruct (Hkey e He) as (fc & dt & _ & _ & Hk); eauto |].
  split.
  - exists (sorted_keys (group_by_date hourly)).
    split; [rewrite aggregate_daily_unfold, map_map; reflexivity |].
    split; [apply sorted_keys_NoDup |].
    intros k. rewrite sorted_keys_elem. split.
    + intros (e & He & Hk). destruct (Hkey e He) as (fc & dt & Hfc & Hu & Hk').
      exists fc, dt. split; [exact Hfc |]. split; [exact Hu | congruence].
    + intros (fc & dt & Hfc & Hu & <-).
      pose proof (hourly_entry_datetime fc) as E. rewrite Hu in E.
      destruct (hourly_entry fc) as [e |] eqn:He; [| discriminate E].
      injection E as E. exists e. split.
      * unfold hourly, _parse_hourly. apply list_elem_of_omap. eauto.
      * unfold date_key. rewrite E, (Hrt fc dt Hfc Hu). reflexivity.
  - split; [| intros ->; reflexivity].
    intros Hnil. destruct hourly as [| e r] eqn:E; [reflexivity |].
    destruct (Hkey e (list_elem_of_here e r)) as (fc & dt & _ & _ & Hk).
    assert (Hin : Iso.date dt ∈ sorted_keys (group_by_date (e :: r))).
    { apply sorted_keys_elem. exists e. split; [apply list_elem_of_here | exact Hk]. }
    rewrite aggregate_daily_unfold in Hnil. apply map_eq_nil in Hnil.
    rewrite Hnil in Hin. apply elem_of_nil in Hin. contradiction.
Qed.

(** *** Text and number of a child element *)

Lemma rstrip_idem (s : string) : Str.rstrip (Str.rstrip s) = Str.rstrip s.
Proof.
  induction s as [| c r IH]; [reflexivity |]. cbn [Str.rstrip].
  destruct (Str.rstrip r) as [| c' r'] eqn:E.
  - destruct (Str.is_space c) eqn:Hc; [reflexivity |].
    cbn [Str.rstrip]. rewrite Hc. reflexivity.
  - cbn [Str.rstrip] in *. rewrite IH. reflexivity.
Qed.

Lemma lstrip_head (s : string) :
  Str.lstrip s = ""
  \/ exists c r, Str.lstrip s = String c r /\ Str.is_space c = false.
Proof.
  induction s as [| c r IH]; [left; reflexivity |]. cbn [Str.lstrip].
  destruct (Str.is_space c) eqn:Hc; [exact IH |]. right. eauto.
Qed.

Lemma rstrip_head (c : ascii) (r : string) :
  Str.is_space c = false -> exists r', Str.rstrip (String c r) = String c r'.
Proof.
  intros Hc. cbn [Str.rstrip]. destruct (Str.rstrip r); [rewrite Hc |]; eauto.
Qed.

Lemma strip_idem (s : string) : Str.strip (Str.strip s) = Str.strip s.
Proof.
  unfold Str.strip.
  destruct (lstrip_head s) as [E | (c & r & E & Hc)]; rewrite E.
  - reflexivity.
  - destruct (rstrip_head c r Hc) as [r' E']. rewrite E'.
    cbn [Str.lstrip]. rewrite Hc, <- E'. apply rstrip_idem.
Qed.

(** X19. The text read from a child element is stripped: stripping it
    again changes nothing, so it neither starts nor ends with white space
    (it can be empty).  The number read from a child element is the
    conversion of exactly that text: there is a number only where there is
    a text, and a text that is no numeral gives no number and no error. *)
Theorem text_float_agree (element : Element) (tag : string) :
  (forall s, _text element tag = Some s -> Str.strip s = s)
  /\ _float element tag = _text element tag ≫= py_float
  /\ (_text element tag = None -> _float element tag = None)
  /\ (forall s, _text element tag = Some s -> py_float s = None ->
                _float element tag = None).
Proof.
  assert (E : _float element tag = _text element tag ≫= py_float).
  { unfold _float, _text.
    destruct (ET.find element tag) as [child |]; [| reflexivity].
    destruct (ET.text child) as [t |]; [| reflexivity]. cbn [Str.otruthy].
    destruct (Str.truthy t); reflexivity. }
  split; [| split; [exact E | split]].
  - unfold _text. intros s H.
    destruct (ET.find element tag) as [child |]; [| discriminate H].
    destruct (ET.text child) as [t |]; [| discriminate H].
    cbn [Str.otruthy] in H. destruct (Str.truthy t); [| discriminate H].
    injection H as <-. apply strip_idem.
  - intros H. rewrite E, H. reflexivity.
  - intros s H Hf. rewrite E, H. exact Hf.
Qed.

(** *** The selection loop *)

Lemma select_info_loop_find (info_blocks : list Element) (fallback : option Element) :
  select_info_loop info_blocks fallback
  = match List.find
            (fun info => Str.startswith (read_language info) self_alert_language)
            info_blocks with
    | Some info => Some info
    | None => match fallback with Some f => Some f | None => head info_blocks end
    end.
Proof.
  revert fallback. induction info_blocks as [| info r IH]; intros fallback.
  - destruct fallback; reflexivity.
  - cbn [select_info_loop List.find]. fold (read_language info).
    destruct (Str.startswith (read_language info) self_alert_language);
      [reflexivity |].
    rewrite IH. destruct (List.find _ r); [reflexivity |].
    destruct fallback; reflexivity.
Qed.

Lemma startswith_empty (s : string) : Str.startswith s "" = true.
Proof. destruct s; reflexivity. Qed.

(** X20. The loop of [_select_info_block] returns the first info block
    whose language code, as the loop reads it, starts with the preferred
    language, wherever it stands, and the first block when there is none;
    the result is always one of the blocks, and there is none only for
    the empty list.  With an empty preferred language every code matches,
    so the first block is returned. *)
Theorem select_info_block_first_match (info_blocks : list Element) :
  _select_info_block info_blocks
  = match List.find
            (fun info => Str.startswith (read_language info) self_alert_language)
            info_blocks with
    | Some info => Some info
    | None => head info_blocks
    end
  /\ (forall info, _select_info_block info_blocks = Some info -> info ∈ info_blocks)
  /\ (_select_info_block info_blocks = None <-> info_blocks = [])
  /\ (self_alert_language = "" -> _select_info_block info_blocks = head info_blocks).
Proof.
  assert (E := select_info_loop_find info_blocks None).
  fold (_select_info_block info_blocks) in E.
  split; [exact E |]. split; [apply select_info_block_elem |]. split.
  - split.
    + intros H. destruct info_blocks as [| i r]; [reflexivity |].
      destruct (select_info_block_is_Some (i :: r)) as [info Hi]; [discriminate |].
      congruence.
    + intros ->. reflexivity.
  - intros Hlang. rewrite E.
    destruct info_blocks as [| i r]; [reflexivity |].
    cbn [List.find]. rewrite Hlang, startswith_empty. reflexivity.
Qed.

(** *** Severity of documents without a namespace *)

Lemma txt_severity_bare (info : Element) :
  ET.find info (cap_ns ++ "severity") = None ->
  or_empty (txt info "severity") = severity_text info.
Proof.
  intros Hns. unfold txt, severity_text. rewrite Hns. cbn [ET.or_else].
  destruct (ET.find info "severity") as [e |]; [| reflexivity].
  destruct (ET.text e) as [[| c t] |]; reflexivity.
Qed.

(** On a document without a namespaced severity element the tier is the
    table applied to the lowercased severity text of one of the alert's
    info blocks. *)
Lemma parse_cap_xml_severity_bare (content source_url : string)
    (root : Element) (a : Alert) :
  fromstring content = Some root ->
  is_alert root ->
  (forall info, info ∈ ET.children root ->
                ET.find info (cap_ns ++ "severity") = None) ->
  _parse_cap_xml content source_url = Some a ->
  exists info,
    info ∈ ET.children root
    /\ severity_color a = severity_tier (Str.lower (severity_text info)).
Proof.
  intros Hroot Halert Hbare H.
  pose proof (parse_cap_xml_severity _ _ _ H) as Hsev.
  rewrite severity_map_tier in Hsev.
  unfold _parse_cap_xml in H. rewrite Hroot, (is_alert_test root Halert) in H.
  cbv beta iota zeta in H.
  destruct (ET.or_list (ET.findall root (cap_ns ++ "info"))
                       (ET.findall root "info")) as [| i r] eqn:E;
    [discriminate H |].
  destruct (_select_info_block (i :: r)) as [info |] eqn:Hinfo;
    [| discriminate H].
  apply select_info_block_elem in Hinfo. rewrite <- E in Hinfo.
  apply info_blocks_elem in Hinfo as [Hc _].
  exists info. split; [exact Hc |].
  rewrite Hsev. injection H as <-. cbn [severity].
  rewrite (txt_severity_bare info (Hbare info Hc)). reflexivity.
Qed.

End Coordinator.

(** ** The wind-chill formula and its power function *)

(** X10. The power function is consulted for bases of at least 4.8 only:
    two power functions that agree there give the same wind chill on all
    readings.  The base of a call is therefore never negative or zero,
    where [math.pow] with the exponent 0.16 is not defined. *)
Theorem wind_chill_pow_domain (pow1 pow2 : Q -> Q -> Q)
    (temp_c wind_mps : option Q) :
  (forall x : Q, (4.8 <= x)%Q -> pow1 x 0.16%Q = pow2 x 0.16%Q) ->
  _wind_chill pow1 temp_c wind_mps = _wind_chill pow2 temp_c wind_mps.
Proof.
  intros Hpow. destruct temp_c as [T |], wind_mps as [w |]; try reflexivity.
  unfold _wind_chill.
  destruct (Num.gtb T _WIND_CHILL_MAX_TEMP); [reflexivity |].
  destruct (Num.ltb (w * 3.6) _WIND_CHILL_MIN_WIND) eqn:E; [reflexivity |].
  cbn [orb]. rewrite (Hpow (w * 3.6)%Q); [reflexivity |].
  unfold Num.ltb in E. apply negb_false_iff, Qle_bool_iff in E. exact E.
Qed.

(** ** Alert details and the rest of the network *)

Lemma collect_gather_agree (fromstring : string -> option Element)
    (self_alert_language : string) (net1 net2 : nat -> string -> Fetch)
    (tasks : list (nat * string)) :
  (forall t, t ∈ tasks -> net1 (fst t) (snd t) = net2 (fst t) (snd t)) ->
  collect_alerts (gather fromstring self_alert_language net1 tasks)
  = collect_alerts (gather fromstring self_alert_language net2 tasks).
Proof.
  intros Hagree. unfold gather. f_equal. apply map_ext_in. intros t Ht.
  unfold _fetch_cap_alert. rewrite Hagree; [reflexivity |].
  apply list_elem_of_In, Ht.
Qed.

(** C8. When the index yields links, one detail request is made for each
    of the first ten links, and the outcome of no other request matters;
    the alert list is made of the alerts of the tasks that succeed, so a
    task that fails removes only its own alert; and the alerts come in the
    order of their links, whatever the order in which the requests
    complete, since the results are gathered in the order of the tasks. *)
Theorem fetch_alerts_claim (fromstring : string -> option Element)
    (self_alert_language : string) (session_get : nat -> string -> Fetch)
    (content : string) :
  session_get 2 ALERTS_URL = Response 200 content ->
  _parse_alert_feed fromstring content <> [] ->
  let links := _parse_alert_feed fromstring content in
  let tasks := cap_tasks links in
  let alert_of := alert_of_task fromstring self_alert_language session_get in
  map snd tasks = take 10 links
  /\ (length tasks <= 10)%nat
  /\ (exists alerts,
        _fetch_alerts fromstring self_alert_language session_get = Ok alerts
        /\ alerts = concat (map alert_of tasks)
        /\ (forall t1 t t2,
              tasks = t1 ++ t :: t2 ->
              alerts = concat (map alert_of t1) ++ alert_of t
                       ++ concat (map alert_of t2))
        /\ map link alerts `sublist_of` take 10 links)
  /\ (forall other : nat -> string -> Fetch,
        other 2 ALERTS_URL = Response 200 content ->
        (forall t, t ∈ tasks -> other (fst t) (snd t) = session_get (fst t) (snd t)) ->
        _fetch_alerts fromstring self_alert_language other
        = _fetch_alerts fromstring self_alert_language session_get).
Proof.
  intros Hidx Hne links tasks alert_of.
  destruct (fetch_alerts_assembly fromstring self_alert_language session_get
              content Hidx Hne) as (Hsnd & Hlen & Halerts).
  split; [exact Hsnd |]. split; [exact Hlen |]. split; [exact Halerts |].
  intros other Hidx' Hagree. subst tasks links.
  unfold _fetch_alerts. rewrite Hidx, Hidx', Z.eqb_refl.
  destruct (_parse_alert_feed fromstring content) as [| l0 r]; [reflexivity |].
  f_equal. apply collect_gather_agree, Hagree.
Qed.

(** ** The claims on concrete feeds *)

Local Abbreviation sample_fromstring := (Sample.fromstring Sample.docs).

Local Abbreviation sample_hourly :=
  (_parse_hourly Sample.float Sample.pow Sample.strptime
     [Sample.fc1; Sample.fc2; Sample.fc3]).

Local Abbreviation sample_daily :=
  (_aggregate_daily Sample.fromisoformat Sample.set_iter Sample2.sum sample_hourly).

Local Abbreviation sample_forecast xml :=
  (_parse_forecast sample_fromstring Sample.float Sample.pow Sample.strptime
     Sample.fromisoformat Sample.set_iter Sample2.sum "1" "Reykjavik" xml).

Local Abbreviation sample_weather net :=
  (_fetch_weather sample_fromstring Sample.float Sample.pow Sample.strptime
     Sample.fromisoformat Sample.set_iter Sample2.sum "1" "Reykjavik" net).

Local Abbreviation sample_update net prev :=
  (_async_update_data sample_fromstring Sample.float Sample.pow Sample.strptime
     Sample.fromisoformat Sample.set_iter Sample2.sum "1" "Reykjavik" "is" net false false prev).

(** Wind chill: 12 degrees is outside the formula's domain; 5 degrees in a
    wind of 10 km/h is inside; an absent temperature gives no value. *)
Lemma wind_chill_claim_witness :
  _wind_chill Sample.pow (Some 12%Q) (Some 3%Q) = Some 12%Q
  /\ _wind_chill Sample.pow (Some 5%Q) (Some (25 # 9)%Q)
     = Some (Num.round1
               (13.12 + 0.6215 * 5
                + (-11.37 + 0.3965 * 5) * Sample.pow ((25 # 9) * 3.6) 0.16)%Q)
  /\ _wind_chill Sample.pow None (Some 3%Q) = None.
Proof.
  split; [| split].
  - apply (proj2 (wind_chill_claim Sample.pow (Some 12%Q) (Some 3%Q))
             12%Q 3%Q eq_refl eq_refl).
    left. reflexivity.
  - apply (proj2 (wind_chill_claim Sample.pow (Some 5%Q) (Some (25 # 9)%Q))
             5%Q (25 # 9)%Q eq_refl eq_refl).
    intros [H | H]; vm_compute in H; discriminate H.
  - apply (proj1 (wind_chill_claim Sample.pow None (Some 3%Q))).
    left. reflexivity.
Defined.

(** Severity: the bare document with severity Extreme parses to a red
    alert, and yellow together with red gives red. *)
Lemma severity_of_extracted_text_sample :
  severity_color <$> _parse_cap_xml sample_fromstring "is" "<alert extreme/>" "https://cap/5"
  = Some (severity_tier "extreme")
  /\ highest_severity [Sample.yellow_alert; Sample.red_alert] = "red".
Proof.
  destruct (severity_of_extracted_text sample_fromstring "is")
    as (Hparse & _ & _ & _ & _ & _ & _ & _ & Hred).
  split.
  - destruct (_parse_cap_xml sample_fromstring "is" "<alert extreme/>" "https://cap/5")
      as [a |] eqn:E; [| vm_compute in E; discriminate E].
    simpl. f_equal. rewrite (Hparse _ _ _ E).
    vm_compute in E. injection E as <-. reflexivity.
  - apply Hred. exists Sample.red_alert.
    split; [apply list_elem_of_further, list_elem_of_here | reflexivity].
Defined.

(** The hourly series: an entry whose timestamp does not parse, and one
    without a timestamp, leave the series as if they were not there. *)
Lemma parse_hourly_claim_witness :
  _parse_hourly Sample.float Sample.pow Sample.strptime
    [Sample.fc1; Sample.fc_bad; Sample.fc2]
  = _parse_hourly Sample.float Sample.pow Sample.strptime [Sample.fc1; Sample.fc2]
  /\ _parse_hourly Sample.float Sample.pow Sample.strptime
       [Sample.fc_none; Sample.fc3]
     = _parse_hourly Sample.float Sample.pow Sample.strptime [Sample.fc3].
Proof.
  split.
  - apply (proj1 (proj2 (proj2
             (parse_hourly_claim Sample.float Sample.pow Sample.strptime
                [Sample.fc1; Sample.fc_bad; Sample.fc2])))
             [Sample.fc1] Sample.fc_bad [Sample.fc2]); reflexivity.
  - apply (proj1 (proj2 (proj2
             (parse_hourly_claim Sample.float Sample.pow Sample.strptime
                [Sample.fc_none; Sample.fc3])))
             [] Sample.fc_none [Sample.fc3]); reflexivity.
Defined.

(** Daily aggregation of the three sample entries: two summaries, the first
    date with maximum 9, minimum 5 and mean wind 5.0, the second with -2
    twice and no wind speed.  The mean of the winds 2.5 and 2.6 is rounded
    to 2.5, and a precipitation of 0.15 to 0.1, as binary64 arithmetic
    has it. *)
Lemma aggregate_daily_claim_witness :
  map (fun s => (Daily.datetime s, Daily.temperature s, Daily.templow s,
                 Daily.wind_speed s, Daily.wind_gust s, Daily.precipitation s))
      sample_daily
  = [ ("2024-03-01T00:00:00+00:00", Some 9%Q, Some 5%Q, Some 5%Q, None, None);
      ("2024-03-02T00:00:00+00:00", Some (-2)%Q, Some (-2)%Q, None, None, None) ]
  /\ Float.round1
       (Float.truediv (Sample2.sum [Float.fl 2.5; Float.fl 2.6]) 2)
     = Float.fl 2.5
  /\ Float.round1 (Sample2.sum [Float.fl 0.15]) = Float.fl 0.1
  /\ exists dates : list string,
       (forall k, k ∈ dates
                  <-> exists e, e ∈ sample_hourly
                                /\ date_key Sample.fromisoformat e = Some k)
       /\ NoDup dates
       /\ StronglySorted str_le dates
       /\ StronglySorted chronological dates
       /\ Forall2 (fun k s =>
                     summary_of Sample2.sum k
                       (entries_on Sample.fromisoformat k sample_hourly) s)
                  dates sample_daily.
Proof.
  split; [vm_compute; reflexivity |].
  split; [vm_compute; reflexivity |].
  split; [vm_compute; reflexivity |].
  exact (aggregate_daily_claim Sample.fromisoformat Sample.set_iter Sample2.sum
           sample_hourly).
Defined.

Lemma sample_set_iter_elem (l : list string) (x : string) :
  x ∈ Sample.set_iter l <-> x ∈ l.
Proof.
  induction l as [| y r IH]; [reflexivity |].
  cbn [Sample.set_iter]. rewrite !elem_of_cons, <- IH, list_elem_of_In.
  rewrite List.filter_In, <- list_elem_of_In, negb_true_iff.
  destruct (String.eqb_spec y x) as [-> | Hne].
  - split; auto.
  - split; [intros [-> | [H _]]; auto | intros [-> | H]; auto].
Qed.

Lemma sample_set_iter_rev_elem (l : list string) (x : string) :
  x ∈ Sample2.set_iter_rev l <-> x ∈ l.
Proof.
  unfold Sample2.set_iter_rev. rewrite <- (sample_set_iter_elem l x).
  rewrite !list_elem_of_In. symmetry. apply in_rev.
Qed.

(** The modal condition on the sample, with the set iterated in the order
    of first occurrence: the second date has the one code sunny, which is
    its condition whatever the order. *)
Lemma modal_condition_amended_witness :
  Daily.condition <$> sample_daily !! 1%nat = Some (Some "sunny")
  /\ exists dates : list string,
       (forall k, k ∈ dates
                  <-> exists e, e ∈ sample_hourly
                                /\ date_key Sample.fromisoformat e = Some k)
       /\ Forall2
            (fun k s =>
               let conds :=
                 conditions_of (entries_on Sample.fromisoformat k sample_hourly) in
               modal_of Sample.set_iter conds (Daily.condition s)
               /\ (forall r, modal_of Sample.set_iter conds r -> r = Daily.condition s)
               /\ (forall c,
                     c ∈ conds ->
                     (forall c', c' ∈ conds -> c' <> c ->
                                 (count conds c' < count conds c)%nat) ->
                     Daily.condition s = Some c))
            dates sample_daily.
Proof.
  split; [vm_compute; reflexivity |].
  exact (modal_condition_amended Sample.fromisoformat Sample.set_iter Sample2.sum
           sample_set_iter_elem sample_hourly).
Defined.

(** C3 as stated fails on the code.  The first date of the sample has the
    codes rainy and cloudy, once each and in this order.  Both iteration
    orders below enumerate the set of the two codes; with the one the
    condition of the day is rainy, with the other it is cloudy, which is
    not the code met first among the entries.  So the entries alone do not
    determine the result of a tie. *)
Lemma modal_condition_counterexample :
  (forall l x, x ∈ Sample.set_iter l <-> x ∈ l)
  /\ (forall l x, x ∈ Sample2.set_iter_rev l <-> x ∈ l)
  /\ conditions_of (entries_on Sample.fromisoformat "2024-03-01" sample_hourly)
     = ["rainy"; "cloudy"]
  /\ Sample.set_iter ["rainy"; "cloudy"] = ["rainy"; "cloudy"]
  /\ Sample2.set_iter_rev ["rainy"; "cloudy"] = ["cloudy"; "rainy"]
  /\ Daily.condition
       <$> _aggregate_daily Sample.fromisoformat Sample.set_iter Sample2.sum
             sample_hourly !! 0%nat
     = Some (Some "rainy")
  /\ Daily.condition
       <$> _aggregate_daily Sample.fromisoformat Sample2.set_iter_rev Sample2.sum
             sample_hourly !! 0%nat
     = Some (Some "cloudy").
Proof.
  split; [exact sample_set_iter_elem |].
  split; [exact sample_set_iter_rev_elem |].
  vm_compute. repeat split.
Qed.

(** The overlay on the sample: the observed temperature 7.5 and wind speed
    3 replace the forecast's, the apparent temperature follows them, and
    the hourly series is the forecast's. *)
Lemma apply_observations_claim_witness :
  exists data data',
    sample_forecast "<forecasts/>" = Ok data
    /\ data' = _apply_observations sample_fromstring Sample.float Sample.pow
                 data "<observations/>"
    /\ Data.forecast_hourly data' = Data.forecast_hourly data
    /\ Data.temperature data' = Some 7.5%Q
    /\ Data.feels_like data'
       = _wind_chill Sample.pow (Data.temperature data') (Data.wind_speed data')
    /\ _apply_observations sample_fromstring Sample.float Sample.pow data "not xml"
       = data.
Proof.
  destruct (sample_forecast "<forecasts/>") as [data |] eqn:E;
    [| vm_compute in E; discriminate E].
  exists data, (_apply_observations sample_fromstring Sample.float Sample.pow
                  data "<observations/>").
  destruct (apply_observations_claim sample_fromstring Sample.float Sample.pow
              data "<observations/>") as (Hh & _ & _ & Hst & _ & _).
  destruct (Hst Sample.observation_root
              (Elem "station" [("id", "1")] None
                 [Sample.leaf "time" "2024-03-01 11:00:00";
                  Sample.leaf "T" "7.5"; Sample.leaf "F" "3"])
              eq_refl eq_refl) as (_ & _ & Ht & _ & Hf).
  split; [reflexivity |]. split; [reflexivity |]. split; [exact Hh |].
  split; [rewrite Ht; reflexivity |]. split; [exact Hf |].
  apply (apply_observations_claim sample_fromstring Sample.float Sample.pow
           data "not xml"). reflexivity.
Defined.

(** The refresh on the sample: an error status for the forecast, or a
    station without forecast entries, fails it; an error status for the
    observations leaves a successful refresh with the forecast's dict. *)
Lemma refresh_forecast_amended_witness :
  sample_update Sample.net_no_forecast None = Raise UpdateFailed
  /\ sample_update Sample.net_empty_forecast None = Raise UpdateFailed
  /\ exists data alerts,
       sample_forecast "<forecasts/>" = Ok data
       /\ sample_update Sample.net_no_observation None
          = Ok (Data.set_alerts alerts data).
Proof.
  split; [| split].
  - apply (proj1
             (refresh_forecast_amended sample_fromstring Sample.float Sample.pow
                Sample.strptime Sample.fromisoformat Sample.set_iter Sample2.sum
                "1" "Reykjavik" "is" Sample.net_no_forecast false false None)).
    intros body H. vm_compute in H. discriminate H.
  - apply (proj1 (proj2
             (refresh_forecast_amended sample_fromstring Sample.float Sample.pow
                Sample.strptime Sample.fromisoformat Sample.set_iter Sample2.sum
                "1" "Reykjavik" "is" Sample.net_empty_forecast false false None))
             "<forecasts empty/>"); [reflexivity |].
    right. right. exists Sample.empty_station_root.
    exists (Elem "station" [("id", "1")] None [Sample.leaf "name" "Reykjavik"]).
    repeat split.
  - destruct (sample_forecast "<forecasts/>") as [data |] eqn:E;
      [| vm_compute in E; discriminate E].
    destruct (proj1 (proj2 (proj2
                (refresh_forecast_amended sample_fromstring Sample.float Sample.pow
                   Sample.strptime Sample.fromisoformat Sample.set_iter Sample2.sum
                   "1" "Reykjavik" "is" Sample.net_no_observation false false None)))
                "<forecasts/>" data eq_refl E) as [Hin _].
    + vm_compute. left. discriminate.
    + destruct (Hin eq_refl) as [alerts Ha].
      exists data, alerts. split; [reflexivity | exact Ha].
Defined.

(** C4 as stated fails on the code.  The forecast is answered and valid,
    the observation request is not answered; when it is still pending at
    the end of the 20 s of phase 1, the refresh fails, although only the
    observation fetch failed.  (When it fails in time, the refresh
    succeeds with the forecast's dict.) *)
Lemma refresh_forecast_counterexample :
  Sample2.net_observation_hangs 0 (FORECAST_URL "1") = Response 200 "<forecasts/>"
  /\ Sample2.net_observation_hangs 1 (OBSERVATION_URL "1") = Fails TimeoutError
  /\ observation_unusable sample_fromstring "1" Sample2.net_observation_hangs
  /\ (exists data, sample_forecast "<forecasts/>" = Ok data
                   /\ sample_weather Sample2.net_observation_hangs = Ok data)
  /\ _async_update_data sample_fromstring Sample.float Sample.pow Sample.strptime
       Sample.fromisoformat Sample.set_iter Sample2.sum "1" "Reykjavik" "is"
       Sample2.net_observation_hangs true false None
     = Raise UpdateFailed.
Proof.
  split; [reflexivity |]. split; [reflexivity |].
  split; [vm_compute; exact I |].
  split; [| reflexivity].
  destruct (sample_forecast "<forecasts/>") as [data |] eqn:E;
    [| vm_compute in E; discriminate E].
  exists data. split; [reflexivity |].
  vm_compute in E. injection E as <-. vm_compute. reflexivity.
Qed.

(** C1 as stated fails on the code: with the previous cycle's alert known
    and the alert index answering 503, the refresh succeeds with an empty
    alert list, not with the previous cycle's. *)
Lemma refresh_alerts_counterexample :
  index_without_links sample_fromstring Sample.net_index_503
  /\ exists data,
       sample_weather Sample.net_index_503 = Ok data
       /\ sample_update Sample.net_index_503 (Some Sample.previous_data)
          = Ok (Data.set_alerts [] data)
       /\ sample_update Sample.net_index_503 (Some Sample.previous_data)
          <> Ok (Data.set_alerts (previous_alerts (Some Sample.previous_data)) data).
Proof.
  split; [vm_compute; left; discriminate |].
  destruct (sample_weather Sample.net_index_503) as [data |] eqn:E;
    [| vm_compute in E; discriminate E].
  exists data. split; [reflexivity |].
  assert (Hrun : sample_update Sample.net_index_503 (Some Sample.previous_data)
                 = Ok (Data.set_alerts [] data)).
  { unfold _async_update_data. rewrite E. reflexivity. }
  split; [exact Hrun |].
  rewrite Hrun. intros H. injection H as H. discriminate H.
Qed.

(** The amended claim on the sample: an index that cannot be reached keeps
    the previous alerts; an index answering 503, or a feed without
    entries, gives the empty list. *)
Lemma refresh_alerts_amended_witness :
  exists data,
    sample_weather Sample.net_index_down = Ok data
    /\ sample_update Sample.net_index_down (Some Sample.previous_data)
       = Ok (Data.set_alerts [Sample.old_alert] data)
    /\ sample_update Sample.net_index_503 (Some Sample.previous_data)
       = Ok (Data.set_alerts [] data)
    /\ sample_update Sample.net_index_empty (Some Sample.previous_data)
       = Ok (Data.set_alerts [] data).
Proof.
  destruct (sample_weather Sample.net_index_down) as [data |] eqn:E;
    [| vm_compute in E; discriminate E].
  exists data. split; [reflexivity |]. split; [| split].
  - apply (refresh_alerts_amended sample_fromstring Sample.float Sample.pow
             Sample.strptime Sample.fromisoformat Sample.set_iter Sample2.sum
             "1" "Reykjavik" "is" Sample.net_index_down false false
             (Some Sample.previous_data) data eq_refl E).
    right. exists ClientError. reflexivity.
  - apply (refresh_alerts_amended sample_fromstring Sample.float Sample.pow
             Sample.strptime Sample.fromisoformat Sample.set_iter Sample2.sum
             "1" "Reykjavik" "is" Sample.net_index_503 false false
             (Some Sample.previous_data) data eq_refl E); [reflexivity |].
    vm_compute. left. discriminate.
  - apply (refresh_alerts_amended sample_fromstring Sample.float Sample.pow
             Sample.strptime Sample.fromisoformat Sample.set_iter Sample2.sum
             "1" "Reykjavik" "is" Sample.net_index_empty false false
             (Some Sample.previous_data) data eq_refl E); [reflexivity |].
    vm_compute. right. right. reflexivity.
Defined.

(** Alert details on the sample: twelve links, ten tasks; links 2, 3 and 4
    fail each in its own way and remove nothing else; the alerts of links
    1 and 5 come in that order; what links 11 and 12 would answer changes
    nothing. *)
Lemma fetch_alerts_claim_witness :
  length (_parse_alert_feed sample_fromstring "<feed/>") = 12%nat
  /\ length (cap_tasks (_parse_alert_feed sample_fromstring "<feed/>")) = 10%nat
  /\ (exists alerts,
        _fetch_alerts sample_fromstring "is" Sample.net_alerts = Ok alerts
        /\ map link alerts = ["https://cap/1"; "https://cap/5"]
        /\ map link alerts
           `sublist_of` take 10 (_parse_alert_feed sample_fromstring "<feed/>"))
  /\ _fetch_alerts sample_fromstring "is" Sample.net_alerts_late
     = _fetch_alerts sample_fromstring "is" Sample.net_alerts.
Proof.
  split; [vm_compute; reflexivity |]. split; [vm_compute; reflexivity |].
  destruct (fetch_alerts_claim sample_fromstring "is" Sample.net_alerts "<feed/>")
    as (_ & _ & (alerts & Hrun & Hal & _ & Hsub) & Hother).
  - reflexivity.
  - vm_compute. discriminate.
  - split.
    + exists alerts. split; [exact Hrun |]. split; [| exact Hsub].
      rewrite Hal. vm_compute. reflexivity.
    + apply Hother; [reflexivity |].
      apply Forall_forall. vm_compute. repeat constructor.
Defined.

(** C6 on a namespaced CAP document with an English and an Icelandic info
    block, preferred language [is]: the Icelandic block carries the
    language code [is] and is the one the specification selects, but the
    code reads no language code from either block and returns the first. *)
Lemma select_info_block_namespaced :
  language_code Sample.info_is = "is"
  /\ select_by_language "is" [Sample.info_en; Sample.info_is] = Some Sample.info_is
  /\ _select_info_block "is" [Sample.info_en; Sample.info_is] = Some Sample.info_en
  /\ event <$> _parse_cap_xml sample_fromstring "is" "<alert ns/>" "https://cap/9"
     = Some None.
Proof. vm_compute. repeat split. Qed.

(** The same two blocks without a namespace: the Icelandic one is
    selected. *)
Lemma select_info_block_bare_sample :
  _select_info_block "is"
    [Sample.bare_info "en-US" "Gale warning" "Severe";
     Sample.bare_info "is" "Stormur" "Severe"]
  = Some (Sample.bare_info "is" "Stormur" "Severe").
Proof. vm_compute. reflexivity. Qed.

(** ** The further properties on concrete feeds *)

Local Abbreviation sample2_fromstring := (Sample.fromstring Sample2.docs).

(** A north-north-east forecast entry (label NNA): 22.5 degrees. *)
Lemma wind_bearing_range_witness :
  _wind_bearing Sample.fc1 = Some 22.5%Q
  /\ (0 <= 22.5)%Q /\ (22.5 < 360)%Q /\ compass_point 22.5%Q.
Proof.
  split; [reflexivity |].
  destruct (wind_bearing_range Sample.fc1 22.5%Q eq_refl) as (H0 & H360 & Hp & _).
  auto.
Defined.

Lemma sample_alerts_tiered : tiered [Sample.yellow_alert; Sample.red_alert].
Proof.
  unfold tiered, alert_tiers.
  constructor; [| constructor; [| constructor]];
    cbn [severity_color Sample.yellow_alert Sample.red_alert];
    rewrite !elem_of_cons; auto 10.
Qed.

(** A yellow and a red alert: the summary is a tier, not none. *)
Lemma highest_severity_none_iff_empty_witness :
  highest_severity [Sample.yellow_alert; Sample.red_alert] <> "none"
  /\ highest_severity [Sample.yellow_alert; Sample.red_alert] ∈ alert_tiers.
Proof.
  destruct (highest_severity_none_iff_empty
              [Sample.yellow_alert; Sample.red_alert] sample_alerts_tiered)
    as [Hiff Hin].
  split; [intros E; apply Hiff in E; discriminate E | apply Hin; discriminate].
Defined.

(** The same two alerts in either order. *)
Lemma highest_severity_permutation_witness :
  highest_severity [Sample.yellow_alert; Sample.red_alert]
  = highest_severity [Sample.red_alert; Sample.yellow_alert].
Proof.
  apply highest_severity_permutation;
    [exact sample_alerts_tiered | apply perm_swap].
Defined.

(** An observation in calm weather over the sample forecast: the
    direction becomes the label Logn, the bearing stays at the forecast's
    22.5 degrees, and the gust, which the observation does not have, stays
    as it was. *)
Lemma apply_observations_fields_witness :
  exists data data',
    _parse_forecast sample2_fromstring Sample.float Sample.pow Sample.strptime
      Sample.fromisoformat Sample.set_iter Sample2.sum "1" "Reykjavik" "<forecasts/>"
    = Ok data
    /\ data' = _apply_observations sample2_fromstring Sample.float Sample.pow
                 data "<observations calm/>"
    /\ Data.wind_bearing data = Some 22.5%Q
    /\ Data.wind_direction data' = Some "Logn"
    /\ Data.wind_bearing data' = Data.wind_bearing data
    /\ Data.wind_gust data' = Data.wind_gust data.
Proof.
  destruct (_parse_forecast sample2_fromstring Sample.float Sample.pow
              Sample.strptime Sample.fromisoformat Sample.set_iter Sample2.sum
              "1" "Reykjavik" "<forecasts/>") as [data |] eqn:E;
    [| vm_compute in E; discriminate E].
  exists data, (_apply_observations sample2_fromstring Sample.float Sample.pow
                  data "<observations calm/>").
  destruct (apply_observations_fields sample2_fromstring Sample.float Sample.pow
              data "<observations calm/>" Sample2.calm_root Sample2.calm_station
              eq_refl eq_refl)
    as (Hgust & _ & _ & _ & _ & _ & _ & _ & _ & _ & _ & _ & Hstale).
  destruct (Hstale "Logn" eq_refl eq_refl eq_refl) as [Hdir Hbear].
  split; [reflexivity |]. split; [reflexivity |].
  split; [vm_compute in E; injection E as <-; reflexivity |].
  split; [exact Hdir |]. split; [exact Hbear |].
  rewrite Hgust. reflexivity.
Defined.

(** The refresh on the sample network gives a consistent dict. *)
Lemma refresh_snapshot_consistent_witness :
  exists d,
    sample_update Sample.net_alerts None = Ok d
    /\ snapshot_consistent Sample.pow Sample.fromisoformat Sample.set_iter Sample2.sum
         "1" "Reykjavik" d.
Proof.
  destruct (sample_update Sample.net_alerts None) as [d |] eqn:E;
    [| vm_compute in E; discriminate E].
  exists d. split; [reflexivity |].
  exact (refresh_snapshot_consistent sample_fromstring Sample.float Sample.pow
           Sample.strptime Sample.fromisoformat Sample.set_iter Sample2.sum
           "1" "Reykjavik" "is" Sample.net_alerts false false None d E).
Defined.

Lemma sample_previous_tiered : tiered (previous_alerts (Some Sample.previous_data)).
Proof.
  unfold tiered, alert_tiers, previous_alerts.
  cbn [Data.alerts Sample.previous_data].
  constructor; [| constructor].
  cbn [severity_color Sample.old_alert]. rewrite !elem_of_cons. auto 10.
Qed.

(** An alert index that cannot be reached: the one alert of the previous
    dict is carried over, and it carries a tier. *)
Lemma refresh_alerts_invariant_witness :
  exists d,
    sample_update Sample.net_index_down (Some Sample.previous_data) = Ok d
    /\ Data.alerts d = [Sample.old_alert]
    /\ tiered (Data.alerts d) /\ (length (Data.alerts d) <= 10)%nat.
Proof.
  destruct (sample_update Sample.net_index_down (Some Sample.previous_data))
    as [d |] eqn:E; [| vm_compute in E; discriminate E].
  exists d. split; [reflexivity |].
  assert (Hlen : (length (previous_alerts (Some Sample.previous_data)) <= 10)%nat)
    by (vm_compute; lia).
  pose proof (refresh_alerts_invariant sample_fromstring Sample.float Sample.pow
                Sample.strptime Sample.fromisoformat Sample.set_iter Sample2.sum
                "1" "Reykjavik" "is" Sample.net_index_down false false
                (Some Sample.previous_data) d sample_previous_tiered Hlen E) as Ht.
  split; [| exact Ht].
  vm_compute in E. injection E as <-. reflexivity.
Defined.

Lemma sample_pow_agree (x : Q) :
  (4.8 <= x)%Q -> Sample.pow x 0.16%Q = Sample2.pow_from_threshold x 0.16%Q.
Proof.
  intros Hx. unfold Sample.pow, Sample2.pow_from_threshold.
  apply Qle_bool_iff in Hx. rewrite Hx. reflexivity.
Qed.

(** Two power functions that differ at base 1 and agree from 4.8 on give
    the same wind chill, in a light and in a fresh wind. *)
Lemma wind_chill_pow_domain_witness :
  Sample.pow 1 0.16 <> Sample2.pow_from_threshold 1 0.16
  /\ _wind_chill Sample.pow (Some 5%Q) (Some 1%Q)
     = _wind_chill Sample2.pow_from_threshold (Some 5%Q) (Some 1%Q)
  /\ _wind_chill Sample.pow (Some 5%Q) (Some 3%Q)
     = _wind_chill Sample2.pow_from_threshold (Some 5%Q) (Some 3%Q).
Proof.
  split; [vm_compute; discriminate |].
  split; apply wind_chill_pow_domain; exact sample_pow_agree.
Defined.

(** A bare CAP document with two info blocks gives an alert with its
    address and a tier. *)
Lemma parse_cap_xml_result_witness :
  exists a,
    _parse_cap_xml sample_fromstring "is" "<alert minor/>" "https://cap/1" = Some a
    /\ link a = "https://cap/1"
    /\ severity_color a ∈ alert_tiers.
Proof.
  destruct (_parse_cap_xml sample_fromstring "is" "<alert minor/>" "https://cap/1")
    as [a |] eqn:E; [| vm_compute in E; discriminate E].
  destruct (parse_cap_xml_result sample_fromstring "is" "<alert minor/>"
              "https://cap/1" (Sample.cap_bare "A" "Minor")
              eq_refl (or_intror eq_refl)) as [_ H].
  destruct (H a E) as (Hl & Ht & _).
  exists a. auto.
Defined.

Lemma sample_namespaced_fields (info : Element) (tag : string) :
  info ∈ ET.children Sample.cap_namespaced -> tag ∈ cap_text_fields ->
  namespaced_leaf info tag = true.
Proof.
  unfold Sample.cap_namespaced, ET.children, cap_text_fields.
  rewrite !elem_of_cons. intros Hi Ht.
  repeat (destruct Hi as [-> | Hi]);
    try (apply elem_of_nil in Hi; contradiction);
    repeat (destruct Ht as [-> | Ht]);
    try (apply elem_of_nil in Ht; contradiction);
    vm_compute; reflexivity.
Qed.

(** The namespaced sample document: its English info block has the event
    text Gale warning and the severity Severe, and the parsed alert has
    neither, no identifier, and the tier unknown. *)
Lemma cap_namespaced_text_lost_witness :
  ET.text <$> ET.find Sample.info_en (cap_ns ++ "event")
  = Some (Some "Gale warning")
  /\ exists a,
       _parse_cap_xml sample_fromstring "is" "<alert ns/>" "https://cap/9" = Some a
       /\ event a = None /\ severity a = None
       /\ severity_color a = "unknown" /\ identifier a = None.
Proof.
  split; [reflexivity |].
  destruct (_parse_cap_xml sample_fromstring "is" "<alert ns/>" "https://cap/9")
    as [a |] eqn:E; [| vm_compute in E; discriminate E].
  destruct (cap_namespaced_text_lost sample_fromstring "is" "<alert ns/>"
              "https://cap/9" Sample.cap_namespaced a
              eq_refl (or_introl eq_refl) sample_namespaced_fields eq_refl E)
    as (He & Hs & Hc & _ & _ & _ & _ & _ & _ & Hi).
  exists a. auto.
Defined.

(** A station marked valid is accepted under its popular name, and the
    refresh on the same answer succeeds; the unmarked sample forecast is
    refused by the check although the refresh parses it. *)
Lemma validate_station_refresh_witness :
  validate_station sample2_fromstring (Sample2.net_valid 0) false "1"
  = Valid "1" "Reykjavík"
  /\ (exists d,
        _async_update_data sample2_fromstring Sample.float Sample.pow
          Sample.strptime Sample.fromisoformat Sample.set_iter Sample2.sum
          "1" "Reykjavik" "is" Sample2.net_valid false false None = Ok d
        /\ Data.station_id d = "1")
  /\ validate_station sample2_fromstring (Sample2.net_unmarked 0) false "1"
     = Invalid InvalidStation
  /\ exists d,
       _fetch_weather sample2_fromstring Sample.float Sample.pow
         Sample.strptime Sample.fromisoformat Sample.set_iter Sample2.sum
         "1" "Reykjavik" Sample2.net_unmarked = Ok d.
Proof.
  split; [vm_compute; reflexivity |].
  split.
  - apply (proj2 (proj2
             (validate_station_refresh sample2_fromstring Sample.float Sample.pow
                Sample.strptime Sample.fromisoformat Sample.set_iter Sample2.sum
                "1" "Reykjavik" "is" Sample2.net_valid false false false
                "1" "Reykjavík" None eq_refl))).
    reflexivity.
  - split; [vm_compute; reflexivity |].
    destruct (_fetch_weather sample2_fromstring Sample.float Sample.pow
                Sample.strptime Sample.fromisoformat Sample.set_iter Sample2.sum
                "1" "Reykjavik" Sample2.net_unmarked) as [d |] eqn:E;
      [eauto | vm_compute in E; discriminate E].
Defined.

Lemma sample_round_trip (fc : Element) (dt : DateTime) :
  fc ∈ [Sample.fc1; Sample.fc_bad; Sample.fc2; Sample.fc3; Sample.fc_none] ->
  usable_ftime Sample.strptime fc = Some dt ->
  Sample.fromisoformat (Iso.datetime_utc dt) = Some dt.
Proof.
  rewrite !elem_of_cons. intros Hin Hu.
  repeat (destruct Hin as [-> | Hin]);
    try (apply elem_of_nil in Hin; contradiction);
    vm_compute in Hu; try discriminate Hu;
    injection Hu as <-; vm_compute; reflexivity.
Qed.

(** Five forecast entries, two of them without a usable timestamp: the
    daily series has the two dates of the other three. *)
Lemma forecast_days_witness :
  map Daily.datetime
    (_aggregate_daily Sample.fromisoformat Sample.set_iter Sample2.sum
       (_parse_hourly Sample.float Sample.pow Sample.strptime
          [Sample.fc1; Sample.fc_bad; Sample.fc2; Sample.fc3; Sample.fc_none]))
  = ["2024-03-01T00:00:00+00:00"; "2024-03-02T00:00:00+00:00"]
  /\ exists dates,
       map Daily.datetime
         (_aggregate_daily Sample.fromisoformat Sample.set_iter Sample2.sum
            (_parse_hourly Sample.float Sample.pow Sample.strptime
               [Sample.fc1; Sample.fc_bad; Sample.fc2; Sample.fc3; Sample.fc_none]))
       = map (fun k => (k ++ "T00:00:00+00:00")%string) dates
       /\ NoDup dates
       /\ forall k,
            k ∈ dates
            <-> exists fc dt,
                  fc ∈ [Sample.fc1; Sample.fc_bad; Sample.fc2; Sample.fc3;
                        Sample.fc_none]
                  /\ usable_ftime Sample.strptime fc = Some dt
                  /\ Iso.date dt = k.
Proof.
  split; [vm_compute; reflexivity |].
  exact (proj1 (proj2
           (forecast_days Sample.float Sample.pow Sample.strptime
              Sample.fromisoformat Sample.set_iter Sample2.sum
              [Sample.fc1; Sample.fc_bad; Sample.fc2; Sample.fc3; Sample.fc_none]
              sample_round_trip))).
Defined.

(** C7 on a namespaced CAP document: both info blocks carry the severity
    text Severe, which the table maps to orange, but the parser reads no
    severity text from the block it selects and gives the tier unknown.
    The lookup [find(namespaced) or find(bare)] of the parser discards the
    severity element it finds, since an element without children is
    false. *)
Lemma severity_namespaced_unknown :
  severity_text Sample.info_en = "Severe"
  /\ severity_text Sample.info_is = "Severe"
  /\ severity_tier (Str.lower "Severe") = "orange"
  /\ severity <$> _parse_cap_xml sample_fromstring "is" "<alert ns/>" "https://cap/9"
     = Some None
  /\ severity_color
       <$> _parse_cap_xml sample_fromstring "is" "<alert ns/>" "https://cap/9"
     = Some "unknown".
Proof. vm_compute. repeat split. Qed.

(** The bare document with the severity text Extreme: the tier is the
    table's, red. *)
Lemma severity_bare_sample :
  exists a info,
    _parse_cap_xml sample_fromstring "is" "<alert extreme/>" "https://cap/5" = Some a
    /\ info ∈ ET.children (Sample.cap_bare "B" "Extreme")
    /\ severity_color a = severity_tier (Str.lower (severity_text info))
    /\ severity_color a = "red".
Proof.
  destruct (_parse_cap_xml sample_fromstring "is" "<alert extreme/>" "https://cap/5")
    as [a |] eqn:E; [| vm_compute in E; discriminate E].
  destruct (parse_cap_xml_severity_bare sample_fromstring "is" "<alert extreme/>"
              "https://cap/5" (Sample.cap_bare "B" "Extreme") a
              eq_refl (or_intror eq_refl)) as (info & Hin & Hsev).
  - unfold Sample.cap_bare, ET.children. intros info Hin.
    rewrite !elem_of_cons in Hin.
    repeat (destruct Hin as [-> | Hin]);
      try (apply elem_of_nil in Hin; contradiction); reflexivity.
  - exact E.
  - exists a, info. split; [reflexivity |]. split; [exact Hin |].
    split; [exact Hsev |]. vm_compute in E. injection E as <-. reflexivity.
Qed.
